(** * sol2uml: the dot renderer of UML class diagrams

    A shallow embedding of [src/ts/dotGenerator.ts] and [src/ts/converter.ts]
    and the properties of the rendered Graphviz text.

    TypeScript strings are modelled by [string], a sequence of code units
    (the glyphs of the stereotypes stand in the literals as their UTF-8
    encoding), arrays by [list], optional fields by [option], objects used
    as maps by association lists in property-enumeration order, and string
    accumulation in a [for] loop by [fold_left] over the iterated array.
    The module variable [subGraphCount] and the array that
    [Array.prototype.sort] reorders in place are passed in and returned
    explicitly.  The file system, the [path] module, the layout engine and
    the raster converter are collaborators outside the repository and are
    taken as parameters. *)

From Stdlib Require Import List Bool Arith ZArith NArith Lia.
From Stdlib Require Import Strings.String Strings.Ascii Numbers.DecimalString.
From Stdlib Require Import Sorting.Sorted Sorting.Permutation.
From Stdlib Require Import Structures.OrderedTypeEx.
From Stdlib Require DecimalPos DecimalN Finite.
Import ListNotations.

Open Scope list_scope.
Open Scope string_scope.

(** ** JavaScript primitives *)

Module JS.

(** A property that holds a string, [null], or nothing at all. *)
Inductive Str : Type :=
| Undefined
| Null
| Val (s : string).

(** [!x] on such a property: absent, [null] and the empty string are falsy. *)
Definition falsy (x : Str) : bool :=
  match x with
  | Undefined | Null => true
  | Val s => s =? ""
  end.

(** [x === null]. *)
Definition is_null (x : Str) : bool :=
  match x with
  | Null => true
  | _ => false
  end.

(** String conversion in a concatenation [x + '...']. *)
Definition to_string (x : Str) : string :=
  match x with
  | Undefined => "undefined"
  | Null => "null"
  | Val s => s
  end.

(** The largest counter value a [++] on a JavaScript number still
    increments: from 2^53 on, [n + 1] rounds back to [n]. *)
Definition max_exact : N := 9007199254740992.

(** [n++] on a number that holds a natural number below or at 2^53. *)
Definition incr (n : N) : N :=
  if (n <? max_exact)%N then (n + 1)%N else n.

(** Decimal rendering of a natural number in a template literal. *)
Definition num_to_string (n : N) : string :=
  NilZero.string_of_uint (N.to_uint n).

(** [Array.prototype.includes] on an array of strings. *)
Definition includes (l : list string) (s : string) : bool :=
  existsb (fun x => x =? s) l.

(** [Array.prototype.sort] with a comparison function: the sort is stable
    (ECMAScript 2019), so for a consistent comparison function its result
    is the one of a stable insertion sort.  [insert_sorted x l] puts [x]
    in front of the first element that does not compare strictly below
    it. *)
Fixpoint insert_sorted {A : Type} (cmp : A -> A -> Z) (x : A) (l : list A)
  : list A :=
  match l with
  | [] => [x]
  | y :: t =>
      if (cmp x y >? 0)%Z then y :: insert_sorted cmp x t else x :: l
  end.

Fixpoint sort {A : Type} (cmp : A -> A -> Z) (l : list A) : list A :=
  match l with
  | [] => []
  | x :: t => insert_sorted cmp x (sort cmp t)
  end.

(** Under the comparison function, [x] does not have to come after [y]. *)
Definition notAfter {A : Type} (cmp : A -> A -> Z) (x y : A) : Prop :=
  (cmp x y <= 0)%Z.

(** [a < b] and [a > b] on strings: lexicographic on code units. *)
Definition str_lt (a b : string) : bool :=
  match String.compare a b with Lt => true | _ => false end.

Definition str_gt (a b : string) : bool :=
  match String.compare a b with Gt => true | _ => false end.

End JS.

(** ** The class model (umlClass.ts) *)

(** Modelled from the spec: the enumerations of [umlClass.ts], which is not
    among the sources.  TypeScript numbers the members of an enum from zero;
    [None] is the zero member of [Visibility], [ClassStereotype] and
    [OperatorStereotype], which is what makes the tests [!x.visibility],
    [!x.stereotype] and [stereotype > 0] of the renderer read "no value". *)
Inductive Visibility : Type :=
| VNone
| VPublic
| VExternal
| VInternal
| VPrivate.

Definition Visibility_ord (v : Visibility) : Z :=
  match v with
  | VNone => 0
  | VPublic => 1
  | VExternal => 2
  | VInternal => 3
  | VPrivate => 4
  end.

(** Modelled from the spec: the class stereotypes; [CContract] is the
    "Contract" of the renderer's own comment. *)
Inductive ClassStereotype : Type :=
| CNone
| CLibrary
| CInterface
| CAbstract
| CContract.

Definition ClassStereotype_ord (s : ClassStereotype) : Z :=
  match s with
  | CNone => 0
  | CLibrary => 1
  | CInterface => 2
  | CAbstract => 3
  | CContract => 4
  end.

(** Modelled from the spec: the operator stereotypes, numbered in the order
    the spec lists them, so that descending order reads Payable, Abstract,
    Modifier, Fallback, Event, None. *)
Inductive OperatorStereotype : Type :=
| ONone
| OEvent
| OFallback
| OModifier
| OAbstract
| OPayable.

Definition OperatorStereotype_ord (s : OperatorStereotype) : Z :=
  match s with
  | ONone => 0
  | OEvent => 1
  | OFallback => 2
  | OModifier => 3
  | OAbstract => 4
  | OPayable => 5
  end.

(** Modelled from the spec: how an association refers to its target. *)
Inductive ReferenceType : Type :=
| Memory
| Storage.

Definition Visibility_eqb (a b : Visibility) : bool :=
  (Visibility_ord a =? Visibility_ord b)%Z.

Definition ClassStereotype_eqb (a b : ClassStereotype) : bool :=
  (ClassStereotype_ord a =? ClassStereotype_ord b)%Z.

Definition OperatorStereotype_eqb (a b : OperatorStereotype) : bool :=
  (OperatorStereotype_ord a =? OperatorStereotype_ord b)%Z.

Definition ReferenceType_eqb (a b : ReferenceType) : bool :=
  match a, b with
  | Memory, Memory | Storage, Storage => true
  | _, _ => false
  end.

(** Modelled from the spec: the records of [umlClass.ts], with the field
    names the renderer reads.  [Param] is the [Parameter] of the source (the
    word is reserved in Rocq); its name may be absent or [null]. *)
Record Param : Type := mkParam {
  p_name : JS.Str;
  p_type : string
}.

Record Attribute : Type := mkAttribute {
  a_visibility : option Visibility;
  a_name : string;
  a_type : string
}.

Record Operator : Type := mkOperator {
  o_visibility : option Visibility;
  o_name : string;
  o_stereotype : OperatorStereotype;
  o_parameters : list Param;
  o_returnParameters : option (list Param)
}.

(** Modelled from the spec: an association names its target class; it is
    not yet linked to a class. *)
Record Association : Type := mkAssociation {
  referenceType : ReferenceType;
  targetUmlClassName : string;
  realization : bool
}.

(** Modelled from the spec: one declared contract, interface or library.
    [id] is the identifier of its node, in the form in which a template
    literal prints it; [structs], [enums] and [associations] are the objects
    used as maps, as their entries in enumeration order. *)
Record UmlClass : Type := mkUmlClass {
  id : string;
  name : string;
  codePath : string;
  importedPaths : list string;
  stereotype : option ClassStereotype;
  attributes : list Attribute;
  operators : list Operator;
  enums : list (string * list string);
  structs : list (string * list Param);
  associations : list (string * Association)
}.

(** [x.visibility === Visibility.V]: an absent visibility equals no member. *)
Definition visibility_is (x : option Visibility) (v : Visibility) : bool :=
  match x with
  | Some w => Visibility_eqb w v
  | None => false
  end.

(** [!x.visibility]: absent, or the zero member. *)
Definition visibility_falsy (x : option Visibility) : bool :=
  match x with
  | Some w => (Visibility_ord w =? 0)%Z
  | None => true
  end.

(** [x.stereotype === ClassStereotype.S]. *)
Definition stereotype_is (x : option ClassStereotype) (s : ClassStereotype)
  : bool :=
  match x with
  | Some w => ClassStereotype_eqb w s
  | None => false
  end.

(** [!x.stereotype]. *)
Definition stereotype_falsy (x : option ClassStereotype) : bool :=
  match x with
  | Some w => (ClassStereotype_ord w =? 0)%Z
  | None => true
  end.

(** [Object.values] of an object used as a map; a loop over [Object.keys]
    that reads [o[key]] is a loop over the entries themselves. *)
Definition Object_values {A : Type} (o : list (string * A)) : list A :=
  map snd o.

(** ** dotGenerator.ts *)

Record ClassOptions : Type := mkClassOptions {
  hideAttributes : bool;
  hideOperators : bool;
  hideStructs : bool;
  hideEnums : bool;
  hideLibraries : bool;
  hideInterfaces : bool
}.

Definition noOptions : ClassOptions :=
  mkClassOptions false false false false false false.

Definition dotClassTitle (umlClass : UmlClass) : string :=
  match stereotype umlClass with
  | Some CAbstract => "𝐀𝐛𝐬𝐭𝐫𝐚𝐜𝐭" ++ " " ++ name umlClass
  | Some CInterface => "𝐈𝐧𝐭𝐞𝐫𝐟𝐚𝐜𝐞" ++ " " ++ name umlClass
  | Some CLibrary => "𝐋𝐢𝐛𝐫𝐚𝐫𝐲" ++ " " ++ name umlClass
  | _ => name umlClass
  end.

(** The characters a Rocq string literal cannot hold. *)
Definition nl : string := String (ascii_of_nat 10) "".
Definition dq : string := String (ascii_of_nat 34) "".

Definition dotAttributes (vizGroup : string) (attributes : list Attribute)
  : string :=
  match attributes with
  | [] => ""
  | _ =>
      fold_left
        (fun dotString attribute =>
           dotString ++ ("\ \ \ " ++ a_name attribute ++ ": "
                         ++ a_type attribute ++ "\l"))
        attributes (vizGroup ++ ":\l")
  end.

(** The names of the visibility groups, in the order of the two loops. *)
Definition vizGroups : list string :=
  ["Private"; "Internal"; "External"; "Public"].

(** The [if ... else if ...] chain that decides whether a member with
    visibility [v] is pushed onto the list of group [vizGroup]. *)
Definition pushed (vizGroup : string) (v : option Visibility) : bool :=
  if (vizGroup =? "Private") && visibility_is v VPrivate then true
  else if (vizGroup =? "Internal") && visibility_is v VInternal then true
  else if (vizGroup =? "External") && visibility_is v VExternal then true
  else if (vizGroup =? "Public")
          && (visibility_is v VPublic || visibility_is v VNone
              || visibility_falsy v)
  then true
  else false.

Definition dotAttributeVisibilities (umlClass : UmlClass) : string :=
  fold_left
    (fun dotString vizGroup =>
       let attributes :=
         fold_left
           (fun attributes attribute =>
              if pushed vizGroup (a_visibility attribute)
              then (attributes ++ [attribute])%list
              else attributes)
           (attributes umlClass) [] in
       dotString ++ dotAttributes vizGroup attributes)
    vizGroups "| ".

Definition dotOperatorStereotype (umlClass : UmlClass)
  (operatorStereotype : OperatorStereotype) : string :=
  let dotString := "" in
  let dotString :=
    match operatorStereotype with
    | OEvent => dotString ++ "𝙚𝙫𝙚𝙣𝙩"
    | OFallback => dotString ++ "𝙛𝙖𝙡𝙡𝙗𝙖𝙘𝙠"
    | OModifier => dotString ++ "𝙢𝙤𝙙𝙞𝙛𝙞𝙚𝙧"
    | OAbstract =>
        if stereotype_is (stereotype umlClass) CAbstract
        then dotString ++ "𝙖𝙗𝙨𝙩𝙧𝙖𝙘𝙩"
        else dotString
    | OPayable => dotString ++ "𝙥𝙖𝙮𝙖𝙗𝙡𝙚"
    | ONone => dotString
    end in
  dotString ++ " ".

Definition dotParameters (parameters : list Param) (returnParams : bool)
  : string :=
  let loop :=
    fst
      (fold_left
         (fun (st : string * nat) parameter =>
            let (dotString, paramCount) := st in
            let dotString :=
              if JS.is_null (p_name parameter)
              then dotString ++ p_type parameter
              else dotString
                   ++ (JS.to_string (p_name parameter) ++ ": "
                       ++ p_type parameter) in
            let paramCount := S paramCount in
            if (paramCount <? List.length parameters)%nat
            then (dotString ++ ", ", paramCount)
            else (dotString, paramCount))
         parameters ("(", 0))
    ++ ")" in
  match parameters with
  | [p0] =>
      if JS.falsy (p_name p0)
      then if returnParams then p_type p0 else "(" ++ p_type p0 ++ ")"
      else loop
  | _ => loop
  end.

(** The comparison function of the sort in [dotOperators]. *)
Definition byStereotypeDesc (a b : Operator) : Z :=
  (OperatorStereotype_ord (o_stereotype b)
   - OperatorStereotype_ord (o_stereotype a))%Z.

(** The text one pass of the loop of [dotOperators] appends. *)
Definition dotOperator (umlClass : UmlClass) (operator : Operator) : string :=
  let dotString := "\ \ \ \ " in
  let dotString :=
    if (OperatorStereotype_ord (o_stereotype operator) >? 0)%Z
    then dotString ++ dotOperatorStereotype umlClass (o_stereotype operator)
    else dotString in
  let dotString := dotString ++ o_name operator in
  let dotString := dotString ++ dotParameters (o_parameters operator) false in
  let dotString :=
    match o_returnParameters operator with
    | Some (r :: rs) => dotString ++ (": " ++ dotParameters (r :: rs) true)
    | _ => dotString
    end in
  dotString ++ "\l".

Definition dotOperators (umlClass : UmlClass) (vizGroup : string)
  (operators : list Operator) : string :=
  match operators with
  | [] => ""
  | _ =>
      let operatorsSortedByStereotype := JS.sort byStereotypeDesc operators in
      fold_left
        (fun dotString operator => dotString ++ dotOperator umlClass operator)
        operatorsSortedByStereotype (vizGroup ++ ":\l")
  end.

Definition dotOperatorVisibilities (umlClass : UmlClass) : string :=
  fold_left
    (fun dotString vizGroup =>
       let operators :=
         fold_left
           (fun operators operator =>
              if pushed vizGroup (o_visibility operator)
              then (operators ++ [operator])%list
              else operators)
           (operators umlClass) [] in
       dotString ++ dotOperators umlClass vizGroup operators)
    vizGroups "| ".

Definition dotStructs (umlClass : UmlClass) : string :=
  fst
    (fold_left
       (fun (st : string * N) (entry : string * list Param) =>
          let (dotString, structCount) := st in
          let (structKey, fields) := entry in
          let structId :=
            id umlClass ++ "struct" ++ JS.num_to_string structCount in
          let structCount := JS.incr structCount in
          let dotString :=
            dotString
            ++ (nl ++ dq ++ structId ++ dq ++ " [label=" ++ dq
                ++ "{\<\<struct\>\>\n" ++ structKey ++ "|") in
          let dotString :=
            fold_left
              (fun dotString attribute =>
                 dotString
                 ++ (JS.to_string (p_name attribute) ++ ": "
                     ++ p_type attribute ++ "\l"))
              fields dotString in
          let dotString := dotString ++ ("}" ++ dq ++ "]") in
          let dotString :=
            dotString
            ++ (nl ++ dq ++ structId ++ dq ++ " -> " ++ id umlClass
                ++ " [arrowhead=diamond, weight=3]") in
          (dotString, structCount))
       (structs umlClass) ("", 0%N)).

Definition dotEnums (umlClass : UmlClass) : string :=
  fst
    (fold_left
       (fun (st : string * N) (entry : string * list string) =>
          let (dotString, enumCount) := st in
          let (enumKey, values) := entry in
          let enumId := id umlClass ++ "enum" ++ JS.num_to_string enumCount in
          let enumCount := JS.incr enumCount in
          let dotString :=
            dotString
            ++ (nl ++ dq ++ enumId ++ dq ++ " [label=" ++ dq
                ++ "{\<\<enum\>\>\n" ++ enumKey ++ "|") in
          let dotString :=
            fold_left
              (fun dotString value => dotString ++ (value ++ "\l"))
              values dotString in
          let dotString := dotString ++ ("}" ++ dq ++ "]") in
          let dotString :=
            dotString
            ++ (nl ++ dq ++ enumId ++ dq ++ " -> " ++ id umlClass
                ++ " [arrowhead=diamond, weight=3]") in
          (dotString, enumCount))
       (enums umlClass) ("", 0%N)).

(** The guard shared by [dotUmlClass] and [addAssociationToDot]: a library
    or an interface that the options hide. *)
Definition hidden (options : ClassOptions) (umlClass : UmlClass) : bool :=
  (hideLibraries options && stereotype_is (stereotype umlClass) CLibrary)
  || (hideInterfaces options
      && stereotype_is (stereotype umlClass) CInterface).

Definition dotUmlClass (umlClass : UmlClass) (options : ClassOptions)
  : string :=
  if hidden options umlClass then ""
  else
    let dotString :=
      nl ++ id umlClass ++ " [label=" ++ dq ++ "{"
      ++ dotClassTitle umlClass in
    let dotString :=
      if negb (hideAttributes options)
      then dotString ++ dotAttributeVisibilities umlClass
      else dotString in
    let dotString :=
      if negb (hideOperators options)
      then dotString ++ dotOperatorVisibilities umlClass
      else dotString in
    let dotString := dotString ++ ("}" ++ dq ++ "]") in
    let dotString :=
      if negb (hideStructs options)
      then dotString ++ dotStructs umlClass
      else dotString in
    let dotString :=
      if negb (hideEnums options)
      then dotString ++ dotEnums umlClass
      else dotString in
    dotString.

(** ** converter.ts: from the classes to the dot text *)

(** [getSubGraphName] reads and increments the module variable
    [subGraphCount]; the counter is threaded through explicitly. *)
Definition getSubGraphName (clusterFolders : bool) (subGraphCount : N)
  : string * N :=
  if clusterFolders
  then (" cluster_" ++ JS.num_to_string subGraphCount, JS.incr subGraphCount)
  else (" graph_" ++ JS.num_to_string subGraphCount, JS.incr subGraphCount).

(** The comparison function of [sortUmlClassesByCodePath]. *)
Definition byCodePath (a b : UmlClass) : Z :=
  if JS.str_lt (codePath a) (codePath b) then (-1)%Z
  else if JS.str_gt (codePath a) (codePath b) then 1%Z
  else 0%Z.

Definition sortUmlClassesByCodePath (umlClasses : list UmlClass)
  : list UmlClass :=
  JS.sort byCodePath umlClasses.

Definition addAssociationToDot (sourceUmlClass targetUmlClass : UmlClass)
  (association : Association) (classOptions : ClassOptions) : string :=
  if hidden classOptions targetUmlClass then ""
  else
    let dotString :=
      nl ++ id sourceUmlClass ++ " -> " ++ id targetUmlClass ++ " [" in
    let dotString :=
      if ReferenceType_eqb (referenceType association) Memory
         || (realization association
             && stereotype_is (stereotype targetUmlClass) CInterface)
      then dotString ++ "style=dashed, "
      else dotString in
    let dotString :=
      if realization association
      then
        let dotString := dotString ++ "arrowhead=empty, arrowsize=3, " in
        if stereotype_falsy (stereotype targetUmlClass)
        then dotString ++ "weight=4, "
        else dotString ++ "weight=3, "
      else dotString in
    dotString ++ "]".

(** The predicate handed to [umlClasses.find] in [addAssociationsToDot]. *)
Definition isTarget (sourceUmlClass : UmlClass) (association : Association)
  (targetUmlClass : UmlClass) : bool :=
  (name targetUmlClass =? targetUmlClassName association)
  && (JS.includes (importedPaths sourceUmlClass) (codePath targetUmlClass)
      || (codePath sourceUmlClass =? codePath targetUmlClass)).

Definition addAssociationsToDot (umlClasses : list UmlClass)
  (classOptions : ClassOptions) : string :=
  fold_left
    (fun dotString sourceUmlClass =>
       fold_left
         (fun dotString association =>
            match find (isTarget sourceUmlClass association) umlClasses with
            | Some targetUmlClass =>
                dotString
                ++ addAssociationToDot sourceUmlClass targetUmlClass
                     association classOptions
            | None => dotString
            end)
         (Object_values (associations sourceUmlClass)) dotString)
    umlClasses "".

(** What a call of [convertUmlClasses2Dot] leaves behind: the text it
    returns, the new value of [subGraphCount], and the caller's array, which
    [Array.prototype.sort] has reordered in place. *)
Record Rendered : Type := mkRendered {
  dot_text : string;
  subGraphCount_after : N;
  umlClasses_after : list UmlClass
}.

Definition digraphHeader : string :=
  nl ++ "digraph UmlClassDiagram {" ++ nl ++ "rankdir=BT" ++ nl
  ++ "color=black" ++ nl ++ "arrowhead=open" ++ nl
  ++ "node [shape=record, style=filled, fillcolor=gray95]".

Section Converter.

(** [path.dirname] of Node.js, which the repository imports. *)
Variable dirname : string -> string.

(** The state of the loop over the sorted classes. *)
Record LoopState : Type := mkLoopState {
  dotString : string;
  currentCodeFolder : string;
  subGraphCount : N
}.

Definition subgraphStep (clusterFolders : bool) (classOptions : ClassOptions)
  (st : LoopState) (umlClass : UmlClass) : LoopState :=
  let codeFolder := dirname (codePath umlClass) in
  let st :=
    if negb (currentCodeFolder st =? codeFolder)
    then
      let dotString :=
        if negb (currentCodeFolder st =? "")
        then dotString st ++ (nl ++ "}")
        else dotString st in
      let (subGraphName, subGraphCount) :=
        getSubGraphName clusterFolders (subGraphCount st) in
      mkLoopState
        (dotString
         ++ (nl ++ "subgraph " ++ subGraphName ++ " {" ++ nl ++ "label="
             ++ dq ++ codeFolder ++ dq))
        codeFolder subGraphCount
    else st in
  mkLoopState
    (dotString st ++ dotUmlClass umlClass classOptions)
    (currentCodeFolder st) (subGraphCount st).

Definition convertUmlClasses2Dot (umlClasses : list UmlClass)
  (clusterFolders : bool) (classOptions : ClassOptions) (subGraphCount0 : N)
  : Rendered :=
  let umlClassesSortedByCodePath := sortUmlClassesByCodePath umlClasses in
  let st :=
    fold_left (subgraphStep clusterFolders classOptions)
      umlClassesSortedByCodePath
      (mkLoopState digraphHeader "" subGraphCount0) in
  let dotString :=
    if negb (currentCodeFolder st =? "")
    then dotString st ++ (nl ++ "}")
    else dotString st in
  (* [umlClasses] is the array the sort has just reordered *)
  let dotString :=
    dotString ++ addAssociationsToDot umlClassesSortedByCodePath classOptions in
  let dotString := dotString ++ (nl ++ "}") in
  mkRendered dotString (subGraphCount st) umlClassesSortedByCodePath.

End Converter.

(** ** converter.ts: writing the files *)

(** An error of the platform, or a [VError] that wraps a cause under a
    message of the repository.  [VError cause message] is the error that
    [new VError(cause, message)] makes of its arguments; the library prints
    [message] through its sprintf, which leaves a message without a percent
    sign as it is, so for such a message [message] is the text of the error.
    What the library makes of a message with a percent sign (a path may hold
    one) is outside this model. *)
Inductive Err : Type :=
| SysError (message : string)
| VError (cause : Err) (message : string).

(** How a call, or the promise of an asynchronous function, ends. *)
Inductive Completion (A : Type) : Type :=
| Done (a : A)
| Failed (e : Err).

Arguments Done {A} a.
Arguments Failed {A} e.

Inductive OutputFormats : Type :=
| svg
| png
| dot
| all.

Definition OutputFormats_eqb (a b : OutputFormats) : bool :=
  match a, b with
  | svg, svg | png, png | dot, dot | all, all => true
  | _, _ => false
  end.

(** The collaborators outside the repository: the file system, the process,
    the [path] module, the layout engine and the raster converter. *)
Record Env : Type := mkEnv {
  (* fs.writeFile: the error handed to the callback, if any *)
  writeFile : string -> string -> option Err;
  (* fs.lstatSync(p).isDirectory(), or the error lstatSync throws *)
  lstatSync_isDirectory : string -> Completion bool;
  process_cwd : string;
  path_parse_dir : string -> string;
  path_parse_name : string -> string;
  path_join : string -> string -> string;
  path_resolve : string -> string;
  Viz : string -> Completion string;
  svg_to_png_convert : string -> string -> option Err
}.

(** [!outputFilename]: no name, or the empty name. *)
Definition filename_falsy (f : option string) : bool :=
  match f with
  | None => true
  | Some s => s =? ""
  end.

Section FileOutput.

Variable env : Env.

Definition convertDot2Svg (dot_ : string) : Completion string :=
  match Viz env dot_ with
  | Done v => Done v
  | Failed err => Failed (VError err "Failed to parse dot string")
  end.

(** [writeDot] returns as soon as the write is started.  The [throw] sits
    in the callback of [writeFile], which runs from the event loop with no
    caller of [writeDot] on the stack: the result is the list of errors
    thrown there. *)
Definition writeDot (dot_ : string) (dotFilename : option string)
  : list Err :=
  let dotFilename :=
    match dotFilename with
    | None => "classDiagram.dot"
    | Some f => f
    end in
  match writeFile env dotFilename dot_ with
  | Some err =>
      [VError err ("Failed to write Dot file to " ++ dotFilename)]
  | None => []
  end.

(** [writeSVG] returns a promise, rejected from the callback. *)
Definition writeSVG (svg_ : string) (svgFilename : string)
  (outputFormats : OutputFormats) : Completion unit :=
  let svgFilename :=
    if OutputFormats_eqb outputFormats png
    then
      if path_parse_dir env svgFilename =? ""
      then process_cwd env ++ "/" ++ path_parse_name env svgFilename
           ++ ".svg"
      else path_parse_dir env svgFilename ++ "/"
           ++ path_parse_name env svgFilename ++ ".svg"
    else svgFilename in
  match writeFile env svgFilename svg_ with
  | Some err =>
      Failed (VError err ("Failed to write SVG file to " ++ svgFilename))
  | None => Done tt
  end.

Definition writePng (svg_ : string) (filename : string) : Completion unit :=
  let pngDir :=
    if path_parse_dir env filename =? "" then "."
    else path_resolve env (path_parse_dir env filename) in
  let svgFilename := pngDir ++ "/" ++ path_parse_name env filename ++ ".svg" in
  let pngFilename := pngDir ++ "/" ++ path_parse_name env filename ++ ".png" in
  match svg_to_png_convert env (path_resolve env svgFilename) pngDir with
  | Some err =>
      Failed
        (VError err
           ("Failed to convert SVG file " ++ svgFilename ++ " to PNG file "
            ++ pngFilename))
  | None => Done tt
  end.

(** What the caller of [generateFilesFromUmlClasses] sees, and what it
    does not: how the returned promise settles, the errors thrown in
    callbacks, and the counter.  An error thrown in a callback is an
    uncaught exception: it ends a Node process that has installed no
    handler for it.  In format dot the function has returned, and its
    promise is fulfilled, before the callback runs.  In the other formats
    [settled] tells how the promise settles in a process that is still
    running then, which is certain only when [thrownInCallbacks] is
    empty. *)
Record Exported : Type := mkExported {
  settled : Completion unit;
  thrownInCallbacks : list Err;
  counter_after : N
}.

Variable dirname : string -> string.

Definition generateFilesFromUmlClasses (umlClasses : list UmlClass)
  (outputBaseName : string) (outputFormat : OutputFormats)
  (outputFilename : option string) (clusterFolders : bool)
  (classOptions : ClassOptions) (subGraphCount0 : N) : Exported :=
  let r :=
    convertUmlClasses2Dot dirname umlClasses clusterFolders classOptions
      subGraphCount0 in
  let dot_ := dot_text r in
  let thrown :=
    if OutputFormats_eqb outputFormat dot
       || OutputFormats_eqb outputFormat all
    then writeDot dot_ outputFilename
    else [] in
  if OutputFormats_eqb outputFormat dot
  then mkExported (Done tt) thrown (subGraphCount_after r)
  else
    let outputFilename :=
      if filename_falsy outputFilename
      then
        let outputExt :=
          match outputFormat with
          | all => "svg"
          | svg => "svg"
          | png => "png"
          | dot => "dot"
          end in
        let outputBaseName :=
          match lstatSync_isDirectory env outputBaseName with
          | Done true =>
              path_join env (process_cwd env)
                (path_parse_name env (process_cwd env))
          | _ => outputBaseName
          end in
        outputBaseName ++ "." ++ outputExt
      else
        match outputFilename with
        | Some f => f
        | None => ""
        end in
    match convertDot2Svg dot_ with
    | Failed e => mkExported (Failed e) thrown (subGraphCount_after r)
    | Done svg_ =>
        match writeSVG svg_ outputFilename outputFormat with
        | Failed e => mkExported (Failed e) thrown (subGraphCount_after r)
        | Done _ =>
            if OutputFormats_eqb outputFormat png
               || OutputFormats_eqb outputFormat all
            then
              mkExported (writePng svg_ outputFilename) thrown
                (subGraphCount_after r)
            else mkExported (Done tt) thrown (subGraphCount_after r)
        end
    end.

End FileOutput.

(** ** The vocabulary of the specification *)

(** The resolution rule in the words of the specification: the target has
    the name the association asks for, and its file is imported by the
    source's file or is that very file. *)
Definition matches (source : UmlClass) (association : Association)
  (target : UmlClass) : Prop :=
  name target = targetUmlClassName association
  /\ (In (codePath target) (importedPaths source)
      \/ codePath target = codePath source).

(** The edges of a render, as (source, target, association): one for each
    association, in loop order, that resolves to a target the options do not
    hide. *)
Definition emittedEdges (classOptions : ClassOptions)
  (umlClasses : list UmlClass) : list (UmlClass * UmlClass * Association) :=
  flat_map
    (fun s =>
       flat_map
         (fun a =>
            match find (isTarget s a) umlClasses with
            | Some t => if hidden classOptions t then [] else [(s, t, a)]
            | None => []
            end)
         (Object_values (associations s)))
    umlClasses.

Definition edgeSource (e : UmlClass * UmlClass * Association) : UmlClass :=
  fst (fst e).

Definition edgeTarget (e : UmlClass * UmlClass * Association) : UmlClass :=
  snd (fst e).

Definition edgeAssociation (e : UmlClass * UmlClass * Association)
  : Association :=
  snd e.

Definition edgeText (classOptions : ClassOptions)
  (e : UmlClass * UmlClass * Association) : string :=
  addAssociationToDot (edgeSource e) (edgeTarget e) (edgeAssociation e)
    classOptions.

(** The text one association adds to the edges. *)
Definition edgeOf (classOptions : ClassOptions) (umlClasses : list UmlClass)
  (s : UmlClass) (a : Association) : string :=
  match find (isTarget s a) umlClasses with
  | Some t => addAssociationToDot s t a classOptions
  | None => ""
  end.

(** The text of all the associations of one source class. *)
Definition edgesOf (classOptions : ClassOptions) (umlClasses : list UmlClass)
  (s : UmlClass) : string :=
  String.concat ""
    (map (edgeOf classOptions umlClasses s)
       (Object_values (associations s))).

(** The tier of a visibility in the words of the specification. *)
Definition tierOf (v : option Visibility) : string :=
  match v with
  | Some VPrivate => "Private"
  | Some VInternal => "Internal"
  | Some VExternal => "External"
  | Some VPublic | Some VNone | None => "Public"
  end.

Definition attributeTier (vizGroup : string) (umlClass : UmlClass)
  : list Attribute :=
  filter (fun a => tierOf (a_visibility a) =? vizGroup) (attributes umlClass).

Definition operatorTier (vizGroup : string) (umlClass : UmlClass)
  : list Operator :=
  filter (fun o => tierOf (o_visibility o) =? vizGroup) (operators umlClass).

(** The operators of a list that carry a given stereotype, in list order. *)
Definition withStereotype (k : OperatorStereotype) (l : list Operator)
  : list Operator :=
  filter (fun o => OperatorStereotype_eqb (o_stereotype o) k) l.

(** [sub] occurs in [s]. *)
Fixpoint contains (sub s : string) : bool :=
  String.prefix sub s
  || match s with
     | EmptyString => false
     | String _ t => contains sub t
     end.

(** A class without one association. *)
Definition withAssociations (u : UmlClass) (l : list (string * Association))
  : UmlClass :=
  mkUmlClass (id u) (name u) (codePath u) (importedPaths u) (stereotype u)
    (attributes u) (operators u) (enums u) (structs u) l.

(** [u'] is [u] with other associations. *)
Definition sameButAssociations (u u' : UmlClass) : Prop :=
  exists l, u' = withAssociations u l.

(** [u'] is [u], or stands for [s] where [u] is [s]. *)
Definition replaced (s s' u u' : UmlClass) : Prop :=
  u' = u \/ (u = s /\ u' = s').

Section Runs.

Variable dirname : string -> string.

Definition folderOf (u : UmlClass) : string := dirname (codePath u).

(** The maximal runs of consecutive classes of one folder, each with its
    folder. *)
Fixpoint groupByFolder (l : list UmlClass)
  : list (string * list UmlClass) :=
  match l with
  | [] => []
  | u :: t =>
      match groupByFolder t with
      | (f, us) :: rest =>
          if folderOf u =? f then (f, u :: us) :: rest
          else (folderOf u, [u]) :: (f, us) :: rest
      | [] => [(folderOf u, [u])]
      end
  end.

(** Adjacent runs lie in different folders. *)
Fixpoint adjacentDiffer (g : list (string * list UmlClass)) : Prop :=
  match g with
  | (f1, _) :: (((f2, _) :: _) as rest) => f1 <> f2 /\ adjacentDiffer rest
  | _ => True
  end.

End Runs.

(** The opening of a subgraph block: its name and its label. *)
Definition subgraphOpening (clusterFolders : bool) (count : N)
  (folder : string) : string :=
  nl ++ "subgraph " ++ fst (getSubGraphName clusterFolders count) ++ " {"
  ++ nl ++ "label=" ++ dq ++ folder ++ dq.

Definition nodesOf (classOptions : ClassOptions) (members : list UmlClass)
  : string :=
  String.concat "" (map (fun u => dotUmlClass u classOptions) members).

(** One subgraph block: its opening, its nodes, its closing brace. *)
Definition subgraphBlock (clusterFolders : bool) (classOptions : ClassOptions)
  (count : N) (folder : string) (members : list UmlClass) : string :=
  subgraphOpening clusterFolders count folder
  ++ nodesOf classOptions members ++ nl ++ "}".

(** The blocks of a list of runs, the first one named after [count]. *)
Fixpoint subgraphBlocks (clusterFolders : bool) (classOptions : ClassOptions)
  (count : N) (g : list (string * list UmlClass)) : string :=
  match g with
  | [] => ""
  | (f, us) :: rest =>
      subgraphBlock clusterFolders classOptions count f us
      ++ subgraphBlocks clusterFolders classOptions (JS.incr count) rest
  end.

(** What is still to be written, and the counter at the end, when the block
    of folder [cur] is open and the runs [g] are to come: a first run in
    [cur] continues the open block. *)
Definition continueRun (clusterFolders : bool) (classOptions : ClassOptions)
  (cur : string) (count : N) (g : list (string * list UmlClass)) : string :=
  match g with
  | [] => nl ++ "}"
  | (f, us) :: rest =>
      if cur =? f
      then nodesOf classOptions us ++ nl ++ "}"
           ++ subgraphBlocks clusterFolders classOptions count rest
      else nl ++ "}" ++ subgraphBlocks clusterFolders classOptions count g
  end.

Definition countAfter (count : N) (n : nat) : N := Nat.iter n JS.incr count.

Definition countAfterRun (cur : string) (count : N)
  (g : list (string * list UmlClass)) : N :=
  match g with
  | [] => count
  | (f, us) :: rest =>
      if cur =? f then countAfter count (List.length rest)
      else countAfter count (List.length g)
  end.

(** The counter values and the names of [n] subgraphs opened from [count]. *)
Fixpoint subgraphCounters (count : N) (n : nat) : list N :=
  match n with
  | O => []
  | S m => count :: subgraphCounters (JS.incr count) m
  end.

Definition subgraphNames (clusterFolders : bool) (count : N) (n : nat)
  : list string :=
  map (fun c => fst (getSubGraphName clusterFolders c))
    (subgraphCounters count n).

(** ** A model of [path.dirname] on POSIX, for the examples *)

Definition isSlash (c : ascii) : bool := Ascii.eqb c "/".

Fixpoint dropWhile {A : Type} (p : A -> bool) (l : list A) : list A :=
  match l with
  | [] => []
  | x :: t => if p x then dropWhile p t else l
  end.

Definition posix_dirname (path : string) : string :=
  match list_ascii_of_string path with
  | [] => "."
  | c0 :: rest =>
      let hasRoot := isSlash c0 in
      match
        dropWhile (fun c => negb (isSlash c)) (dropWhile isSlash (rev rest))
      with
      | [] => if hasRoot then "/" else "."
      | _ :: before =>
          if hasRoot && (List.length before =? 0)%nat then "//"
          else string_of_list_ascii (c0 :: rev before)
      end
  end.

(** ** Example classes *)

Module Examples.

Definition class (i n path : string) (imports : list string)
  (st : option ClassStereotype) (assocs : list (string * Association))
  : UmlClass :=
  mkUmlClass i n path imports st [] [] [] [] assocs.

Definition toFoo : Association := mkAssociation Storage "Foo" false.
Definition toBar : Association := mkAssociation Storage "Bar" false.

Definition fooA : UmlClass := class "1" "Foo" "src/A.sol" [] None [].
Definition fooB : UmlClass := class "2" "Foo" "lib/B.sol" [] None [].
Definition user : UmlClass :=
  class "3" "User" "app/C.sol" ["src/A.sol"] None
    [("Foo", toFoo); ("Bar", toBar)].

Definition classes : list UmlClass := [fooB; user; fooA].

Definition ops : list Operator :=
  [ mkOperator (Some VPublic) "plain" ONone [] None;
    mkOperator (Some VPublic) "first" OEvent [] None;
    mkOperator None "pay" OPayable [] None;
    mkOperator (Some VNone) "second" OEvent [] None ].

Definition balance : Attribute := mkAttribute None "balance" "uint256".

Definition token : UmlClass :=
mkUmlClass "4" "Token" "a.sol" [] None [balance] ops [] [] [].

Definition safeMath : UmlClass :=
class "5" "SafeMath" "lib/SafeMath.sol" [] (Some CLibrary) [].

Definition hideLibs : ClassOptions :=
mkClassOptions false false false false true false.

Definition base : UmlClass :=
class "6" "Base" "a.sol" [] (Some CAbstract) [].

(** Three files of one folder and of a folder below it. *)
Definition nested : list UmlClass :=
[ class "7" "C" "a/c.sol" [] None [];
  class "8" "D" "a/b/d.sol" [] None [];
  class "9" "B" "a/b.sol" [] None [] ].

(** A file system on which every write fails. *)
Definition readOnly : Env :=
  mkEnv (fun _ _ => Some (SysError "EROFS: read-only file system"))
    (fun _ => Failed (SysError "ENOENT")) "/work"
    (fun _ => "") (fun p => p) (fun a b => a ++ "/" ++ b) (fun p => p)
    (fun d => Done "<svg/>") (fun _ _ => None).

End Examples.

(** ** The lines of the text *)

(** The attributes that stand in the brackets of an edge. *)
Definition edgeAttrs (association : Association) (target : UmlClass)
  : string :=
  (if ReferenceType_eqb (referenceType association) Memory
      || (realization association
          && stereotype_is (stereotype target) CInterface)
   then "style=dashed, " else "")
  ++ (if realization association
      then "arrowhead=empty, arrowsize=3, "
           ++ (if stereotype_falsy (stereotype target)
               then "weight=4, " else "weight=3, ")
      else "").

(** The line of an edge: the identifier of the source, the arrow, the
    identifier of the target, the attributes. *)
Definition edgeLine (e : UmlClass * UmlClass * Association) : string :=
  nl ++ id (edgeSource e) ++ " -> " ++ id (edgeTarget e) ++ " ["
  ++ edgeAttrs (edgeAssociation e) (edgeTarget e) ++ "]".

(** The line of an operator: the indentation, the prefix of its
    stereotype if it has one, its name, its parameters, and its return
    parameters if there are any. *)
Definition operatorLine (umlClass : UmlClass) (operator : Operator)
  : string :=
  "\ \ \ \ "
  ++ (if (OperatorStereotype_ord (o_stereotype operator) >? 0)%Z
      then dotOperatorStereotype umlClass (o_stereotype operator)
      else "")
  ++ o_name operator
  ++ dotParameters (o_parameters operator) false
  ++ match o_returnParameters operator with
     | Some (r :: rs) => ": " ++ dotParameters (r :: rs) true
     | _ => ""
     end
  ++ "\l".


(** * Further code of the repository *)

(** ** dotGenerator.ts: the texts of the loops *)

(** The text of one parameter in a list that is rendered by the loop of
    [dotParameters]: only a [null] name makes the type stand alone. *)
Definition paramText (p : Param) : string :=
  if JS.is_null (p_name p) then p_type p
  else JS.to_string (p_name p) ++ ": " ++ p_type p.

(** The test that opens [dotParameters]: one parameter, with a falsy name. *)
Definition singleUnnamed (parameters : list Param) : bool :=
  match parameters with
  | [p0] => JS.falsy (p_name p0)
  | _ => false
  end.

(** The line of one attribute in [dotAttributes]. *)
Definition attributeLine (a : Attribute) : string :=
  "\ \ \ " ++ a_name a ++ ": " ++ a_type a ++ "\l".

(** The identifiers of the satellite nodes of a class. *)
Definition structId (umlClass : UmlClass) (k : N) : string :=
  id umlClass ++ "struct" ++ JS.num_to_string k.

Definition enumId (umlClass : UmlClass) (k : N) : string :=
  id umlClass ++ "enum" ++ JS.num_to_string k.

(** What one pass of the loop of [dotStructs] appends for the struct that
    is counted as [k]: the satellite node and its edge to the class. *)
Definition structBlock (umlClass : UmlClass) (k : N)
  (entry : string * list Param) : string :=
  nl ++ dq ++ structId umlClass k ++ dq ++ " [label=" ++ dq
  ++ "{\<\<struct\>\>\n" ++ fst entry ++ "|"
  ++ String.concat ""
       (map (fun f => JS.to_string (p_name f) ++ ": " ++ p_type f ++ "\l")
          (snd entry))
  ++ "}" ++ dq ++ "]"
  ++ nl ++ dq ++ structId umlClass k ++ dq ++ " -> " ++ id umlClass
  ++ " [arrowhead=diamond, weight=3]".

Definition enumBlock (umlClass : UmlClass) (k : N)
  (entry : string * list string) : string :=
  nl ++ dq ++ enumId umlClass k ++ dq ++ " [label=" ++ dq
  ++ "{\<\<enum\>\>\n" ++ fst entry ++ "|"
  ++ String.concat "" (map (fun v => v ++ "\l") (snd entry))
  ++ "}" ++ dq ++ "]"
  ++ nl ++ dq ++ enumId umlClass k ++ dq ++ " -> " ++ id umlClass
  ++ " [arrowhead=diamond, weight=3]".

(** The classes of one file, in array order. *)
Definition ofFile (p : string) (l : list UmlClass) : list UmlClass :=
  filter (fun u => codePath u =? p) l.

(** A decimal digit, and a string of decimal digits. *)
Definition isDigit (c : ascii) : bool :=
  (48 <=? nat_of_ascii c)%nat && (nat_of_ascii c <=? 57)%nat.

Fixpoint allDigits (s : string) : bool :=
  match s with
  | EmptyString => true
  | String c t => isDigit c && allDigits t
  end.

(** ** converter.ts: the calls of an export *)

(** A call that leaves the repository, with its arguments. *)
Inductive Effect : Type :=
| WriteFileCall (path data : string)
| LstatCall (path : string)
| VizCall (dot_ : string)
| SvgToPngCall (svgPath outDir : string).

Section FileOutputCalls.

Variable env : Env.
Variable dirname : string -> string.

(** The file [writeSVG] hands to [writeFile]. *)
Definition writeSVG_path (svgFilename : string) (outputFormats : OutputFormats)
  : string :=
  if OutputFormats_eqb outputFormats png
  then
    if path_parse_dir env svgFilename =? ""
    then process_cwd env ++ "/" ++ path_parse_name env svgFilename ++ ".svg"
    else path_parse_dir env svgFilename ++ "/"
         ++ path_parse_name env svgFilename ++ ".svg"
  else svgFilename.

(** The call [writePng] makes. *)
Definition writePng_call (filename : string) : Effect :=
  let pngDir :=
    if path_parse_dir env filename =? "" then "."
    else path_resolve env (path_parse_dir env filename) in
  let svgFilename := pngDir ++ "/" ++ path_parse_name env filename ++ ".svg" in
  SvgToPngCall (path_resolve env svgFilename) pngDir.

(** The file name [generateFilesFromUmlClasses] goes on with after its
    [if (!outputFilename)] block. *)
Definition outputFilenameOf (outputBaseName : string)
  (outputFormat : OutputFormats) (outputFilename : option string) : string :=
  if filename_falsy outputFilename
  then
    let outputExt :=
      match outputFormat with
      | all => "svg"
      | svg => "svg"
      | png => "png"
      | dot => "dot"
      end in
    let outputBaseName :=
      match lstatSync_isDirectory env outputBaseName with
      | Done true =>
          path_join env (process_cwd env)
            (path_parse_name env (process_cwd env))
      | _ => outputBaseName
      end in
    outputBaseName ++ "." ++ outputExt
  else
    match outputFilename with
    | Some f => f
    | None => ""
    end.

(** The arguments of the call [writePng] makes, as a pair. *)
Definition writePng_args (filename : string) : string * string :=
  let pngDir :=
    if path_parse_dir env filename =? "" then "."
    else path_resolve env (path_parse_dir env filename) in
  (path_resolve env
     (pngDir ++ "/" ++ path_parse_name env filename ++ ".svg"),
   pngDir).

(** The calls of [generateFilesFromUmlClasses], in the order in which the
    function starts them. *)
Definition generateFilesFromUmlClasses_calls (umlClasses : list UmlClass)
  (outputBaseName : string) (outputFormat : OutputFormats)
  (outputFilename : option string) (clusterFolders : bool)
  (classOptions : ClassOptions) (subGraphCount0 : N) : list Effect :=
  let dot_ :=
    dot_text
      (convertUmlClasses2Dot dirname umlClasses clusterFolders classOptions
         subGraphCount0) in
  let calls :=
    if OutputFormats_eqb outputFormat dot
       || OutputFormats_eqb outputFormat all
    then
      [WriteFileCall
         (match outputFilename with
          | None => "classDiagram.dot"
          | Some f => f
          end)
         dot_]
    else [] in
  if OutputFormats_eqb outputFormat dot then calls
  else
    let calls :=
      if filename_falsy outputFilename
      then (calls ++ [LstatCall outputBaseName])%list
      else calls in
    let outputFilename :=
      if filename_falsy outputFilename
      then
        let outputExt :=
          match outputFormat with
          | all => "svg"
          | svg => "svg"
          | png => "png"
          | dot => "dot"
          end in
        let outputBaseName :=
          match lstatSync_isDirectory env outputBaseName with
          | Done true =>
              path_join env (process_cwd env)
                (path_parse_name env (process_cwd env))
          | _ => outputBaseName
          end in
        outputBaseName ++ "." ++ outputExt
      else
        match outputFilename with
        | Some f => f
        | None => ""
        end in
    let calls := (calls ++ [VizCall dot_])%list in
    match Viz env dot_ with
    | Failed _ => calls
    | Done svg_ =>
        let calls :=
          (calls
           ++ [WriteFileCall (writeSVG_path outputFilename outputFormat)
                 svg_])%list in
        match
          writeFile env (writeSVG_path outputFilename outputFormat) svg_
        with
        | Some _ => calls
        | None =>
            if OutputFormats_eqb outputFormat png
               || OutputFormats_eqb outputFormat all
            then (calls ++ [writePng_call outputFilename])%list
            else calls
        end
    end.

End FileOutputCalls.

(** ** etherscanParser.ts *)

Module Etherscan.

Definition networks : list string :=
  ["mainnet"; "ropsten"; "kovan"; "rinkeby"; "goerli"].

(** The status line of an HTTP response that an error of the HTTP client
    carries. *)
Record HttpResponse : Type := mkHttpResponse {
  status : N;
  statusText : string
}.

(** What this file throws or catches: [new Error(message)],
    [new VError(message)] without a cause, and the error with which the
    HTTP client rejects, which may carry the response.  [VErrorNoCause m]
    is what [throw new VError(m)] throws: the library prints [m] through its
    sprintf, so the text of the error is [m] when [m] holds no percent sign,
    and otherwise whatever the library makes of [m]. *)
Inductive Thrown : Type :=
| Error (message : string)
| VErrorNoCause (message : string)
| HttpClientError (response : option HttpResponse).

Inductive Outcome (A : Type) : Type :=
| Returned (a : A)
| Threw (e : Thrown).

Arguments Returned {A} a.
Arguments Threw {A} e.

(** The fields the constructor sets. *)
Record EtherscanParser : Type := mkEtherscanParser {
  url : string;
  apikey : string;
  network : string
}.

(** [new EtherscanParser(apikey, network)]; an argument left out takes its
    default.  [`${networks}`] prints the array with commas. *)
Definition new_EtherscanParser (apikey_ network_ : option string)
  : Outcome EtherscanParser :=
  let apikey_ :=
    match apikey_ with
    | None => "ZAD4UI2RCXCQTP38EXS3UY2MPHFU5H9KB1"
    | Some k => k
    end in
  let network_ :=
    match network_ with
    | None => "mainnet"
    | Some n => n
    end in
  if negb (JS.includes networks network_)
  then
    Threw
      (Error
         ("Invalid network " ++ dq ++ network_ ++ dq ++ ". Must be one of "
          ++ String.concat "," networks))
  else if network_ =? "mainnet"
  then Returned (mkEtherscanParser "https://api.etherscan.io/api" apikey_
                   network_)
  else
    Returned
      (mkEtherscanParser ("https://api-" ++ network_ ++ ".etherscan.io/api")
         apikey_ network_).

(** A value that [JSON.parse] returns.  A number keeps its text only: the
    code never computes with one.  An object is the list of its own
    properties in enumeration order. *)
#[warnings="-register-all"]
Inductive JSON : Type :=
| JNull
| JBool (b : bool)
| JNumber (text : string)
| JString (s : string)
| JArray (elements : list JSON)
| JObject (properties : list (string * JSON)).

(** [o[key]] on the properties of an object; [None] is [undefined]. *)
Fixpoint lookup (properties : list (string * JSON)) (key : string)
  : option JSON :=
  match properties with
  | [] => None
  | (k, v) :: rest => if k =? key then Some v else lookup rest key
  end.

(** [x.key] for a key that no string, array, number or boolean has as a
    property of its own or of its prototype ([sources], [content]):
    [None] is the [TypeError] of reading a property of [null]. *)
Definition member (x : JSON) (key : string) : option (option JSON) :=
  match x with
  | JNull => None
  | JObject properties => Some (lookup properties key)
  | _ => Some None
  end.

(** [x.content] of a value that is not [null]. *)
Definition contentOf (x : JSON) : option JSON :=
  match x with
  | JObject properties => lookup properties "content"
  | _ => None
  end.

(** The pairs of index and element, as [Object.entries] lists them. *)
Fixpoint indexed {A : Type} (i : N) (l : list A) : list (string * A) :=
  match l with
  | [] => []
  | x :: t => (JS.num_to_string i, x) :: indexed (i + 1) t
  end.

Fixpoint codeUnits (s : string) : list JSON :=
  match s with
  | EmptyString => []
  | String c t => JString (String c "") :: codeUnits t
  end.

(** [Object.entries(x)]; [None] is the [TypeError] for [undefined] and
    [null]. *)
Definition Object_entries (x : option JSON)
  : option (list (string * JSON)) :=
  match x with
  | None | Some JNull => None
  | Some (JBool _) | Some (JNumber _) => Some []
  | Some (JString s) => Some (indexed 0 (codeUnits s))
  | Some (JArray elements) => Some (indexed 0 elements)
  | Some (JObject properties) => Some properties
  end.

(** One element of what [getSourceCode] returns; [code] is [undefined]
    where an entry has no [content]. *)
Record SourceFile : Type := mkSourceFile {
  code : option JSON;
  filename : string
}.

(** One element of the [result] array of the reply, in the shape in which
    Etherscan sends it: an object whose [SourceCode], if there is one, is a
    string.  (On a string, [result?.SourceCode?.sources] is [undefined], so
    the second multi-file branch of the source is never taken.) *)
Record EtherscanResult : Type := mkEtherscanResult {
  SourceCode : option string
}.

(** How [axios.get] ends: with a response, of which the code reads
    [response?.data?.result] (here [Some] of its elements when it is an
    array) and [JSON.stringify(response?.data)], or with an error. *)
Inductive AxiosResult : Type :=
| Response (result : option (list EtherscanResult)) (stringified : string)
| Rejection (response : option HttpResponse).

(** [s.slice(1, -1)]. *)
Definition slice_1_minus1 (s : string) : string :=
  match s with
  | EmptyString => EmptyString
  | String _ t => string_of_list_ascii (removelast (list_ascii_of_string t))
  end.

(** [s[0] === '{']. *)
Definition startsWithBrace (s : string) : bool :=
  match s with
  | String c _ => Ascii.eqb c "{"
  | EmptyString => false
  end.

(** [mapM]: the callback of [Array.prototype.map] may throw, which ends the
    map at that element. *)
Fixpoint mapOutcome {A B : Type} (f : A -> Outcome B) (l : list A)
  : Outcome (list B) :=
  match l with
  | [] => Returned []
  | x :: t =>
      match f x with
      | Threw e => Threw e
      | Returned y =>
          match mapOutcome f t with
          | Threw e => Threw e
          | Returned ys => Returned (y :: ys)
          end
      end
  end.

Section GetSourceCode.

(** [JSON.parse]; [None] is the [SyntaxError]. *)
Variable JSON_parse : string -> option JSON.

(** The body of the inner [try]: parse, take the entries of [sources],
    read the [content] of each; [None] is any error thrown on the way. *)
Definition parseSources (parableResultString : string)
  : option (list SourceFile) :=
  match JSON_parse parableResultString with
  | None => None
  | Some sourceCodeObject =>
      match member sourceCodeObject "sources" with
      | None => None
      | Some sources =>
          match Object_entries sources with
          | None => None
          | Some sourceFiles =>
              fold_right
                (fun (entry : string * JSON) (acc : option (list SourceFile)) =>
                   match member (snd entry) "content", acc with
                   | Some content, Some files =>
                       Some (mkSourceFile content (fst entry) :: files)
                   | _, _ => None
                   end)
                (Some []) sourceFiles
          end
      end
  end.

Definition description (contractAddress : string) : string :=
  "get verified source code for address " ++ contractAddress
  ++ " from Etherscan API.".

(** The callback of [response.data.result.map]. *)
Definition sourceFilesOf (contractAddress : string) (result : EtherscanResult)
  : Outcome (list SourceFile) :=
  match SourceCode result with
  | None =>
      Threw
        (Error
           ("Failed to " ++ description contractAddress
            ++ ". Most likely the contract has not been verified on Etherscan."))
  | Some sourceCode =>
      if sourceCode =? ""
      then
        Threw
          (Error
             ("Failed to " ++ description contractAddress
              ++ ". Most likely the contract has not been verified on Etherscan."))
      else if startsWithBrace sourceCode
      then
        match parseSources (slice_1_minus1 sourceCode) with
        | Some files => Returned files
        | None =>
            Threw
              (VErrorNoCause
                 ("Failed to parse Solidity source code from Etherscan's SourceCode. "
                  ++ sourceCode))
        end
      else Returned [mkSourceFile (Some (JString sourceCode)) contractAddress]
  end.

(** [getSourceCode], given how the request ends. *)
Definition getSourceCode (contractAddress : string) (reply : AxiosResult)
  : Outcome (list SourceFile) :=
  let tried :=
    match reply with
    | Rejection response => Threw (HttpClientError response)
    | Response None stringified =>
        Threw
          (Error
             ("Failed to " ++ description contractAddress
              ++ ". No result array in HTTP data: " ++ stringified))
    | Response (Some results) _ =>
        match mapOutcome (sourceFilesOf contractAddress) results with
        | Threw e => Threw e
        | Returned files => Returned (List.concat files)
        end
    end in
  match tried with
  | Returned files => Returned files
  | Threw err =>
      match err with
      | HttpClientError (Some response) =>
          Threw
            (VErrorNoCause
               ("Failed to " ++ description contractAddress
                ++ ". HTTP status code " ++ JS.num_to_string (status response)
                ++ ", status text: " ++ statusText response))
      | _ =>
          Threw
            (Error
               ("Failed to " ++ description contractAddress
                ++ ". No HTTP response."))
      end
  end.

End GetSourceCode.

End Etherscan.

(** ** Examples for the further code *)

Module MoreExamples.

Definition transferParams : list Param :=
[mkParam (JS.Val "to") "address"; mkParam JS.Null "uint256"].

Definition owner : Attribute := mkAttribute (Some VPublic) "owner" "address".
Definition secret : Attribute := mkAttribute (Some VPrivate) "secret" "bytes32".

Definition wallet : UmlClass :=
mkUmlClass "10" "Wallet" "a.sol" [] None
  [owner; secret; Examples.balance] []
  [("State", ["Open"; "Closed"])]
  [("Info", [mkParam (JS.Val "since") "uint256"])] [].

(** A class with two structs and two enums. *)
Definition registry : UmlClass :=
mkUmlClass "13" "Registry" "a.sol" [] None [] []
  [("State", ["Open"; "Closed"]); ("Kind", ["Plain"])]
  [("Entry", [mkParam (JS.Val "since") "uint256"]); ("Owner", [])] [].

Definition sameFile : list UmlClass := [Examples.token; Examples.base].

Definition reordered : list UmlClass :=
[Examples.fooA; Examples.fooB; Examples.user].

(** A class that imports both files that declare a [Foo], passed after the
    [Foo] of [src/A.sol] and before the one of [lib/B.sol]. *)
Definition importer : UmlClass :=
Examples.class "11" "Importer" "app/D.sol" ["src/A.sol"; "lib/B.sol"] None
  [("Foo", Examples.toFoo)].

Definition twoCandidates : list UmlClass :=
[Examples.fooA; importer; Examples.fooB].

(** A library with an association to a class of a file it imports. *)
Definition mathLib : UmlClass :=
Examples.class "12" "MathLib" "lib/MathLib.sol" ["src/A.sol"]
  (Some CLibrary) [("Foo", Examples.toFoo)].

Definition libAndFoo : list UmlClass := [mathLib; Examples.fooA].

(** A file system that takes every write, with a layout engine and a raster
    converter that succeed. *)
Definition writable : Env :=
mkEnv (fun _ _ => None) (fun _ => Failed (SysError "ENOENT")) "/work"
  (fun _ => "") (fun p => p) (fun a b => a ++ "/" ++ b) (fun p => p)
  (fun d => Done "<svg/>") (fun _ _ => None).

Definition bundle : Etherscan.JSON :=
Etherscan.JObject
  [("language", Etherscan.JString "Solidity");
   ("sources",
    Etherscan.JObject
      [("A.sol",
        Etherscan.JObject [("content", Etherscan.JString "contract A {}")]);
       ("B.sol", Etherscan.JObject [])])].

Definition parseBundle (s : string) : option Etherscan.JSON :=
if s =? "{bundle}" then Some bundle else None.

End MoreExamples.

(** * Properties *)

(** ** Strings and accumulation *)

Lemma append_assoc (a b c : string) : (a ++ b) ++ c = a ++ (b ++ c).
Proof.
  induction a as [|ch a IH]; simpl; [reflexivity|now rewrite IH].
Qed.

Lemma append_nil_r (a : string) : a ++ "" = a.
Proof.
  induction a as [|ch a IH]; simpl; [reflexivity|now rewrite IH].
Qed.

Lemma concat_cons (x : string) (l : list string) :
  String.concat "" (x :: l) = x ++ String.concat "" l.
Proof.
  destruct l as [|y l]; simpl; [now rewrite append_nil_r|reflexivity].
Qed.

Lemma concat_app (l1 l2 : list string) :
  String.concat "" (l1 ++ l2)
  = String.concat "" l1 ++ String.concat "" l2.
Proof.
  induction l1 as [|x l1 IH]; [reflexivity|].
  change ((x :: l1) ++ l2)%list with (x :: (l1 ++ l2))%list.
  now rewrite !concat_cons, IH, append_assoc.
Qed.

(** A loop that only appends to its accumulator appends the concatenation
    of what each pass contributes. *)
Lemma fold_left_append {A : Type} (f : A -> string) (l : list A)
  (init : string) :
  fold_left (fun acc x => acc ++ f x) l init
  = init ++ String.concat "" (map f l).
Proof.
  revert init; induction l as [|x l IH]; intro init.
  - simpl. now rewrite append_nil_r.
  - change (map f (x :: l)) with (f x :: map f l).
    rewrite concat_cons. simpl fold_left. now rewrite IH, append_assoc.
Qed.

(** A loop that pushes the elements passing a test builds their [filter]. *)
Lemma fold_left_push {A : Type} (p : A -> bool) (l acc : list A) :
  fold_left (fun acc x => if p x then (acc ++ [x])%list else acc) l acc
  = (acc ++ filter p l)%list.
Proof.
  revert acc; induction l as [|x l IH]; intro acc; simpl.
  - now rewrite app_nil_r.
  - rewrite IH. destruct (p x); [|reflexivity].
    now rewrite <- app_assoc.
Qed.

(** ** The stable sort *)

Section SortFacts.

Context {A : Type}.
Variable cmp : A -> A -> Z.

Lemma insert_sorted_perm (x : A) (l : list A) :
  Permutation (x :: l) (JS.insert_sorted cmp x l).
Proof.
  induction l as [|y t IH]; simpl; [apply Permutation_refl|].
  destruct (cmp x y >? 0)%Z; [|apply Permutation_refl].
  eapply perm_trans; [apply perm_swap|]. now apply perm_skip.
Qed.

Lemma sort_perm (l : list A) : Permutation l (JS.sort cmp l).
Proof.
  induction l as [|x t IH]; simpl; [constructor|].
  eapply perm_trans; [apply perm_skip, IH|apply insert_sorted_perm].
Qed.

Lemma sort_length (l : list A) : List.length (JS.sort cmp l) = List.length l.
Proof. symmetry. apply Permutation_length, sort_perm. Qed.

(** The elements a test selects keep their order, provided the test
    rejects whatever compares strictly below a selected element. *)
Lemma insert_sorted_filter (p : A -> bool) (x : A) (l : list A) :
  (forall a b, p a = true -> (cmp a b > 0)%Z -> p b = false) ->
  filter p (JS.insert_sorted cmp x l) = filter p (x :: l).
Proof.
  intro Hp. induction l as [|y t IH]; [reflexivity|].
  simpl JS.insert_sorted.
  destruct (cmp x y >? 0)%Z eqn:E; [|reflexivity].
  apply Z.gtb_lt in E.
  change (filter p (y :: JS.insert_sorted cmp x t))
    with (if p y then y :: filter p (JS.insert_sorted cmp x t)
          else filter p (JS.insert_sorted cmp x t)).
  rewrite IH. simpl.
  destruct (p x) eqn:Px; [|reflexivity].
  rewrite (Hp x y Px); [reflexivity|lia].
Qed.

Lemma sort_stable (p : A -> bool) (l : list A) :
  (forall a b, p a = true -> (cmp a b > 0)%Z -> p b = false) ->
  filter p (JS.sort cmp l) = filter p l.
Proof.
  intro Hp. induction l as [|x t IH]; [reflexivity|].
  simpl JS.sort. rewrite insert_sorted_filter by exact Hp.
  simpl. now rewrite IH.
Qed.

(** Sortedness needs the comparison to be total ... *)
Hypothesis cmp_total : forall x y, (cmp x y > 0)%Z -> (cmp y x <= 0)%Z.

Lemma insert_sorted_Sorted (x : A) (l : list A) :
  Sorted (JS.notAfter cmp) l -> Sorted (JS.notAfter cmp) (JS.insert_sorted cmp x l).
Proof.
  induction l as [|y t IH]; intro Hs; simpl.
  - repeat constructor.
  - destruct (cmp x y >? 0)%Z eqn:E.
    + apply Z.gtb_lt in E. inversion Hs as [|? ? Ht Hhd]; subst.
      constructor; [now apply IH|].
      destruct t as [|z t']; simpl.
      * constructor. apply cmp_total. lia.
      * destruct (cmp x z >? 0)%Z.
        -- inversion Hhd; subst. now constructor.
        -- constructor. apply cmp_total. lia.
    + constructor; [exact Hs|]. constructor.
      unfold JS.notAfter. destruct (Z.gtb_spec (cmp x y) 0); [discriminate|lia].
Qed.

Lemma sort_Sorted (l : list A) : Sorted (JS.notAfter cmp) (JS.sort cmp l).
Proof.
  induction l as [|x t IH]; simpl; [constructor|].
  now apply insert_sorted_Sorted.
Qed.

(** ... and a sorted array is left as it is. *)
Lemma sort_of_Sorted (l : list A) : Sorted (JS.notAfter cmp) l -> JS.sort cmp l = l.
Proof.
  induction l as [|x t IH]; intro Hs; [reflexivity|].
  inversion Hs as [|? ? Ht Hhd]; subst. simpl. rewrite (IH Ht).
  destruct t as [|y t']; [reflexivity|]. simpl.
  inversion Hhd as [|? ? Hxy]; subst. unfold JS.notAfter in Hxy.
  destruct (Z.gtb_spec (cmp x y) 0); [lia|reflexivity].
Qed.

Lemma sort_idempotent (l : list A) :
  JS.sort cmp (JS.sort cmp l) = JS.sort cmp l.
Proof. apply sort_of_Sorted, sort_Sorted. Qed.

Lemma sort_StronglySorted (l : list A) :
  (forall x y z, JS.notAfter cmp x y -> JS.notAfter cmp y z -> JS.notAfter cmp x z) ->
  StronglySorted (JS.notAfter cmp) (JS.sort cmp l).
Proof.
  intro Htr. apply Sorted_StronglySorted; [exact Htr|apply sort_Sorted].
Qed.

End SortFacts.

(** Two arrays whose elements correspond pairwise and compare alike are
    sorted into arrays that correspond pairwise. *)
Section SortForall2.

Context {A : Type}.
Variables (cmp : A -> A -> Z) (R : A -> A -> Prop).
Hypothesis cmp_R :
  forall x x' y y', R x x' -> R y y' -> cmp x y = cmp x' y'.

Lemma insert_sorted_Forall2 (x x' : A) (l l' : list A) :
  R x x' -> Forall2 R l l' ->
  Forall2 R (JS.insert_sorted cmp x l) (JS.insert_sorted cmp x' l').
Proof.
  intros Hx Hl. induction Hl as [|y y' t t' Hy Ht IH]; simpl.
  - now repeat constructor.
  - rewrite (cmp_R x x' y y' Hx Hy).
    destruct (cmp x' y' >? 0)%Z; constructor; auto.
Qed.

Lemma sort_Forall2 (l l' : list A) :
  Forall2 R l l' -> Forall2 R (JS.sort cmp l) (JS.sort cmp l').
Proof.
  induction 1 as [|x x' t t' Hx Ht IH]; simpl; [constructor|].
  now apply insert_sorted_Forall2.
Qed.

End SortForall2.

(** ** The two comparison functions *)

Lemma byCodePath_gt (a b : UmlClass) :
  (byCodePath a b > 0)%Z <-> String.compare (codePath a) (codePath b) = Gt.
Proof.
  unfold byCodePath, JS.str_lt, JS.str_gt.
  destruct (String.compare (codePath a) (codePath b)); split;
    intro H; try reflexivity; try discriminate; try lia.
Qed.

Lemma byCodePath_notAfter (a b : UmlClass) :
  JS.notAfter byCodePath a b <-> String.leb (codePath a) (codePath b) = true.
Proof.
  unfold JS.notAfter, byCodePath, JS.str_lt, JS.str_gt, String.leb.
  destruct (String.compare (codePath a) (codePath b)); split;
    intro H; try reflexivity; try discriminate; try lia.
Qed.

Lemma byCodePath_total (x y : UmlClass) :
  (byCodePath x y > 0)%Z -> (byCodePath y x <= 0)%Z.
Proof.
  intro H. apply byCodePath_gt in H.
  unfold byCodePath, JS.str_lt, JS.str_gt.
  rewrite String.compare_antisym, H. simpl. lia.
Qed.

Lemma string_leb_trans (a b c : string) :
  String.leb a b = true -> String.leb b c = true -> String.leb a c = true.
Proof.
  unfold String.leb. intros Hab Hbc.
  destruct (String.compare a b) eqn:Eab; try discriminate;
    destruct (String.compare b c) eqn:Ebc; try discriminate.
  - apply String.compare_eq_iff in Eab, Ebc. subst.
    assert (E : String.compare c c = Eq) by now apply String_as_OT.cmp_eq.
    now rewrite E.
  - apply String.compare_eq_iff in Eab. subst. now rewrite Ebc.
  - apply String.compare_eq_iff in Ebc. subst. now rewrite Eab.
  - apply String_as_OT.cmp_lt in Eab, Ebc.
    pose proof (String_as_OT.lt_trans _ _ _ Eab Ebc) as Hac.
    apply String_as_OT.cmp_lt in Hac. unfold String_as_OT.cmp in Hac.
    now rewrite Hac.
Qed.

Lemma byStereotypeDesc_total (x y : Operator) :
  (byStereotypeDesc x y > 0)%Z -> (byStereotypeDesc y x <= 0)%Z.
Proof. unfold byStereotypeDesc. lia. Qed.

Lemma OperatorStereotype_eqb_eq (a b : OperatorStereotype) :
  OperatorStereotype_eqb a b = true <-> a = b.
Proof.
  destruct a, b; split; intro H; try reflexivity; try discriminate.
Qed.

(** ** The codePath sort as a whole *)

Lemma sortUmlClassesByCodePath_perm (l : list UmlClass) :
  Permutation l (sortUmlClassesByCodePath l).
Proof. apply sort_perm. Qed.

Lemma sortUmlClassesByCodePath_sorted (l : list UmlClass) :
  StronglySorted
    (fun a b => String.leb (codePath a) (codePath b) = true)
    (sortUmlClassesByCodePath l).
Proof.
  assert (H : StronglySorted (JS.notAfter byCodePath)
                (sortUmlClassesByCodePath l)).
  { apply sort_StronglySorted; [apply byCodePath_total|].
    intros x y z Hxy Hyz. apply byCodePath_notAfter in Hxy, Hyz.
    apply byCodePath_notAfter. eapply string_leb_trans; eassumption. }
  induction H as [|x t Ht IH Hx]; constructor; [exact IH|].
  eapply Forall_impl; [|exact Hx]. intros b Hb.
  now apply byCodePath_notAfter.
Qed.

Lemma sortUmlClassesByCodePath_idempotent (l : list UmlClass) :
  sortUmlClassesByCodePath (sortUmlClassesByCodePath l)
  = sortUmlClassesByCodePath l.
Proof. apply sort_idempotent, byCodePath_total. Qed.

(** ** Visibility tiers *)

Lemma pushed_tierOf (g : string) (v : option Visibility) :
  In g vizGroups -> pushed g v = (tierOf v =? g).
Proof.
  intros [<-|[<-|[<-|[<-|[]]]]]; destruct v as [[]|]; reflexivity.
Qed.

Lemma tierOf_in_vizGroups (v : option Visibility) : In (tierOf v) vizGroups.
Proof. destruct v as [[]|]; simpl; auto. Qed.

Lemma pushed_members {A : Type} (vis : A -> option Visibility) (g : string)
  (l : list A) :
  In g vizGroups ->
  fold_left
    (fun acc x => if pushed g (vis x) then (acc ++ [x])%list else acc) l []
  = filter (fun x => tierOf (vis x) =? g) l.
Proof.
  intro Hg.
  rewrite (fold_left_push (fun x => pushed g (vis x))). simpl.
  apply filter_ext. intro x. now apply pushed_tierOf.
Qed.

Lemma dotAttributeVisibilities_tiers (umlClass : UmlClass) :
  dotAttributeVisibilities umlClass
  = "| " ++ dotAttributes "Private" (attributeTier "Private" umlClass)
    ++ dotAttributes "Internal" (attributeTier "Internal" umlClass)
    ++ dotAttributes "External" (attributeTier "External" umlClass)
    ++ dotAttributes "Public" (attributeTier "Public" umlClass).
Proof.
  unfold dotAttributeVisibilities, vizGroups, attributeTier.
  cbn [fold_left].
  rewrite !(pushed_members a_visibility) by (simpl; tauto).
  now rewrite !append_assoc.
Qed.

Lemma dotOperatorVisibilities_tiers (umlClass : UmlClass) :
  dotOperatorVisibilities umlClass
  = "| "
    ++ dotOperators umlClass "Private" (operatorTier "Private" umlClass)
    ++ dotOperators umlClass "Internal" (operatorTier "Internal" umlClass)
    ++ dotOperators umlClass "External" (operatorTier "External" umlClass)
    ++ dotOperators umlClass "Public" (operatorTier "Public" umlClass).
Proof.
  unfold dotOperatorVisibilities, vizGroups, operatorTier.
  cbn [fold_left].
  rewrite !(pushed_members o_visibility) by (simpl; tauto).
  now rewrite !append_assoc.
Qed.

(** The four tiers hold every member once. *)
Lemma tiers_partition {A : Type} (vis : A -> option Visibility) (l : list A) :
  Permutation l
    (filter (fun x => tierOf (vis x) =? "Private") l
     ++ filter (fun x => tierOf (vis x) =? "Internal") l
     ++ filter (fun x => tierOf (vis x) =? "External") l
     ++ filter (fun x => tierOf (vis x) =? "Public") l)%list.
Proof.
  induction l as [|x l IH]; [constructor|].
  cbn [filter].
  destruct (vis x) as [[]|]; cbn [tierOf String.eqb Ascii.eqb Bool.eqb];
    simpl;
    first [ now apply perm_skip
          | rewrite ?app_assoc; apply Permutation_cons_app;
            now rewrite <- ?app_assoc ].
Qed.

Lemma dotAttributes_heading (g : string) (l : list Attribute) :
  l <> [] ->
  dotAttributes g l
  = g ++ ":\l"
    ++ String.concat ""
         (map (fun a => "\ \ \ " ++ a_name a ++ ": " ++ a_type a ++ "\l") l).
Proof.
  intro Hl. unfold dotAttributes. destruct l as [|a l]; [contradiction|].
  rewrite (fold_left_append
             (fun a => "\ \ \ " ++ a_name a ++ ": " ++ a_type a ++ "\l")).
  now rewrite append_assoc.
Qed.

Lemma dotOperators_heading (umlClass : UmlClass) (g : string)
  (l : list Operator) :
  l <> [] ->
  dotOperators umlClass g l
  = g ++ ":\l"
    ++ String.concat ""
         (map (dotOperator umlClass) (JS.sort byStereotypeDesc l)).
Proof.
  intro Hl. unfold dotOperators. destruct l as [|a l]; [contradiction|].
  rewrite (fold_left_append (dotOperator umlClass)).
  now rewrite append_assoc.
Qed.

(** ** Order inside a filtered list *)

Lemma filter_split {A : Type} (f : A -> bool) (l l1 l2 : list A) (a : A) :
  filter f l = (l1 ++ a :: l2)%list ->
  exists l1' l2',
    l = (l1' ++ a :: l2')%list /\ filter f l1' = l1 /\ filter f l2' = l2.
Proof.
  revert l1; induction l as [|x t IH]; intros l1 H.
  - destruct l1; discriminate.
  - simpl in H. destruct (f x) eqn:Fx.
    + destruct l1 as [|y l1r]; simpl in H; injection H as Hx Ht.
      * subst. exists [], t. auto.
      * subst y. destruct (IH _ Ht) as (m1 & m2 & -> & H1 & H2).
        exists (x :: m1), m2. simpl. rewrite Fx, H1. auto.
    + destruct (IH _ H) as (m1 & m2 & -> & H1 & H2).
      exists (x :: m1), m2. simpl. rewrite Fx. auto.
Qed.

(** Two elements that pass the test and stand in this order in the filtered
    list stand in this order in the list itself. *)
Lemma filter_order {A : Type} (f : A -> bool) (l p q r : list A) (a b : A) :
  filter f l = (p ++ a :: q ++ b :: r)%list ->
  exists p' q' r', l = (p' ++ a :: q' ++ b :: r')%list.
Proof.
  intro H. destruct (filter_split f l p _ a H) as (p' & m & -> & _ & Hm).
  destruct (filter_split f m q r b Hm) as (q' & r' & -> & _ & _).
  now exists p', q', r'.
Qed.

Lemma withStereotype_sort (k : OperatorStereotype) (l : list Operator) :
  withStereotype k (JS.sort byStereotypeDesc l) = withStereotype k l.
Proof.
  apply sort_stable. intros a b Ha Hab.
  apply OperatorStereotype_eqb_eq in Ha.
  destruct (OperatorStereotype_eqb (o_stereotype b) k) eqn:E; [|reflexivity].
  apply OperatorStereotype_eqb_eq in E. unfold byStereotypeDesc in Hab.
  rewrite Ha, E in Hab. lia.
Qed.

Lemma sort_keeps_order (l p q r : list Operator) (a b : Operator) :
  JS.sort byStereotypeDesc l = (p ++ a :: q ++ b :: r)%list ->
  o_stereotype a = o_stereotype b ->
  exists p' q' r', l = (p' ++ a :: q' ++ b :: r')%list.
Proof.
  intros Hs Hab.
  pose proof (withStereotype_sort (o_stereotype a) l) as Hst.
  rewrite Hs in Hst. unfold withStereotype in Hst.
  rewrite filter_app in Hst. cbn [filter] in Hst.
  rewrite filter_app in Hst. cbn [filter] in Hst.
  rewrite <- Hab in Hst.
  replace (OperatorStereotype_eqb (o_stereotype a) (o_stereotype a))
    with true in Hst by (symmetry; now apply OperatorStereotype_eqb_eq).
  symmetry in Hst. eapply filter_order. exact Hst.
Qed.

(** ** The lines of a tier *)

Lemma dotOperator_line (umlClass : UmlClass) (operator : Operator) :
  dotOperator umlClass operator = operatorLine umlClass operator.
Proof.
  unfold dotOperator, operatorLine.
  destruct (OperatorStereotype_ord (o_stereotype operator) >? 0)%Z;
    destruct (o_returnParameters operator) as [[|r rs]|];
    rewrite ?append_assoc, ?append_nil_r; reflexivity.
Qed.

Lemma dotAttributes_lines (g : string) (l : list Attribute) :
  dotAttributes g l
  = match l with
    | [] => ""
    | _ => g ++ ":\l" ++ String.concat "" (map attributeLine l)
    end.
Proof.
  destruct l as [|a t] eqn:E; [reflexivity|]. rewrite <- E.
  apply dotAttributes_heading. rewrite E. discriminate.
Qed.

Lemma dotOperators_lines (umlClass : UmlClass) (g : string)
  (l : list Operator) :
  dotOperators umlClass g l
  = match l with
    | [] => ""
    | _ =>
        g ++ ":\l"
        ++ String.concat ""
             (map (operatorLine umlClass) (JS.sort byStereotypeDesc l))
    end.
Proof.
  destruct l as [|a t] eqn:E; [reflexivity|]. rewrite <- E.
  rewrite dotOperators_heading by (rewrite E; discriminate).
  now rewrite (map_ext (dotOperator umlClass) (operatorLine umlClass)
                 (dotOperator_line umlClass)).
Qed.

(** The text of a list holds the text of each of its elements. *)
Lemma concat_map_In {A : Type} (f : A -> string) (l : list A) (x : A) :
  In x l ->
  exists pre post, String.concat "" (map f l) = pre ++ f x ++ post.
Proof.
  intro H. apply in_split in H. destruct H as (l1 & l2 & ->).
  exists (String.concat "" (map f l1)), (String.concat "" (map f l2)).
  rewrite map_app, concat_app. cbn [map]. now rewrite concat_cons.
Qed.

Lemma tier_line_of_attribute (umlClass : UmlClass) (a : Attribute) :
  In a (attributes umlClass) ->
  exists pre post,
    dotAttributes (tierOf (a_visibility a))
      (attributeTier (tierOf (a_visibility a)) umlClass)
    = tierOf (a_visibility a) ++ ":\l" ++ pre ++ attributeLine a ++ post.
Proof.
  intro Ha.
  assert (Hin : In a (attributeTier (tierOf (a_visibility a)) umlClass)).
  { apply filter_In. split; [exact Ha|apply String.eqb_refl]. }
  rewrite dotAttributes_lines.
  destruct (concat_map_In attributeLine _ a Hin) as (pre & post & E).
  destruct (attributeTier (tierOf (a_visibility a)) umlClass) eqn:Et;
    [destruct Hin|].
  exists pre, post. now rewrite E.
Qed.

Lemma tier_line_of_operator (umlClass : UmlClass) (o : Operator) :
  In o (operators umlClass) ->
  exists pre post,
    dotOperators umlClass (tierOf (o_visibility o))
      (operatorTier (tierOf (o_visibility o)) umlClass)
    = tierOf (o_visibility o) ++ ":\l" ++ pre ++ operatorLine umlClass o
      ++ post.
Proof.
  intro Ho.
  assert (Hin : In o (operatorTier (tierOf (o_visibility o)) umlClass)).
  { apply filter_In. split; [exact Ho|apply String.eqb_refl]. }
  rewrite dotOperators_lines.
  assert (Hs : In o (JS.sort byStereotypeDesc
                       (operatorTier (tierOf (o_visibility o)) umlClass))).
  { eapply Permutation_in; [apply sort_perm|exact Hin]. }
  destruct (concat_map_In (operatorLine umlClass) _ o Hs)
    as (pre & post & E).
  destruct (operatorTier (tierOf (o_visibility o)) umlClass) eqn:Et;
    [destruct Hin|].
  exists pre, post. now rewrite E.
Qed.

(** ** Claims on the node label *)

(** C4: the attribute and the operator section of a label are the four
    tiers Private, Internal, External, Public in this order; the tiers hold
    every member once; a tier without members adds no text, so no heading
    either, and any other tier is its heading followed by one line for each
    of its members; the line of every member stands in the tier of its
    visibility, which is the Public tier for a member whose visibility is
    Public, None or absent. *)
Theorem visibility_tiers (umlClass : UmlClass) :
  dotAttributeVisibilities umlClass
  = "| " ++ dotAttributes "Private" (attributeTier "Private" umlClass)
    ++ dotAttributes "Internal" (attributeTier "Internal" umlClass)
    ++ dotAttributes "External" (attributeTier "External" umlClass)
    ++ dotAttributes "Public" (attributeTier "Public" umlClass)
  /\ dotOperatorVisibilities umlClass
     = "| "
       ++ dotOperators umlClass "Private" (operatorTier "Private" umlClass)
       ++ dotOperators umlClass "Internal" (operatorTier "Internal" umlClass)
       ++ dotOperators umlClass "External" (operatorTier "External" umlClass)
       ++ dotOperators umlClass "Public" (operatorTier "Public" umlClass)
  /\ Permutation (attributes umlClass)
       (attributeTier "Private" umlClass ++ attributeTier "Internal" umlClass
        ++ attributeTier "External" umlClass
        ++ attributeTier "Public" umlClass)%list
  /\ Permutation (operators umlClass)
       (operatorTier "Private" umlClass ++ operatorTier "Internal" umlClass
        ++ operatorTier "External" umlClass
        ++ operatorTier "Public" umlClass)%list
  /\ (forall a,
        In a (attributes umlClass) ->
        a_visibility a = Some VPublic \/ a_visibility a = Some VNone
        \/ a_visibility a = None ->
        In a (attributeTier "Public" umlClass)
        /\ exists pre post,
             dotAttributes "Public" (attributeTier "Public" umlClass)
             = "Public:\l" ++ pre ++ attributeLine a ++ post)
  /\ (forall o,
        In o (operators umlClass) ->
        o_visibility o = Some VPublic \/ o_visibility o = Some VNone
        \/ o_visibility o = None ->
        In o (operatorTier "Public" umlClass)
        /\ exists pre post,
             dotOperators umlClass "Public" (operatorTier "Public" umlClass)
             = "Public:\l" ++ pre ++ operatorLine umlClass o ++ post)
  /\ (forall g, dotAttributes g [] = "" /\ dotOperators umlClass g [] = "")
  /\ (forall g,
        dotAttributes g (attributeTier g umlClass)
        = match attributeTier g umlClass with
          | [] => ""
          | _ =>
              g ++ ":\l"
              ++ String.concat "" (map attributeLine (attributeTier g umlClass))
          end
        /\ dotOperators umlClass g (operatorTier g umlClass)
           = match operatorTier g umlClass with
             | [] => ""
             | _ =>
                 g ++ ":\l"
                 ++ String.concat ""
                      (map (operatorLine umlClass)
                         (JS.sort byStereotypeDesc
                            (operatorTier g umlClass)))
             end)
  /\ (forall a,
        In a (attributes umlClass) ->
        In (tierOf (a_visibility a)) vizGroups
        /\ exists pre post,
             dotAttributes (tierOf (a_visibility a))
               (attributeTier (tierOf (a_visibility a)) umlClass)
             = tierOf (a_visibility a) ++ ":\l" ++ pre ++ attributeLine a
               ++ post)
  /\ (forall o,
        In o (operators umlClass) ->
        In (tierOf (o_visibility o)) vizGroups
        /\ exists pre post,
             dotOperators umlClass (tierOf (o_visibility o))
               (operatorTier (tierOf (o_visibility o)) umlClass)
             = tierOf (o_visibility o) ++ ":\l" ++ pre
               ++ operatorLine umlClass o ++ post).
Proof.
  split; [apply dotAttributeVisibilities_tiers|].
  split; [apply dotOperatorVisibilities_tiers|].
  split; [apply (tiers_partition a_visibility)|].
  split; [apply (tiers_partition o_visibility)|].
  split.
  { intros a Ha Hv.
    assert (Ht : tierOf (a_visibility a) = "Public")
      by (destruct Hv as [-> | [-> | ->]]; reflexivity).
    split.
    - apply filter_In. split; [exact Ha|]. now rewrite Ht.
    - pose proof (tier_line_of_attribute umlClass a Ha) as H.
      now rewrite Ht in H. }
  split.
  { intros o Ho Hv.
    assert (Ht : tierOf (o_visibility o) = "Public")
      by (destruct Hv as [-> | [-> | ->]]; reflexivity).
    split.
    - apply filter_In. split; [exact Ho|]. now rewrite Ht.
    - pose proof (tier_line_of_operator umlClass o Ho) as H.
      now rewrite Ht in H. }
  split; [intro g; split; reflexivity|].
  split.
  { intro g. split; [apply dotAttributes_lines|apply dotOperators_lines]. }
  split.
  - intros a Ha. split; [apply tierOf_in_vizGroups|].
    now apply tier_line_of_attribute.
  - intros o Ho. split; [apply tierOf_in_vizGroups|].
    now apply tier_line_of_operator.
Qed.

(** C5: a tier of operators is rendered as one line for each operator, in
    the order of a sort by descending stereotype ordinal, and two operators
    of one stereotype that stand in some order in the rendered tier stand
    in that order in the operators of the class. *)
Theorem operators_sorted_stably (umlClass : UmlClass) (vizGroup : string) :
  let tier := operatorTier vizGroup umlClass in
  let rendered := JS.sort byStereotypeDesc tier in
  dotOperators umlClass vizGroup tier
  = match tier with
    | [] => ""
    | _ =>
        vizGroup ++ ":\l"
        ++ String.concat "" (map (operatorLine umlClass) rendered)
    end
  /\ Permutation tier rendered
  /\ StronglySorted
       (fun a b =>
          (OperatorStereotype_ord (o_stereotype b)
           <= OperatorStereotype_ord (o_stereotype a))%Z)
       rendered
  /\ (forall k, withStereotype k rendered = withStereotype k tier)
  /\ (forall a b before between after,
        rendered = (before ++ a :: between ++ b :: after)%list ->
        (dotOperators umlClass vizGroup tier
         = vizGroup ++ ":\l"
           ++ String.concat "" (map (operatorLine umlClass) before)
           ++ operatorLine umlClass a
           ++ String.concat "" (map (operatorLine umlClass) between)
           ++ operatorLine umlClass b
           ++ String.concat "" (map (operatorLine umlClass) after))
        /\ (OperatorStereotype_ord (o_stereotype b)
            <= OperatorStereotype_ord (o_stereotype a))%Z
        /\ (o_stereotype a = o_stereotype b ->
            exists before' between' after',
              operators umlClass
              = (before' ++ a :: between' ++ b :: after')%list)).
Proof.
  intros tier rendered.
  assert (Hsorted : StronglySorted
                      (fun a b =>
                         (OperatorStereotype_ord (o_stereotype b)
                          <= OperatorStereotype_ord (o_stereotype a))%Z)
                      rendered).
  { assert (H : StronglySorted (JS.notAfter byStereotypeDesc) rendered).
    { apply sort_StronglySorted; [apply byStereotypeDesc_total|].
      unfold JS.notAfter, byStereotypeDesc. intros; lia. }
    induction H as [|x t Ht IH Hx]; constructor; [exact IH|].
    eapply Forall_impl; [|exact Hx].
    unfold JS.notAfter, byStereotypeDesc. intros; lia. }
  split; [apply dotOperators_lines|].
  split; [apply sort_perm|].
  split; [exact Hsorted|].
  split; [intro k; apply withStereotype_sort|].
  intros a b p q r Hr. split; [|split].
  - rewrite dotOperators_lines. fold rendered.
    assert (Hne : tier <> []).
    { intro E. unfold rendered in Hr. rewrite E in Hr.
      destruct p; discriminate Hr. }
    destruct tier as [|o0 t0] eqn:Et; [contradiction|].
    rewrite Hr. rewrite map_app, concat_app. cbn [map].
    rewrite concat_cons, map_app, concat_app. cbn [map].
    rewrite concat_cons. rewrite ?append_assoc. reflexivity.
  - rewrite Hr in Hsorted. clear Hr.
    induction p as [|x p IH].
    + inversion Hsorted as [|? ? _ Hall]; subst.
      rewrite Forall_forall in Hall. apply Hall.
      apply in_or_app. right. now left.
    + inversion Hsorted; subst. now apply IH.
  - intro Hab.
    destruct (sort_keeps_order tier p q r a b Hr Hab) as (p' & q' & r' & Ht).
    unfold tier, operatorTier in Ht.
    eapply filter_order. exact Ht.
Qed.


(** ** Resolution of associations *)

Lemma isTarget_matches (s : UmlClass) (a : Association) (t : UmlClass) :
  isTarget s a t = true <-> matches s a t.
Proof.
  unfold isTarget, matches, JS.includes.
  rewrite andb_true_iff, orb_true_iff, String.eqb_eq, String.eqb_eq,
    existsb_exists.
  split; intros [Hn Hp]; (split; [exact Hn|]).
  - destruct Hp as [(x & Hx & E)|E]; [left|right; now symmetry].
    apply String.eqb_eq in E. now subst.
  - destruct Hp as [Hi|E]; [left|right; now symmetry].
    exists (codePath t). split; [exact Hi|apply String.eqb_refl].
Qed.

Lemma find_first {A : Type} (f : A -> bool) (l : list A) (x : A) :
  find f l = Some x <->
  exists before after,
    l = (before ++ x :: after)%list /\ f x = true
    /\ forall y, In y before -> f y = false.
Proof.
  split.
  - induction l as [|y t IH]; [discriminate|]. simpl.
    destruct (f y) eqn:Fy.
    + intros [= ->]. exists [], t. repeat split; auto. intros ? [].
    + intro H. destruct (IH H) as (b & c & -> & Fx & Hb).
      exists (y :: b), c. repeat split; auto.
      intros z [<-|Hz]; auto.
  - intros (b & c & -> & Fx & Hb). induction b as [|y b IH]; simpl.
    + now rewrite Fx.
    + rewrite (Hb y) by now left. apply IH. intros z Hz. apply Hb. now right.
Qed.

Lemma find_nothing {A : Type} (f : A -> bool) (l : list A) :
  find f l = None <-> forall y, In y l -> f y = false.
Proof.
  split; [apply find_none|].
  induction l as [|y t IH]; intro H; [reflexivity|]. simpl.
  rewrite (H y) by now left. apply IH. intros z Hz. apply H. now right.
Qed.

Lemma fold_left_append_found {A B : Type} (g : A -> option B)
  (h : A -> B -> string) (l : list A) (init : string) :
  fold_left
    (fun acc x => match g x with Some y => acc ++ h x y | None => acc end)
    l init
  = init
    ++ String.concat ""
         (map (fun x => match g x with Some y => h x y | None => "" end) l).
Proof.
  revert init; induction l as [|x l IH]; intro init.
  - simpl. now rewrite append_nil_r.
  - cbn [map fold_left]. rewrite concat_cons, IH.
    destruct (g x); [now rewrite append_assoc|reflexivity].
Qed.

Lemma addAssociations_loop (umlClasses l : list UmlClass)
  (classOptions : ClassOptions) (init : string) :
  fold_left
    (fun dotString sourceUmlClass =>
       fold_left
         (fun dotString association =>
            match find (isTarget sourceUmlClass association) umlClasses with
            | Some targetUmlClass =>
                dotString
                ++ addAssociationToDot sourceUmlClass targetUmlClass
                     association classOptions
            | None => dotString
            end)
         (Object_values (associations sourceUmlClass)) dotString)
    l init
  = init ++ String.concat "" (map (edgesOf classOptions umlClasses) l).
Proof.
  revert init; induction l as [|s l IH]; intro init.
  - simpl. now rewrite append_nil_r.
  - cbn [fold_left map]. rewrite IH, concat_cons, <- append_assoc. f_equal.
    apply (fold_left_append_found
             (fun a => find (isTarget s a) umlClasses)
             (fun a t => addAssociationToDot s t a classOptions)).
Qed.

Lemma addAssociationsToDot_edgesOf (umlClasses : list UmlClass)
  (classOptions : ClassOptions) :
  addAssociationsToDot umlClasses classOptions
  = String.concat "" (map (edgesOf classOptions umlClasses) umlClasses).
Proof.
  unfold addAssociationsToDot. now rewrite addAssociations_loop.
Qed.

Lemma edgesOf_emitted (classOptions : ClassOptions)
  (umlClasses : list UmlClass) (s : UmlClass) :
  edgesOf classOptions umlClasses s
  = String.concat ""
      (map (edgeText classOptions)
         (flat_map
            (fun a =>
               match find (isTarget s a) umlClasses with
               | Some t => if hidden classOptions t then [] else [(s, t, a)]
               | None => []
               end)
            (Object_values (associations s)))).
Proof.
  unfold edgesOf.
  induction (Object_values (associations s)) as [|a l IH]; [reflexivity|].
  cbn [map flat_map]. rewrite map_app, concat_app, concat_cons, IH.
  f_equal. unfold edgeOf.
  destruct (find (isTarget s a) umlClasses) as [t|]; [|reflexivity].
  destruct (hidden classOptions t) eqn:Ht.
  - unfold addAssociationToDot. now rewrite Ht.
  - cbn [map]. now rewrite concat_cons, append_nil_r.
Qed.

Lemma addAssociationsToDot_emitted (umlClasses : list UmlClass)
  (classOptions : ClassOptions) :
  addAssociationsToDot umlClasses classOptions
  = String.concat ""
      (map (edgeText classOptions) (emittedEdges classOptions umlClasses)).
Proof.
  rewrite addAssociationsToDot_edgesOf. unfold emittedEdges.
  induction umlClasses as [|s l IH] at 2 4; [reflexivity|].
  cbn [map flat_map].
  now rewrite concat_cons, map_app, concat_app, IH, edgesOf_emitted.
Qed.

Lemma emittedEdges_In (classOptions : ClassOptions)
  (umlClasses : list UmlClass) (s t : UmlClass) (a : Association) :
  In (s, t, a) (emittedEdges classOptions umlClasses) <->
  In s umlClasses /\ In a (Object_values (associations s))
  /\ find (isTarget s a) umlClasses = Some t
  /\ hidden classOptions t = false.
Proof.
  unfold emittedEdges. rewrite in_flat_map. split.
  - intros (s' & Hs & H). apply in_flat_map in H. destruct H as (a' & Ha & H).
    destruct (find (isTarget s' a') umlClasses) as [t'|] eqn:F; [|destruct H].
    destruct (hidden classOptions t') eqn:Hh; [destruct H|].
    destruct H as [[= -> -> ->]|[]]. auto.
  - intros (Hs & Ha & F & Hh). exists s. split; [exact Hs|].
    apply in_flat_map. exists a. split; [exact Ha|].
    rewrite F, Hh. now left.
Qed.

(** The text of an edge that is emitted: source, arrow, target, and the
    attributes in brackets. *)
Lemma addAssociationToDot_shape (s t : UmlClass) (a : Association)
  (classOptions : ClassOptions) :
  hidden classOptions t = false ->
  addAssociationToDot s t a classOptions
  = nl ++ id s ++ " -> " ++ id t ++ " ["
    ++ ((if ReferenceType_eqb (referenceType a) Memory
            || (realization a && stereotype_is (stereotype t) CInterface)
         then "style=dashed, " else "")
        ++ (if realization a
            then "arrowhead=empty, arrowsize=3, "
                 ++ (if stereotype_falsy (stereotype t)
                     then "weight=4, " else "weight=3, ")
            else ""))
    ++ "]".
Proof.
  intro Hh. unfold addAssociationToDot. rewrite Hh.
  destruct (ReferenceType_eqb (referenceType a) Memory
            || (realization a && stereotype_is (stereotype t) CInterface));
    destruct (realization a);
    destruct (stereotype_falsy (stereotype t));
    rewrite ?append_assoc; cbn [append]; rewrite ?append_assoc;
    reflexivity.
Qed.

(** ** The lines of the edges *)

Lemma edgeText_line (classOptions : ClassOptions)
  (e : UmlClass * UmlClass * Association) :
  hidden classOptions (edgeTarget e) = false ->
  edgeText classOptions e = edgeLine e.
Proof.
  intro H. unfold edgeText, edgeLine, edgeAttrs.
  now apply addAssociationToDot_shape.
Qed.

Lemma emittedEdges_not_hidden (classOptions : ClassOptions)
  (umlClasses : list UmlClass) (e : UmlClass * UmlClass * Association) :
  In e (emittedEdges classOptions umlClasses) ->
  hidden classOptions (edgeTarget e) = false.
Proof.
  destruct e as [[s t] a]. intro H. apply emittedEdges_In in H. tauto.
Qed.

Lemma addAssociationsToDot_lines (umlClasses : list UmlClass)
  (classOptions : ClassOptions) :
  addAssociationsToDot umlClasses classOptions
  = String.concat ""
      (map edgeLine (emittedEdges classOptions umlClasses)).
Proof.
  rewrite addAssociationsToDot_emitted. f_equal.
  apply map_ext_in. intros e He. apply edgeText_line.
  eapply emittedEdges_not_hidden. exact He.
Qed.

(** ** Claims on the edges *)

(** C1: the text of the associations is one line for each emitted edge,
    and the line names the source and the target of the edge by their
    identifiers; the target of each emitted edge is the first class in list
    order that has the name the association asks for and lies in a file
    that the source imports or in the source's own file, and every
    association with such a first match that the options do not hide is
    emitted.  With two classes named alike in files A and B and a source in
    a third file that imports only A, the line for that name goes to A's
    class and never to B's. *)
Theorem association_resolves_to_first_match (classOptions : ClassOptions)
  (umlClasses : list UmlClass) :
  addAssociationsToDot umlClasses classOptions
  = String.concat ""
      (map
         (fun e =>
            nl ++ id (edgeSource e) ++ " -> " ++ id (edgeTarget e) ++ " ["
            ++ edgeAttrs (edgeAssociation e) (edgeTarget e) ++ "]")
         (emittedEdges classOptions umlClasses))
  /\ (forall source target association,
        In (source, target, association)
          (emittedEdges classOptions umlClasses) <->
        In source umlClasses
        /\ In association (Object_values (associations source))
        /\ hidden classOptions target = false
        /\ exists before after,
             umlClasses = (before ++ target :: after)%list
             /\ matches source association target
             /\ forall x, In x before -> ~ matches source association x)
  /\ (forall source target association,
        In (source, target, association)
          (emittedEdges classOptions umlClasses) ->
        addAssociationToDot source target association classOptions
        = nl ++ id source ++ " -> " ++ id target ++ " ["
          ++ edgeAttrs association target ++ "]"
        /\ exists pre post,
             addAssociationsToDot umlClasses classOptions
             = pre ++ nl ++ id source ++ " -> " ++ id target ++ " ["
               ++ edgeAttrs association target ++ "]" ++ post)
  /\ (forall fooA fooB source association,
        In fooA umlClasses ->
        name fooA = targetUmlClassName association ->
        name fooB = targetUmlClassName association ->
        importedPaths source = [codePath fooA] ->
        codePath fooB <> codePath fooA ->
        codePath fooB <> codePath source ->
        (forall x,
           In x umlClasses -> name x = targetUmlClassName association ->
           x = fooA \/ x = fooB) ->
        find (isTarget source association) umlClasses = Some fooA
        /\ (forall target,
              In (source, target, association)
                (emittedEdges classOptions umlClasses) ->
              target = fooA /\ target <> fooB)
        /\ (hidden classOptions fooA = false ->
            edgeOf classOptions umlClasses source association
            = nl ++ id source ++ " -> " ++ id fooA ++ " ["
              ++ edgeAttrs association fooA ++ "]")).
Proof.
  split; [apply addAssociationsToDot_lines|]. split.
  - intros s t a. rewrite emittedEdges_In, find_first. split.
    + intros (Hs & Ha & (b & c & -> & Ft & Hb) & Hh).
      do 3 (split; [assumption|]). exists b, c.
      split; [reflexivity|]. split; [now apply isTarget_matches|].
      intros x Hx Hm. apply isTarget_matches in Hm.
      rewrite (Hb x Hx) in Hm. discriminate.
    + intros (Hs & Ha & Hh & b & c & -> & Hm & Hb).
      do 2 (split; [assumption|]). split; [|assumption]. exists b, c.
      split; [reflexivity|]. split; [now apply isTarget_matches|].
      intros x Hx. destruct (isTarget s a x) eqn:E; [|reflexivity].
      apply isTarget_matches in E. now destruct (Hb x Hx).
  - split.
    { intros s t a He. split.
      - apply (edgeText_line classOptions (s, t, a)).
        exact (emittedEdges_not_hidden _ _ _ He).
      - rewrite addAssociationsToDot_lines.
        destruct (concat_map_In edgeLine _ _ He) as (pre & post & E).
        exists pre, post. rewrite E. unfold edgeLine.
        cbn [edgeSource edgeTarget edgeAssociation fst snd].
        rewrite ?append_assoc. reflexivity. }
    intros fooA fooB s a HA HnA HnB Himp HBA HBs Honly.
    assert (HmA : matches s a fooA).
    { split; [exact HnA|]. left. rewrite Himp. now left. }
    assert (HmB : ~ matches s a fooB).
    { intros [_ [Hi|He]]; [|now apply HBs].
      rewrite Himp in Hi. destruct Hi as [Hi|[]]. now apply HBA. }
    assert (F : find (isTarget s a) umlClasses = Some fooA).
    { destruct (find (isTarget s a) umlClasses) as [t|] eqn:F.
      - destruct (find_some _ _ F) as [Ht Hm]. apply isTarget_matches in Hm.
        destruct (Honly t Ht (proj1 Hm)) as [->| ->]; [reflexivity|].
        now destruct HmB.
      - apply isTarget_matches in HmA.
        rewrite (proj1 (find_nothing _ _) F fooA HA) in HmA. discriminate. }
    split; [exact F|]. split.
    + intros t Ht. apply emittedEdges_In in Ht.
      destruct Ht as (_ & _ & Ft & _). rewrite F in Ft. injection Ft as <-.
      split; [reflexivity|]. intros ->. now apply HmB.
    + intro Hh. unfold edgeOf. rewrite F.
      apply (edgeText_line classOptions (s, fooA, a)). exact Hh.
Qed.

(** C2: with hideLibraries set, a Library class adds nothing to the nodes
    of its block and is the target of no emitted edge, and likewise an
    Interface with hideInterfaces; the edges it is the source of stay. *)
Theorem hidden_stereotype_leaves_no_node_and_no_edge
  (classOptions : ClassOptions) (umlClasses : list UmlClass) (u : UmlClass) :
  (hideLibraries classOptions = true /\ stereotype u = Some CLibrary)
  \/ (hideInterfaces classOptions = true /\ stereotype u = Some CInterface) ->
  dotUmlClass u classOptions = ""
  /\ (forall before after,
        String.concat ""
          (map (fun c => dotUmlClass c classOptions)
             (before ++ u :: after)%list)
        = String.concat ""
            (map (fun c => dotUmlClass c classOptions)
               (before ++ after)%list))
  /\ (forall source association,
        addAssociationToDot source u association classOptions = "")
  /\ (forall e,
        In e (emittedEdges classOptions umlClasses) -> edgeTarget e <> u)
  /\ addAssociationsToDot umlClasses classOptions
     = String.concat ""
         (map (edgeText classOptions)
            (emittedEdges classOptions umlClasses)).
Proof.
  intro H.
  assert (Hh : hidden classOptions u = true).
  { unfold hidden. destruct H as [[-> ->]|[-> ->]]; simpl;
      [reflexivity|apply orb_true_r]. }
  assert (Hn : dotUmlClass u classOptions = "").
  { unfold dotUmlClass. now rewrite Hh. }
  split; [exact Hn|]. split.
  { intros b c. rewrite !map_app, !concat_app. cbn [map].
    now rewrite concat_cons, Hn. }
  split.
  { intros s a. unfold addAssociationToDot. now rewrite Hh. }
  split; [|apply addAssociationsToDot_emitted].
  intros [[s t] a] He. apply emittedEdges_In in He.
  destruct He as (_ & _ & _ & Ht). cbn. intros ->.
  rewrite Hh in Ht. discriminate.
Qed.

(** C7: an emitted edge is the source, an arrow, the target and a list of
    attributes; the list holds the dashed style exactly when the reference
    type is Memory or the association is a realization of an Interface; a
    realization holds the empty arrowhead, with weight 4 for a target that
    has no stereotype and weight 3 for any other; an edge that is no
    realization holds neither the empty arrowhead nor a weight. *)
Theorem edge_styling (classOptions : ClassOptions)
  (umlClasses : list UmlClass) (e : UmlClass * UmlClass * Association) :
  In e (emittedEdges classOptions umlClasses) ->
  exists attrs,
    edgeText classOptions e
    = nl ++ id (edgeSource e) ++ " -> " ++ id (edgeTarget e) ++ " ["
      ++ attrs ++ "]"
    /\ (contains "style=dashed" attrs = true <->
        referenceType (edgeAssociation e) = Memory
        \/ (realization (edgeAssociation e) = true
            /\ stereotype (edgeTarget e) = Some CInterface))
    /\ (realization (edgeAssociation e) = true ->
        contains "arrowhead=empty" attrs = true
        /\ (stereotype (edgeTarget e) = None
            \/ stereotype (edgeTarget e) = Some CNone ->
            contains "weight=4" attrs = true
            /\ contains "weight=3" attrs = false)
        /\ (~ (stereotype (edgeTarget e) = None
               \/ stereotype (edgeTarget e) = Some CNone) ->
            contains "weight=3" attrs = true
            /\ contains "weight=4" attrs = false))
    /\ (realization (edgeAssociation e) = false ->
        contains "arrowhead=empty" attrs = false
        /\ contains "weight=" attrs = false).
Proof.
  destruct e as [[s t] a]. intro He. apply emittedEdges_In in He.
  destruct He as (_ & _ & _ & Hh).
  eexists. split.
  { unfold edgeText, edgeSource, edgeTarget, edgeAssociation.
    cbn [fst snd]. apply addAssociationToDot_shape. exact Hh. }
  unfold edgeTarget, edgeAssociation. cbn [fst snd].
  destruct (referenceType a), (realization a),
    (stereotype t) as [[]|];
    vm_compute; repeat split; intros;
    try reflexivity; try discriminate;
    intuition (try discriminate; try congruence).
Qed.

(** ** The loop over the sorted classes *)

Section RenderFacts.

Variable dirname : string -> string.
Variables (clusterFolders : bool) (classOptions : ClassOptions).

Local Abbreviation step := (subgraphStep dirname clusterFolders classOptions).
Local Abbreviation groups := (groupByFolder dirname).
Local Abbreviation blocks := (subgraphBlocks clusterFolders classOptions).
Local Abbreviation continue := (continueRun clusterFolders classOptions).

Lemma getSubGraphName_pair (c : N) :
  getSubGraphName clusterFolders c
  = (fst (getSubGraphName clusterFolders c), JS.incr c).
Proof. unfold getSubGraphName. now destruct clusterFolders. Qed.

Lemma step_same (acc cur : string) (c : N) (u : UmlClass) :
  (cur =? folderOf dirname u) = true ->
  step (mkLoopState acc cur c) u
  = mkLoopState (acc ++ dotUmlClass u classOptions) cur c.
Proof.
  intro E. unfold subgraphStep. cbn [currentCodeFolder].
  fold (folderOf dirname u). now rewrite E.
Qed.

Lemma step_new (acc cur : string) (c : N) (u : UmlClass) :
  (cur =? folderOf dirname u) = false ->
  step (mkLoopState acc cur c) u
  = mkLoopState
      ((if negb (cur =? "") then acc ++ (nl ++ "}") else acc)
       ++ subgraphOpening clusterFolders c (folderOf dirname u)
       ++ dotUmlClass u classOptions)
      (folderOf dirname u) (JS.incr c).
Proof.
  intro E. unfold subgraphStep. cbn [currentCodeFolder dotString subGraphCount].
  fold (folderOf dirname u). rewrite E. cbn [negb].
  rewrite getSubGraphName_pair.
  cbn [currentCodeFolder dotString subGraphCount].
  unfold subgraphOpening. rewrite ?append_assoc; reflexivity.
Qed.

Lemma groups_head (u : UmlClass) (t : list UmlClass) :
  exists us rest, groups (u :: t) = (folderOf dirname u, u :: us) :: rest.
Proof.
  simpl. destruct (groups t) as [|[f us] rest]; [now exists [], []|].
  destruct (folderOf dirname u =? f) eqn:E.
  - apply String.eqb_eq in E. subst f. now exists us, rest.
  - now exists [], ((f, us) :: rest).
Qed.

Lemma nodesOf_cons (u : UmlClass) (us : list UmlClass) :
  nodesOf classOptions (u :: us)
  = dotUmlClass u classOptions ++ nodesOf classOptions us.
Proof. unfold nodesOf. cbn [map]. apply concat_cons. Qed.

Lemma blocks_cons (c : N) (u : UmlClass) (t : list UmlClass) :
  blocks c (groups (u :: t))
  = subgraphOpening clusterFolders c (folderOf dirname u)
    ++ dotUmlClass u classOptions
    ++ continue (folderOf dirname u) (JS.incr c) (groups t).
Proof.
  cbn [groupByFolder]. destruct (groups t) as [|[f us] rest].
  - cbn [subgraphBlocks continueRun]. unfold subgraphBlock.
    rewrite nodesOf_cons. unfold nodesOf. cbn [map String.concat].
    rewrite ?append_assoc, ?append_nil_r; reflexivity.
  - unfold continueRun. destruct (folderOf dirname u =? f) eqn:E.
    + apply String.eqb_eq in E. subst f.
      cbn [subgraphBlocks]. unfold subgraphBlock.
      rewrite nodesOf_cons. rewrite ?append_assoc; reflexivity.
    + cbn [subgraphBlocks]. unfold subgraphBlock at 1.
      rewrite nodesOf_cons. unfold nodesOf at 1. cbn [map String.concat].
      rewrite ?append_assoc, ?append_nil_r; reflexivity.
Qed.

Lemma continue_same (cur : string) (c : N) (u : UmlClass)
  (t : list UmlClass) :
  (cur =? folderOf dirname u) = true ->
  continue cur c (groups (u :: t))
  = dotUmlClass u classOptions ++ continue cur c (groups t).
Proof.
  intro E. apply String.eqb_eq in E. subst cur.
  cbn [groupByFolder]. destruct (groups t) as [|[f us] rest].
  - unfold continueRun. rewrite String.eqb_refl.
    unfold nodesOf. cbn [map String.concat subgraphBlocks].
    rewrite ?append_assoc, ?append_nil_r; reflexivity.
  - destruct (folderOf dirname u =? f) eqn:E.
    + apply String.eqb_eq in E. subst f. unfold continueRun.
      rewrite String.eqb_refl, nodesOf_cons. rewrite ?append_assoc; reflexivity.
    + unfold continueRun. rewrite String.eqb_refl, E.
      unfold nodesOf. cbn [map String.concat].
      rewrite ?append_assoc; reflexivity.
Qed.

Lemma continue_new (cur : string) (c : N) (u : UmlClass)
  (t : list UmlClass) :
  (cur =? folderOf dirname u) = false ->
  continue cur c (groups (u :: t)) = nl ++ "}" ++ blocks c (groups (u :: t)).
Proof.
  intro E. destruct (groups_head u t) as (us & rest & ->).
  unfold continueRun. now rewrite E.
Qed.

Lemma countAfter_succ (c : N) (n : nat) :
  countAfter c (S n) = countAfter (JS.incr c) n.
Proof. unfold countAfter. apply Nat.iter_succ_r. Qed.

Lemma countAfterRun_same (cur : string) (c : N) (u : UmlClass)
  (t : list UmlClass) :
  (cur =? folderOf dirname u) = true ->
  countAfterRun cur c (groups (u :: t)) = countAfterRun cur c (groups t).
Proof.
  intro E. apply String.eqb_eq in E. subst cur.
  cbn [groupByFolder]. destruct (groups t) as [|[f us] rest].
  - unfold countAfterRun. now rewrite String.eqb_refl.
  - destruct (folderOf dirname u =? f) eqn:E; unfold countAfterRun.
    + apply String.eqb_eq in E. subst f. now rewrite String.eqb_refl.
    + now rewrite String.eqb_refl, E.
Qed.

Lemma countAfter_groups_cons (c : N) (u : UmlClass) (t : list UmlClass) :
  countAfter c (List.length (groups (u :: t)))
  = countAfterRun (folderOf dirname u) (JS.incr c) (groups t).
Proof.
  cbn [groupByFolder]. destruct (groups t) as [|[f us] rest].
  - reflexivity.
  - unfold countAfterRun. destruct (folderOf dirname u =? f);
      cbn [List.length]; now rewrite countAfter_succ.
Qed.

Lemma countAfterRun_new (cur : string) (c : N) (u : UmlClass)
  (t : list UmlClass) :
  (cur =? folderOf dirname u) = false ->
  countAfterRun cur c (groups (u :: t))
  = countAfter c (List.length (groups (u :: t))).
Proof.
  intro E. destruct (groups_head u t) as (us & rest & ->).
  unfold countAfterRun. now rewrite E.
Qed.

(** The loop from a state in which a block is open. *)
Lemma loop_from_open (l : list UmlClass) (acc cur : string) (c : N) :
  (forall p, dirname p <> "") ->
  cur <> "" ->
  let st := fold_left step l (mkLoopState acc cur c) in
  dotString st ++ nl ++ "}" = acc ++ continue cur c (groups l)
  /\ subGraphCount st = countAfterRun cur c (groups l)
  /\ currentCodeFolder st <> "".
Proof.
  intro Hdir. revert acc cur c.
  induction l as [|u t IH]; intros acc cur c Hcur.
  - simpl. auto.
  - cbn [fold_left]. destruct (cur =? folderOf dirname u) eqn:E.
    + rewrite (step_same _ _ _ _ E).
      destruct (IH (acc ++ dotUmlClass u classOptions) cur c Hcur)
        as (Ht & Hc & Hf).
      cbv zeta. rewrite Ht, Hc.
      rewrite (continue_same _ _ _ _ E), (countAfterRun_same _ _ _ _ E).
      now rewrite append_assoc.
    + rewrite (step_new _ _ _ _ E).
      assert (Hne : negb (cur =? "") = true).
      { apply negb_true_iff, String.eqb_neq. exact Hcur. }
      rewrite Hne.
      match goal with
      | |- context [fold_left _ t (mkLoopState ?a ?f ?n)] =>
          destruct (IH a f n (Hdir (codePath u))) as (Ht & Hc & Hf)
      end.
      cbv zeta. rewrite Ht, Hc.
      rewrite (continue_new _ _ _ _ E), (countAfterRun_new _ _ _ _ E).
      rewrite blocks_cons, countAfter_groups_cons.
      split; [rewrite ?append_assoc; reflexivity|].
      split; [reflexivity|exact Hf].
Qed.

(** The whole loop, from the state in which no block is open, and the
    closing of the last block after it. *)
Lemma loop_whole (l : list UmlClass) (acc : string) (c : N) :
  (forall p, dirname p <> "") ->
  let st := fold_left step l (mkLoopState acc "" c) in
  (if negb (currentCodeFolder st =? "")
   then dotString st ++ (nl ++ "}") else dotString st)
  = acc ++ blocks c (groups l)
  /\ subGraphCount st = countAfter c (List.length (groups l)).
Proof.
  intro Hdir. destruct l as [|u t].
  - simpl. now rewrite append_nil_r.
  - cbn [fold_left].
    assert (E : ("" =? folderOf dirname u) = false).
    { apply String.eqb_neq. intro H. symmetry in H. revert H. apply Hdir. }
    rewrite (step_new _ _ _ _ E). cbn [String.eqb negb].
    match goal with
    | |- context [fold_left _ t (mkLoopState ?a ?f ?n)] =>
        destruct (loop_from_open t a f n Hdir (Hdir (codePath u)))
          as (Ht & Hc & Hf)
    end.
    cbv zeta. apply String.eqb_neq in Hf. rewrite Hf. cbn [negb].
    rewrite blocks_cons, countAfter_groups_cons.
    split; [|exact Hc].
    rewrite <- append_assoc in Ht |- *. rewrite Ht.
    rewrite ?append_assoc. reflexivity.
Qed.

Lemma convertUmlClasses2Dot_text (l : list UmlClass) (c : N) :
  (forall p, dirname p <> "") ->
  let r := convertUmlClasses2Dot dirname l clusterFolders classOptions c in
  let sorted := sortUmlClassesByCodePath l in
  dot_text r
  = digraphHeader ++ blocks c (groups sorted)
    ++ addAssociationsToDot sorted classOptions ++ nl ++ "}"
  /\ subGraphCount_after r = countAfter c (List.length (groups sorted))
  /\ umlClasses_after r = sorted.
Proof.
  intros Hdir r sorted. unfold r, convertUmlClasses2Dot. cbn [dot_text
    subGraphCount_after umlClasses_after]. fold sorted.
  destruct (loop_whole sorted digraphHeader c Hdir) as [Ht Hc].
  cbv zeta in Ht, Hc. rewrite Ht, Hc.
  split; [|auto]. rewrite ?append_assoc. reflexivity.
Qed.

(** The runs are what the specification calls them. *)
Lemma groups_concat (l : list UmlClass) :
  List.concat (map snd (groups l)) = l.
Proof.
  induction l as [|u t IH]; [reflexivity|]. cbn [groupByFolder].
  destruct (groups t) as [|[f us] rest].
  - simpl in IH. now subst t.
  - destruct (folderOf dirname u =? f); simpl in *; now rewrite IH.
Qed.

Lemma groups_members (l : list UmlClass) :
  Forall
    (fun run =>
       snd run <> []
       /\ Forall (fun u => dirname (codePath u) = fst run) (snd run))
    (groups l).
Proof.
  induction l as [|u t IH]; [constructor|]. cbn [groupByFolder].
  destruct (groups t) as [|[f us] rest].
  - repeat constructor. discriminate.
  - inversion IH as [|? ? [Hne Hall] Hrest]; subst.
    destruct (folderOf dirname u =? f) eqn:E.
    + apply String.eqb_eq in E. constructor; [|exact Hrest].
      split; [discriminate|]. constructor; [exact E|exact Hall].
    + constructor; [|exact IH]. split; [discriminate|].
      repeat constructor.
Qed.

Lemma groups_adjacent (l : list UmlClass) :
  adjacentDiffer (groups l).
Proof.
  induction l as [|u t IH]; [exact I|]. cbn [groupByFolder].
  destruct (groups t) as [|[f us] rest]; [exact I|].
  destruct (folderOf dirname u =? f) eqn:E.
  - destruct rest as [|[f2 us2] rest2]; [exact I|]. exact IH.
  - split; [now apply String.eqb_neq|exact IH].
Qed.

Lemma groups_length (l : list UmlClass) :
  (List.length (groups l) <= List.length l)%nat.
Proof.
  induction l as [|u t IH]; [simpl; lia|]. cbn [groupByFolder].
  destruct (groups t) as [|[f us] rest]; [simpl; lia|].
  destruct (folderOf dirname u =? f); simpl in *; lia.
Qed.

Lemma blocks_by_counter (c : N) (g : list (string * list UmlClass)) :
  blocks c g
  = String.concat ""
      (map
         (fun kr =>
            subgraphBlock clusterFolders classOptions (fst kr)
              (fst (snd kr)) (snd (snd kr)))
         (combine (subgraphCounters c (List.length g)) g)).
Proof.
  revert c; induction g as [|[f us] rest IH]; intro c; [reflexivity|].
  cbn [subgraphBlocks List.length subgraphCounters combine map fst snd].
  now rewrite concat_cons, IH.
Qed.

End RenderFacts.

(** ** The subgraph counter and the names *)

Lemma incr_below (c : N) : (c < JS.max_exact)%N -> JS.incr c = (c + 1)%N.
Proof.
  intro H. unfold JS.incr. apply N.ltb_lt in H. now rewrite H.
Qed.

Lemma subgraphCounters_exact (n : nat) (c : N) :
  (c + N.of_nat n <= JS.max_exact)%N ->
  subgraphCounters c n = map (fun i => (c + N.of_nat i)%N) (seq 0 n).
Proof.
  revert c; induction n as [|n IH]; intros c H; [reflexivity|].
  cbn [subgraphCounters seq map]. rewrite incr_below by lia.
  rewrite IH by lia. rewrite <- seq_shift, map_map.
  f_equal; [lia|]. apply map_ext. intro i. lia.
Qed.

Lemma countAfter_exact (n : nat) (c : N) :
  (c + N.of_nat n <= JS.max_exact)%N ->
  countAfter c n = (c + N.of_nat n)%N.
Proof.
  revert c; induction n as [|n IH]; intros c H.
  - unfold countAfter. simpl. lia.
  - unfold countAfter in *. rewrite Nat.iter_succ_r, incr_below by lia.
    rewrite IH by lia. lia.
Qed.

Lemma num_to_string_inj (a b : N) :
  JS.num_to_string a = JS.num_to_string b -> a = b.
Proof.
  unfold JS.num_to_string. intro H.
  assert (Hnn : forall n, N.to_uint n <> Decimal.Nil).
  { intros [|p]; [discriminate|]. apply DecimalPos.Unsigned.to_uint_nonnil. }
  apply (f_equal NilZero.uint_of_string) in H.
  rewrite !NilZero.usu in H by apply Hnn.
  injection H as H. now apply DecimalN.Unsigned.to_uint_inj.
Qed.

Lemma append_inj_l (p x y : string) : p ++ x = p ++ y -> x = y.
Proof.
  induction p as [|ch p IH]; simpl; [auto|]. intros [= H]. auto.
Qed.

Lemma getSubGraphName_inj (clusterFolders : bool) (a b : N) :
  fst (getSubGraphName clusterFolders a)
  = fst (getSubGraphName clusterFolders b) ->
  a = b.
Proof.
  unfold getSubGraphName. destruct clusterFolders; cbn [fst]; intro H;
    apply append_inj_l in H; now apply num_to_string_inj.
Qed.

Lemma subgraphNames_NoDup (clusterFolders : bool) (n : nat) (c : N) :
  (c + N.of_nat n <= JS.max_exact)%N ->
  NoDup (subgraphNames clusterFolders c n).
Proof.
  intro H. unfold subgraphNames. rewrite subgraphCounters_exact by exact H.
  rewrite map_map. apply Finite.Injective_map_NoDup; [|apply seq_NoDup].
  intros i j E. apply getSubGraphName_inj in E. lia.
Qed.

(** ** A class with other associations *)

Lemma withAssociations_same (u : UmlClass) :
  withAssociations u (associations u) = u.
Proof. now destruct u. Qed.

Lemma sameButAssociations_refl (u : UmlClass) : sameButAssociations u u.
Proof. exists (associations u). symmetry. apply withAssociations_same. Qed.

Lemma replaced_sameBut (s : UmlClass) (l : list (string * Association))
  (u u' : UmlClass) :
  replaced s (withAssociations s l) u u' -> sameButAssociations u u'.
Proof.
  intros [->|[-> ->]]; [apply sameButAssociations_refl|now exists l].
Qed.

Lemma sameBut_codePath (u u' : UmlClass) :
  sameButAssociations u u' -> codePath u' = codePath u.
Proof. now intros [l ->]. Qed.

Lemma sameBut_isTarget_source (u u' : UmlClass) (a : Association)
  (t : UmlClass) :
  sameButAssociations u u' -> isTarget u' a t = isTarget u a t.
Proof. now intros [l ->]. Qed.

Lemma sameBut_isTarget_target (s : UmlClass) (a : Association)
  (t t' : UmlClass) :
  sameButAssociations t t' -> isTarget s a t' = isTarget s a t.
Proof. now intros [l ->]. Qed.

Lemma sameBut_addAssociationToDot (s s' t t' : UmlClass) (a : Association)
  (classOptions : ClassOptions) :
  sameButAssociations s s' -> sameButAssociations t t' ->
  addAssociationToDot s' t' a classOptions
  = addAssociationToDot s t a classOptions.
Proof. now intros [l ->] [l' ->]. Qed.

Lemma sameBut_dotUmlClass (u u' : UmlClass) (classOptions : ClassOptions) :
  sameButAssociations u u' ->
  dotUmlClass u' classOptions = dotUmlClass u classOptions.
Proof. now intros [l ->]. Qed.

Lemma sameBut_find (s s' : UmlClass) (a : Association)
  (l l' : list UmlClass) :
  sameButAssociations s s' -> Forall2 sameButAssociations l l' ->
  match find (isTarget s a) l, find (isTarget s' a) l' with
  | Some t, Some t' => sameButAssociations t t'
  | None, None => True
  | _, _ => False
  end.
Proof.
  intros Hs Hl. induction Hl as [|t t' l l' Ht Hl IH]; [exact I|].
  cbn [find]. rewrite (sameBut_isTarget_source _ _ a t' Hs).
  rewrite (sameBut_isTarget_target s a _ _ Ht).
  destruct (isTarget s a t); [exact Ht|exact IH].
Qed.

Lemma sameBut_edgeOf (classOptions : ClassOptions) (s s' : UmlClass)
  (a : Association) (l l' : list UmlClass) :
  sameButAssociations s s' -> Forall2 sameButAssociations l l' ->
  edgeOf classOptions l' s' a = edgeOf classOptions l s a.
Proof.
  intros Hs Hl. unfold edgeOf. pose proof (sameBut_find s s' a l l' Hs Hl) as H.
  destruct (find (isTarget s a) l) as [t|],
    (find (isTarget s' a) l') as [t'|]; try contradiction; [|reflexivity].
  now apply sameBut_addAssociationToDot.
Qed.

Lemma edgesOf_edgeOf (classOptions : ClassOptions) (l : list UmlClass)
  (s : UmlClass) :
  edgesOf classOptions l s
  = String.concat ""
      (map (edgeOf classOptions l s) (Object_values (associations s))).
Proof. reflexivity. Qed.

Lemma map_Forall2 {A B : Type} (R : A -> A -> Prop) (f g : A -> B)
  (l l' : list A) :
  Forall2 R l l' -> (forall x x', R x x' -> f x = g x') ->
  map f l = map g l'.
Proof.
  intros Hl Hfg. induction Hl as [|x x' l l' Hx Hl IH]; [reflexivity|].
  simpl. now rewrite (Hfg x x' Hx), IH.
Qed.

Lemma Forall2_impl {A : Type} (R S : A -> A -> Prop) (l l' : list A) :
  (forall x x', R x x' -> S x x') -> Forall2 R l l' -> Forall2 S l l'.
Proof. intros H Hl. induction Hl; constructor; auto. Qed.

Section DropAssociation.

Variables (s : UmlClass) (a : Association) (key : string).
Variables (as1 as2 : list (string * Association)).
Hypothesis s_associations : associations s = (as1 ++ (key, a) :: as2)%list.

Local Abbreviation s' := (withAssociations s (as1 ++ as2)).

(** Over two arrays that differ in [s] only, where the association of [s]
    finds no target, the edges are the same text. *)
Lemma addAssociationsToDot_replaced (classOptions : ClassOptions)
  (l l' : list UmlClass) :
  Forall2 (replaced s s') l l' ->
  find (isTarget s a) l = None ->
  addAssociationsToDot l' classOptions = addAssociationsToDot l classOptions.
Proof.
  intros Hl Hnone. rewrite !addAssociationsToDot_edgesOf. f_equal.
  assert (Hsb : Forall2 sameButAssociations l l').
  { eapply Forall2_impl; [|exact Hl]. apply replaced_sameBut. }
  symmetry. apply (map_Forall2 (replaced s s')); [exact Hl|].
  intros u u' [->|[-> ->]]; rewrite !edgesOf_edgeOf.
  - f_equal. apply map_ext. intro b. symmetry.
    apply sameBut_edgeOf; [apply sameButAssociations_refl|exact Hsb].
  - rewrite s_associations. cbn [withAssociations associations].
    unfold Object_values. rewrite !map_app, !concat_app. cbn [map snd].
    rewrite concat_cons.
    assert (Ha : edgeOf classOptions l s a = "").
    { unfold edgeOf. now rewrite Hnone. }
    rewrite Ha. cbn [append].
    assert (Hm : forall m,
               map (edgeOf classOptions l s) m
               = map (edgeOf classOptions l' s') m).
    { intro m. apply map_ext. intro b. symmetry.
      apply sameBut_edgeOf; [now exists (as1 ++ as2)%list|exact Hsb]. }
    now rewrite !Hm.
Qed.

Lemma replaced_middle (l1 l2 : list UmlClass) :
  Forall2 (replaced s s') (l1 ++ s :: l2) (l1 ++ s' :: l2).
Proof.
  apply Forall2_app; [|constructor; [right; auto|]].
  - induction l1; constructor; [now left|assumption].
  - induction l2; constructor; [now left|assumption].
Qed.

Lemma replaced_sorted (l l' : list UmlClass) :
  Forall2 (replaced s s') l l' ->
  Forall2 (replaced s s') (sortUmlClassesByCodePath l)
    (sortUmlClassesByCodePath l').
Proof.
  apply sort_Forall2. intros x x' y y' Hx Hy. unfold byCodePath.
  now rewrite (sameBut_codePath _ _ (replaced_sameBut _ _ _ _ Hx)),
    (sameBut_codePath _ _ (replaced_sameBut _ _ _ _ Hy)).
Qed.

End DropAssociation.

(** ** Claims on the whole render *)

Section RenderClaims.

Variable dirname : string -> string.

Lemma sameBut_subgraphStep (clusterFolders : bool)
  (classOptions : ClassOptions) (st : LoopState) (u u' : UmlClass) :
  sameButAssociations u u' ->
  subgraphStep dirname clusterFolders classOptions st u'
  = subgraphStep dirname clusterFolders classOptions st u.
Proof. now intros [l ->]. Qed.

Lemma sameBut_loop (clusterFolders : bool) (classOptions : ClassOptions)
  (l l' : list UmlClass) (st : LoopState) :
  Forall2 sameButAssociations l l' ->
  fold_left (subgraphStep dirname clusterFolders classOptions) l' st
  = fold_left (subgraphStep dirname clusterFolders classOptions) l st.
Proof.
  intro Hl. revert st. induction Hl as [|u u' l l' Hu Hl IH]; intro st.
  - reflexivity.
  - cbn [fold_left]. now rewrite (sameBut_subgraphStep _ _ _ _ _ Hu), IH.
Qed.

(** C3: a second render of the same array, which the first render has
    left sorted, with the same options and the counter put back to the
    value it had, returns the same text, the same counter and the same
    array; the text is a function of the array, the options and the
    counter, and of nothing else. *)
Theorem render_twice_same_text (umlClasses : list UmlClass)
  (clusterFolders : bool) (classOptions : ClassOptions) (subGraphCount0 : N) :
  let first :=
    convertUmlClasses2Dot dirname umlClasses clusterFolders classOptions
      subGraphCount0 in
  let second :=
    convertUmlClasses2Dot dirname (umlClasses_after first) clusterFolders
      classOptions subGraphCount0 in
  dot_text second = dot_text first
  /\ subGraphCount_after second = subGraphCount_after first
  /\ umlClasses_after second = umlClasses_after first
  /\ umlClasses_after first = sortUmlClassesByCodePath umlClasses.
Proof.
  cbv zeta. unfold convertUmlClasses2Dot.
  cbn [dot_text subGraphCount_after umlClasses_after].
  rewrite sortUmlClassesByCodePath_idempotent. auto.
Qed.

(** C6: the classes are rendered in the order of a sort by codePath; the
    node part of the text is one subgraph block for each maximal run of
    consecutive sorted classes of one folder, labelled with that folder and
    holding the nodes of the run; the blocks are named after the counter
    values [c], [c + 1], ..., so that the names of one render differ, and
    the counter ends that many values further. *)
Theorem folders_become_subgraphs (umlClasses : list UmlClass)
  (clusterFolders : bool) (classOptions : ClassOptions) (c : N) :
  (forall p, dirname p <> "") ->
  (c + N.of_nat (List.length umlClasses) <= JS.max_exact)%N ->
  let r :=
    convertUmlClasses2Dot dirname umlClasses clusterFolders classOptions c in
  let sorted := sortUmlClassesByCodePath umlClasses in
  let runs := groupByFolder dirname sorted in
  let counters := subgraphCounters c (List.length runs) in
  Permutation umlClasses sorted
  /\ StronglySorted
       (fun a b => String.leb (codePath a) (codePath b) = true) sorted
  /\ List.concat (map snd runs) = sorted
  /\ Forall
       (fun run =>
          snd run <> []
          /\ Forall (fun u => dirname (codePath u) = fst run) (snd run))
       runs
  /\ adjacentDiffer runs
  /\ dot_text r
     = digraphHeader
       ++ String.concat ""
            (map
               (fun kr =>
                  subgraphBlock clusterFolders classOptions (fst kr)
                    (fst (snd kr)) (snd (snd kr)))
               (combine counters runs))
       ++ addAssociationsToDot sorted classOptions ++ nl ++ "}"
  /\ counters = map (fun i => (c + N.of_nat i)%N) (seq 0 (List.length runs))
  /\ NoDup (subgraphNames clusterFolders c (List.length runs))
  /\ subGraphCount_after r = (c + N.of_nat (List.length runs))%N.
Proof.
  intros Hdir Hc r sorted runs counters.
  assert (Hlen : (c + N.of_nat (List.length runs) <= JS.max_exact)%N).
  { assert (H1 : (List.length runs <= List.length umlClasses)%nat).
    { unfold runs. eapply Nat.le_trans; [apply groups_length|].
      unfold sorted, sortUmlClassesByCodePath. now rewrite sort_length. }
    lia. }
  destruct (convertUmlClasses2Dot_text dirname clusterFolders classOptions
              umlClasses c Hdir) as (Ht & Hn & _).
  split; [apply sortUmlClassesByCodePath_perm|].
  split; [apply sortUmlClassesByCodePath_sorted|].
  split; [apply groups_concat|].
  split; [apply groups_members|].
  split; [apply groups_adjacent|].
  split.
  { unfold r. rewrite Ht. now rewrite blocks_by_counter. }
  split; [now apply subgraphCounters_exact|].
  split; [now apply subgraphNames_NoDup|].
  unfold r. rewrite Hn. now apply countAfter_exact.
Qed.

(** C8: an association of a class for which no class of the array passes
    the resolution rule adds no edge, and the render returns, with the text
    and the counter it returns for the same array without that
    association. *)
Theorem unresolved_association_is_dropped (clusterFolders : bool)
  (classOptions : ClassOptions) (c : N) (before after : list UmlClass)
  (s : UmlClass) (key : string) (a : Association)
  (as1 as2 : list (string * Association)) :
  associations s = (as1 ++ (key, a) :: as2)%list ->
  (forall t, In t (before ++ s :: after) -> ~ matches s a t) ->
  let umlClasses := (before ++ s :: after)%list in
  let without :=
    (before ++ withAssociations s (as1 ++ as2) :: after)%list in
  (forall target,
     ~ In (s, target, a) (emittedEdges classOptions umlClasses))
  /\ edgeOf classOptions umlClasses s a = ""
  /\ addAssociationsToDot umlClasses classOptions
     = addAssociationsToDot without classOptions
  /\ dot_text
       (convertUmlClasses2Dot dirname umlClasses clusterFolders classOptions c)
     = dot_text
         (convertUmlClasses2Dot dirname without clusterFolders classOptions c)
  /\ subGraphCount_after
       (convertUmlClasses2Dot dirname umlClasses clusterFolders classOptions c)
     = subGraphCount_after
         (convertUmlClasses2Dot dirname without clusterFolders classOptions c).
Proof.
  intros Hassoc Hno. cbv zeta.
  set (umlClasses := (before ++ s :: after)%list) in *.
  set (without := (before ++ withAssociations s (as1 ++ as2) :: after)%list).
  assert (Hnone : forall l,
             Permutation umlClasses l -> find (isTarget s a) l = None).
  { intros l Hp. apply find_nothing. intros y Hy.
    destruct (isTarget s a y) eqn:E; [|reflexivity].
    apply isTarget_matches in E. exfalso. apply (Hno y); [|exact E].
    eapply Permutation_in; [apply Permutation_sym; exact Hp|exact Hy]. }
  assert (Hrel : Forall2 (replaced s (withAssociations s (as1 ++ as2)))
                   umlClasses without) by apply replaced_middle.
  assert (Hsrt : Forall2 (replaced s (withAssociations s (as1 ++ as2)))
                   (sortUmlClassesByCodePath umlClasses)
                   (sortUmlClassesByCodePath without))
    by (apply replaced_sorted; exact Hrel).
  split.
  { intros t Ht. apply emittedEdges_In in Ht. destruct Ht as (_ & _ & F & _).
    rewrite (Hnone umlClasses (Permutation_refl _)) in F. discriminate. }
  split.
  { unfold edgeOf. now rewrite (Hnone umlClasses (Permutation_refl _)). }
  split.
  { symmetry. apply (addAssociationsToDot_replaced s a key as1 as2 Hassoc).
    - exact Hrel.
    - apply Hnone, Permutation_refl. }
  unfold convertUmlClasses2Dot.
  cbn [dot_text subGraphCount_after].
  assert (Hsb : Forall2 sameButAssociations
                  (sortUmlClassesByCodePath umlClasses)
                  (sortUmlClassesByCodePath without)).
  { eapply Forall2_impl; [|exact Hsrt]. apply replaced_sameBut. }
  rewrite (sameBut_loop clusterFolders classOptions _ _ _ Hsb).
  rewrite (addAssociationsToDot_replaced s a key as1 as2 Hassoc
             classOptions _ _ Hsrt
             (Hnone _ (sortUmlClassesByCodePath_perm umlClasses))).
  auto.
Qed.

End RenderClaims.

(** ** Writing the files *)

Lemma dot_format_always_resolves (env : Env) (dirname : string -> string)
  (umlClasses : list UmlClass) (outputBaseName : string)
  (outputFilename : option string) (clusterFolders : bool)
  (classOptions : ClassOptions) (c : N) :
  settled
    (generateFilesFromUmlClasses env dirname umlClasses outputBaseName dot
       outputFilename clusterFolders classOptions c)
  = Done tt.
Proof. reflexivity. Qed.

Lemma dot_write_error_is_thrown_in_callback (env : Env)
  (dirname : string -> string) (umlClasses : list UmlClass)
  (outputBaseName f : string) (clusterFolders : bool)
  (classOptions : ClassOptions) (c : N) (err : Err) :
  writeFile env f
    (dot_text
       (convertUmlClasses2Dot dirname umlClasses clusterFolders classOptions
          c))
  = Some err ->
  thrownInCallbacks
    (generateFilesFromUmlClasses env dirname umlClasses outputBaseName dot
       (Some f) clusterFolders classOptions c)
  = [VError err ("Failed to write Dot file to " ++ f)].
Proof.
  intro H. unfold generateFilesFromUmlClasses, writeDot.
  cbn [OutputFormats_eqb orb thrownInCallbacks]. now rewrite H.
Qed.

Lemma svg_write_error_rejects (env : Env) (dirname : string -> string)
  (umlClasses : list UmlClass) (outputBaseName f image : string)
  (clusterFolders : bool) (classOptions : ClassOptions) (c : N) (err : Err) :
  f <> "" ->
  Viz env
    (dot_text
       (convertUmlClasses2Dot dirname umlClasses clusterFolders classOptions
          c))
  = Done image ->
  writeFile env f image = Some err ->
  settled
    (generateFilesFromUmlClasses env dirname umlClasses outputBaseName svg
       (Some f) clusterFolders classOptions c)
  = Failed (VError err ("Failed to write SVG file to " ++ f)).
Proof.
  intros Hf Hviz Hw. unfold generateFilesFromUmlClasses.
  cbn [OutputFormats_eqb orb filename_falsy].
  apply String.eqb_neq in Hf. rewrite Hf.
  unfold convertDot2Svg. rewrite Hviz.
  unfold writeSVG. cbn [OutputFormats_eqb]. now rewrite Hw.
Qed.

(** C9: on a file system that refuses the write, the export of the dot
    file ends as a success for its caller; the error that names the file
    is thrown in the callback of the write, where no caller catches it.
    The export of the svg file does reach its caller as a failure that
    names the file. *)
Theorem dot_write_failure_does_not_reach_caller :
  let r :=
    generateFilesFromUmlClasses Examples.readOnly posix_dirname
      Examples.classes "out" dot (Some "out.dot") false noOptions 0 in
  let r' :=
    generateFilesFromUmlClasses Examples.readOnly posix_dirname
      Examples.classes "out" svg (Some "out.svg") false noOptions 0 in
  settled r = Done tt
  /\ thrownInCallbacks r
     = [VError (SysError "EROFS: read-only file system")
          "Failed to write Dot file to out.dot"]
  /\ settled r'
     = Failed
         (VError (SysError "EROFS: read-only file system")
            "Failed to write SVG file to out.svg").
Proof. vm_compute. auto. Qed.

(** ** The model of [path.dirname] *)

Lemma posix_dirname_nonempty (p : string) : posix_dirname p <> "".
Proof.
  unfold posix_dirname.
  destruct (list_ascii_of_string p) as [|c0 rest]; [discriminate|].
  destruct (dropWhile _ _) as [|x before].
  - destruct (isSlash c0); discriminate.
  - destruct (isSlash c0 && (List.length before =? 0)%nat); discriminate.
Qed.

(** ** The claims at the example classes *)

Lemma association_resolves_to_first_match_witness :
  find (isTarget Examples.user Examples.toFoo) Examples.classes
  = Some Examples.fooA
  /\ edgeOf noOptions Examples.classes Examples.user Examples.toFoo
     = nl ++ "3 -> 1 []".
Proof.
  assert (H := proj2 (proj2 (proj2
                 (association_resolves_to_first_match noOptions
                    Examples.classes)))
               Examples.fooA Examples.fooB Examples.user Examples.toFoo).
  destruct H as (F & _ & T).
  - simpl. auto.
  - reflexivity.
  - reflexivity.
  - reflexivity.
  - discriminate.
  - discriminate.
  - intros x [<-|[<-|[<-|[]]]] H; auto. discriminate H.
  - split; [exact F|]. exact (T eq_refl).
Defined.

Lemma hidden_stereotype_leaves_no_node_and_no_edge_witness :
  dotUmlClass Examples.safeMath Examples.hideLibs = "".
Proof.
  apply (hidden_stereotype_leaves_no_node_and_no_edge Examples.hideLibs
           [Examples.safeMath] Examples.safeMath).
  left. split; reflexivity.
Defined.

Lemma visibility_tiers_witness :
  In Examples.balance (attributeTier "Public" Examples.token)
  /\ exists pre post,
       dotAttributes "Public" (attributeTier "Public" Examples.token)
       = "Public:\l" ++ pre ++ "\ \ \ balance: uint256\l" ++ post.
Proof.
  apply (proj1 (proj2 (proj2 (proj2 (proj2
                  (visibility_tiers Examples.token)))))
           Examples.balance).
  - simpl. auto.
  - right. right. reflexivity.
Defined.

Lemma operators_sorted_stably_witness :
  dotOperators Examples.token "Public"
    (operatorTier "Public" Examples.token)
  = "Public:\l" ++ "\ \ \ \ " ++ "𝙥𝙖𝙮𝙖𝙗𝙡𝙚" ++ " pay()\l"
    ++ "\ \ \ \ " ++ "𝙚𝙫𝙚𝙣𝙩" ++ " first()\l"
    ++ "\ \ \ \ " ++ "𝙚𝙫𝙚𝙣𝙩" ++ " second()\l"
    ++ "\ \ \ \ plain()\l"
  /\ exists before between after,
       operators Examples.token
       = (before ++ mkOperator (Some VPublic) "first" OEvent [] None
          :: between ++ mkOperator (Some VNone) "second" OEvent [] None
          :: after)%list.
Proof.
  assert (H := proj2 (proj2 (proj2 (proj2
                 (operators_sorted_stably Examples.token "Public"))))
               (mkOperator (Some VPublic) "first" OEvent [] None)
               (mkOperator (Some VNone) "second" OEvent [] None)
               [mkOperator None "pay" OPayable [] None] []
               [mkOperator (Some VPublic) "plain" ONone [] None]
               eq_refl).
  destruct H as (T & _ & O).
  split; [exact T|exact (O eq_refl)].
Defined.


Lemma edge_styling_witness :
  exists attrs,
    edgeText noOptions (Examples.user, Examples.fooA, Examples.toFoo)
    = nl ++ "3" ++ " -> " ++ "1" ++ " [" ++ attrs ++ "]"
    /\ contains "style=dashed" attrs = false.
Proof.
  destruct (edge_styling noOptions Examples.classes
              (Examples.user, Examples.fooA, Examples.toFoo))
    as (attrs & Htext & Hdashed & _).
  - vm_compute. auto.
  - exists attrs. split; [exact Htext|].
    destruct (contains "style=dashed" attrs); [|reflexivity].
    destruct (proj1 Hdashed eq_refl) as [H|[H _]]; discriminate H.
Defined.

Lemma folders_become_subgraphs_witness :
  NoDup (subgraphNames false 0 3)
  /\ subGraphCount_after
       (convertUmlClasses2Dot posix_dirname Examples.classes false noOptions 0)
     = 3%N.
Proof.
  destruct (folders_become_subgraphs posix_dirname Examples.classes false
              noOptions 0 posix_dirname_nonempty)
    as (_ & _ & _ & _ & _ & _ & _ & Hnames & Hcount).
  - vm_compute. discriminate.
  - split; [exact Hnames|exact Hcount].
Defined.

Lemma unresolved_association_is_dropped_witness :
  addAssociationsToDot Examples.classes noOptions
  = addAssociationsToDot
      [Examples.fooB;
       withAssociations Examples.user [("Foo", Examples.toFoo)];
       Examples.fooA]
      noOptions.
Proof.
  refine (proj1 (proj2 (proj2
            (unresolved_association_is_dropped posix_dirname false noOptions
               0 [Examples.fooB] [Examples.fooA] Examples.user "Bar"
               Examples.toBar [("Foo", Examples.toFoo)] [] _ _)))).
  - reflexivity.
  - intros t [<-|[<-|[<-|[]]]] [Hn _]; discriminate Hn.
Defined.

(** ** The renderer at the example classes *)

Example token_label :
  contains ("{Token| Public:\l\ \ \ balance: uint256\l")
    (dotUmlClass Examples.token noOptions) = true.
Proof. vm_compute. reflexivity. Qed.

Example operators_of_token :
  map o_name (JS.sort byStereotypeDesc (operators Examples.token))
  = ["pay"; "first"; "second"; "plain"].
Proof. reflexivity. Qed.

Example edge_of_user :
  addAssociationsToDot Examples.classes noOptions = nl ++ "3 -> 1 []".
Proof. reflexivity. Qed.

Example library_hidden :
  dot_text
    (convertUmlClasses2Dot posix_dirname [Examples.safeMath] false
       Examples.hideLibs 0)
  = digraphHeader ++ nl ++ "subgraph  graph_0 {" ++ nl ++ "label=" ++ dq
    ++ "lib" ++ dq ++ nl ++ "}" ++ nl ++ "}".
Proof. reflexivity. Qed.

(** A folder is split into two runs when the files of a folder below it
    sort in between. *)
Example runs_of_nested :
  map (fun run => (fst run, map name (snd run)))
    (groupByFolder posix_dirname (sortUmlClassesByCodePath Examples.nested))
  = [("a", ["B"]); ("a/b", ["D"]); ("a", ["C"])].
Proof. reflexivity. Qed.

Example counter_saturates : JS.incr JS.max_exact = JS.max_exact.
Proof. reflexivity. Qed.

(** * Properties of the further code *)

(** ** Parameter lists *)

Lemma dotParameters_loop (n : nat) (rest : list Param) (k : nat)
  (acc : string) :
  (k + List.length rest = n)%nat ->
  fst
    (fold_left
       (fun (st : string * nat) parameter =>
          let (dotString, paramCount) := st in
          let dotString :=
            if JS.is_null (p_name parameter)
            then dotString ++ p_type parameter
            else dotString
                 ++ (JS.to_string (p_name parameter) ++ ": "
                     ++ p_type parameter) in
          let paramCount := S paramCount in
          if (paramCount <? n)%nat
          then (dotString ++ ", ", paramCount)
          else (dotString, paramCount))
       rest (acc, k))
  = acc ++ String.concat ", " (map paramText rest).
Proof.
  revert k acc. induction rest as [|p t IH]; intros k acc Hn.
  - simpl. now rewrite append_nil_r.
  - cbn [fold_left map].
    assert (Hp : (if JS.is_null (p_name p)
                  then acc ++ p_type p
                  else acc ++ (JS.to_string (p_name p) ++ ": " ++ p_type p))
                 = acc ++ paramText p).
    { unfold paramText. now destruct (JS.is_null (p_name p)). }
    rewrite Hp. destruct t as [|q t'].
    + simpl in Hn. replace (S k <? n)%nat with false
        by (symmetry; apply Nat.ltb_ge; lia).
      reflexivity.
    + replace (S k <? n)%nat with true
        by (symmetry; apply Nat.ltb_lt; simpl in Hn; lia).
      rewrite IH by (simpl in *; lia).
      cbn [String.concat map]. rewrite ?append_assoc. reflexivity.
Qed.

(** X1: a parameter list is rendered in parentheses with its parameters in
    order and a comma and a space between two of them, none after the last;
    the empty list is [()].  The one exception is a list of one parameter
    with a falsy name, which is the bare type in return position and the
    type in parentheses otherwise. *)
Theorem dotParameters_joins_with_commas (parameters : list Param)
  (returnParams : bool) :
  (singleUnnamed parameters = false ->
   dotParameters parameters returnParams
   = "(" ++ String.concat ", " (map paramText parameters) ++ ")")
  /\ (forall p0,
        parameters = [p0] -> JS.falsy (p_name p0) = true ->
        dotParameters parameters returnParams
        = if returnParams then p_type p0 else "(" ++ p_type p0 ++ ")").
Proof.
  split.
  - intro Hs.
    assert (Hloop :
              fst
                (fold_left
                   (fun (st : string * nat) parameter =>
                      let (dotString, paramCount) := st in
                      let dotString :=
                        if JS.is_null (p_name parameter)
                        then dotString ++ p_type parameter
                        else dotString
                             ++ (JS.to_string (p_name parameter) ++ ": "
                                 ++ p_type parameter) in
                      let paramCount := S paramCount in
                      if (paramCount <? List.length parameters)%nat
                      then (dotString ++ ", ", paramCount)
                      else (dotString, paramCount))
                   parameters ("(", 0%nat))
              ++ ")"
              = "(" ++ String.concat ", " (map paramText parameters) ++ ")").
    { rewrite (dotParameters_loop (List.length parameters)) by reflexivity.
      now rewrite append_assoc. }
    unfold dotParameters. destruct parameters as [|p0 [|p1 t]].
    + exact Hloop.
    + simpl in Hs. rewrite Hs. exact Hloop.
    + exact Hloop.
  - intros p0 -> Hf. unfold dotParameters. now rewrite Hf.
Qed.

(** ** Structs and enums *)

Lemma dotStructs_loop (umlClass : UmlClass)
  (entries : list (string * list Param)) (acc : string) (k : N) :
  fst
    (fold_left
       (fun (st : string * N) (entry : string * list Param) =>
          let (dotString, structCount) := st in
          let (structKey, fields) := entry in
          let structId :=
            id umlClass ++ "struct" ++ JS.num_to_string structCount in
          let structCount := JS.incr structCount in
          let dotString :=
            dotString
            ++ (nl ++ dq ++ structId ++ dq ++ " [label=" ++ dq
                ++ "{\<\<struct\>\>\n" ++ structKey ++ "|") in
          let dotString :=
            fold_left
              (fun dotString attribute =>
                 dotString
                 ++ (JS.to_string (p_name attribute) ++ ": "
                     ++ p_type attribute ++ "\l"))
              fields dotString in
          let dotString := dotString ++ ("}" ++ dq ++ "]") in
          let dotString :=
            dotString
            ++ (nl ++ dq ++ structId ++ dq ++ " -> " ++ id umlClass
                ++ " [arrowhead=diamond, weight=3]") in
          (dotString, structCount))
       entries (acc, k))
  = acc
    ++ String.concat ""
         (map (fun kr => structBlock umlClass (fst kr) (snd kr))
            (combine (subgraphCounters k (List.length entries)) entries)).
Proof.
  revert acc k. induction entries as [|[key fields] t IH]; intros acc k.
  - simpl. now rewrite append_nil_r.
  - cbn [fold_left List.length subgraphCounters combine map fst snd].
    rewrite IH, concat_cons. unfold structBlock, structId. cbn [fst snd].
    rewrite (fold_left_append
               (fun f => JS.to_string (p_name f) ++ ": " ++ p_type f ++ "\l")).
    rewrite ?append_assoc. reflexivity.
Qed.

Lemma dotEnums_loop (umlClass : UmlClass)
  (entries : list (string * list string)) (acc : string) (k : N) :
  fst
    (fold_left
       (fun (st : string * N) (entry : string * list string) =>
          let (dotString, enumCount) := st in
          let (enumKey, values) := entry in
          let enumId := id umlClass ++ "enum" ++ JS.num_to_string enumCount in
          let enumCount := JS.incr enumCount in
          let dotString :=
            dotString
            ++ (nl ++ dq ++ enumId ++ dq ++ " [label=" ++ dq
                ++ "{\<\<enum\>\>\n" ++ enumKey ++ "|") in
          let dotString :=
            fold_left
              (fun dotString value => dotString ++ (value ++ "\l"))
              values dotString in
          let dotString := dotString ++ ("}" ++ dq ++ "]") in
          let dotString :=
            dotString
            ++ (nl ++ dq ++ enumId ++ dq ++ " -> " ++ id umlClass
                ++ " [arrowhead=diamond, weight=3]") in
          (dotString, enumCount))
       entries (acc, k))
  = acc
    ++ String.concat ""
         (map (fun kr => enumBlock umlClass (fst kr) (snd kr))
            (combine (subgraphCounters k (List.length entries)) entries)).
Proof.
  revert acc k. induction entries as [|[key values] t IH]; intros acc k.
  - simpl. now rewrite append_nil_r.
  - cbn [fold_left List.length subgraphCounters combine map fst snd].
    rewrite IH, concat_cons. unfold enumBlock, enumId. cbn [fst snd].
    rewrite (fold_left_append (fun v => v ++ "\l")).
    rewrite ?append_assoc. reflexivity.
Qed.

Lemma combine_counters {A : Type} (l : list A) :
  (N.of_nat (List.length l) <= JS.max_exact)%N ->
  combine (subgraphCounters 0 (List.length l)) l
  = combine (map N.of_nat (seq 0 (List.length l))) l.
Proof.
  intro H. rewrite subgraphCounters_exact by lia. reflexivity.
Qed.

Lemma map_combine_of_nat {A B : Type} (g : N -> A -> B) (l : list A)
  (i : nat) :
  map (fun kr => g (fst kr) (snd kr))
    (combine (map N.of_nat (seq i (List.length l))) l)
  = map (fun kr => g (N.of_nat (fst kr)) (snd kr))
      (combine (seq i (List.length l)) l).
Proof.
  revert i. induction l as [|e l IH]; intro i; [reflexivity|].
  cbn [List.length seq map combine fst snd]. now rewrite IH.
Qed.

(** X2: [dotStructs] writes, for each struct of the class in enumeration
    order, one satellite node with the struct's name and one line for each
    field, followed by one diamond edge from the satellite to the class; the
    satellite of the struct at position [k] is named [<id>struct<k>].  A
    class without structs adds nothing. *)
Theorem dotStructs_one_satellite_per_struct (umlClass : UmlClass) :
  (N.of_nat (List.length (structs umlClass)) <= JS.max_exact)%N ->
  dotStructs umlClass
  = String.concat ""
      (map (fun kr => structBlock umlClass (N.of_nat (fst kr)) (snd kr))
         (combine (seq 0 (List.length (structs umlClass)))
            (structs umlClass)))
  /\ (structs umlClass = [] -> dotStructs umlClass = "").
Proof.
  intro H. split.
  - unfold dotStructs. rewrite dotStructs_loop. cbn [append].
    rewrite combine_counters by exact H.
    now rewrite map_combine_of_nat.
  - intro E. unfold dotStructs. now rewrite E.
Qed.

(** X3: [dotEnums] does the same for the enums: one satellite named
    [<id>enum<k>] with one line for each value, and one diamond edge to the
    class. *)
Theorem dotEnums_one_satellite_per_enum (umlClass : UmlClass) :
  (N.of_nat (List.length (enums umlClass)) <= JS.max_exact)%N ->
  dotEnums umlClass
  = String.concat ""
      (map (fun kr => enumBlock umlClass (N.of_nat (fst kr)) (snd kr))
         (combine (seq 0 (List.length (enums umlClass))) (enums umlClass)))
  /\ (enums umlClass = [] -> dotEnums umlClass = "").
Proof.
  intro H. split.
  - unfold dotEnums. rewrite dotEnums_loop. cbn [append].
    rewrite combine_counters by exact H.
    now rewrite map_combine_of_nat.
  - intro E. unfold dotEnums. now rewrite E.
Qed.

Lemma map_combine_map {K I E B : Type} (f : K -> I) (g : I -> E -> B)
  (ks : list K) (l : list E) :
  map (fun kr => g (f (fst kr)) (snd kr)) (combine ks l)
  = map (fun ie => g (fst ie) (snd ie)) (combine (map f ks) l).
Proof.
  revert l. induction ks as [|k ks IH]; intros [|e l]; try reflexivity.
  cbn [map combine fst snd]. now rewrite IH.
Qed.

Lemma dotStructs_blocks (umlClass : UmlClass) :
  (N.of_nat (List.length (structs umlClass)) <= JS.max_exact)%N ->
  dotStructs umlClass
  = String.concat ""
      (map (fun kr => structBlock umlClass (N.of_nat (fst kr)) (snd kr))
         (combine (seq 0 (List.length (structs umlClass)))
            (structs umlClass))).
Proof.
  intro H. unfold dotStructs. rewrite dotStructs_loop. cbn [append].
  rewrite combine_counters by exact H. now rewrite map_combine_of_nat.
Qed.

Lemma dotEnums_blocks (umlClass : UmlClass) :
  (N.of_nat (List.length (enums umlClass)) <= JS.max_exact)%N ->
  dotEnums umlClass
  = String.concat ""
      (map (fun kr => enumBlock umlClass (N.of_nat (fst kr)) (snd kr))
         (combine (seq 0 (List.length (enums umlClass))) (enums umlClass))).
Proof.
  intro H. unfold dotEnums. rewrite dotEnums_loop. cbn [append].
  rewrite combine_counters by exact H. now rewrite map_combine_of_nat.
Qed.

(** X4: the identifiers that [dotStructs] and [dotEnums] write for the
    satellites of one class are pairwise distinct, and none is the
    identifier of the class: the text of [dotStructs] is one node and one
    edge for each struct under the identifier [<id>struct<k>], the text of
    [dotEnums] one node and one edge for each enum under [<id>enum<k>], and
    the list of these identifiers, headed by the identifier of the class,
    has no duplicate. *)
Theorem satellite_ids_are_distinct (umlClass : UmlClass) :
  (N.of_nat (List.length (structs umlClass)) <= JS.max_exact)%N ->
  (N.of_nat (List.length (enums umlClass)) <= JS.max_exact)%N ->
  let structIds :=
    map (fun k => id umlClass ++ "struct" ++ JS.num_to_string (N.of_nat k))
      (seq 0 (List.length (structs umlClass))) in
  let enumIds :=
    map (fun k => id umlClass ++ "enum" ++ JS.num_to_string (N.of_nat k))
      (seq 0 (List.length (enums umlClass))) in
  dotStructs umlClass
  = String.concat ""
      (map
         (fun ie =>
            nl ++ dq ++ fst ie ++ dq ++ " [label=" ++ dq
            ++ "{\<\<struct\>\>\n" ++ fst (snd ie) ++ "|"
            ++ String.concat ""
                 (map
                    (fun f =>
                       JS.to_string (p_name f) ++ ": " ++ p_type f ++ "\l")
                    (snd (snd ie)))
            ++ "}" ++ dq ++ "]"
            ++ nl ++ dq ++ fst ie ++ dq ++ " -> " ++ id umlClass
            ++ " [arrowhead=diamond, weight=3]")
         (combine structIds (structs umlClass)))
  /\ dotEnums umlClass
     = String.concat ""
         (map
            (fun ie =>
               nl ++ dq ++ fst ie ++ dq ++ " [label=" ++ dq
               ++ "{\<\<enum\>\>\n" ++ fst (snd ie) ++ "|"
               ++ String.concat "" (map (fun v => v ++ "\l") (snd (snd ie)))
               ++ "}" ++ dq ++ "]"
               ++ nl ++ dq ++ fst ie ++ dq ++ " -> " ++ id umlClass
               ++ " [arrowhead=diamond, weight=3]")
            (combine enumIds (enums umlClass)))
  /\ List.length structIds = List.length (structs umlClass)
  /\ List.length enumIds = List.length (enums umlClass)
  /\ NoDup (id umlClass :: structIds ++ enumIds)%list.
Proof.
  intros Hs He structIds enumIds.
  split.
  { rewrite dotStructs_blocks by exact Hs. unfold structIds.
    rewrite <- (map_combine_map
                  (fun k =>
                     id umlClass ++ "struct" ++ JS.num_to_string (N.of_nat k))
                  (fun i e =>
                     nl ++ dq ++ i ++ dq ++ " [label=" ++ dq
                     ++ "{\<\<struct\>\>\n" ++ fst e ++ "|"
                     ++ String.concat ""
                          (map
                             (fun f =>
                                JS.to_string (p_name f) ++ ": " ++ p_type f
                                ++ "\l")
                             (snd e))
                     ++ "}" ++ dq ++ "]"
                     ++ nl ++ dq ++ i ++ dq ++ " -> " ++ id umlClass
                     ++ " [arrowhead=diamond, weight=3]")).
    reflexivity. }
  split.
  { rewrite dotEnums_blocks by exact He. unfold enumIds.
    rewrite <- (map_combine_map
                  (fun k =>
                     id umlClass ++ "enum" ++ JS.num_to_string (N.of_nat k))
                  (fun i e =>
                     nl ++ dq ++ i ++ dq ++ " [label=" ++ dq
                     ++ "{\<\<enum\>\>\n" ++ fst e ++ "|"
                     ++ String.concat "" (map (fun v => v ++ "\l") (snd e))
                     ++ "}" ++ dq ++ "]"
                     ++ nl ++ dq ++ i ++ dq ++ " -> " ++ id umlClass
                     ++ " [arrowhead=diamond, weight=3]")).
    reflexivity. }
  split; [unfold structIds; now rewrite length_map, length_seq|].
  split; [unfold enumIds; now rewrite length_map, length_seq|].
  constructor.
  - intro Hin. apply in_app_or in Hin.
    destruct Hin as [Hin|Hin]; apply in_map_iff in Hin;
      destruct Hin as (k & E & _);
      (assert (E' : id umlClass ++ "" = id umlClass)
         by apply append_nil_r);
      rewrite <- E' in E at 2; apply append_inj_l in E; discriminate E.
  - apply NoDup_app.
    + apply Finite.Injective_map_NoDup; [|apply seq_NoDup].
      intros i j E.
      apply append_inj_l, (append_inj_l "struct"), num_to_string_inj in E.
      lia.
    + apply Finite.Injective_map_NoDup; [|apply seq_NoDup].
      intros i j E.
      apply append_inj_l, (append_inj_l "enum"), num_to_string_inj in E. lia.
    + intros a Ha Hb. apply in_map_iff in Ha, Hb.
      destruct Ha as (i & <- & _). destruct Hb as (j & E & _).
      apply append_inj_l in E. discriminate E.
Qed.

(** ** Attributes and nodes *)

(** X5: the attributes of a tier are rendered one line each, in the order
    in which the class lists them; unlike the operators they are never
    sorted. *)
Theorem attributes_keep_declaration_order (umlClass : UmlClass)
  (vizGroup : string) :
  dotAttributes vizGroup (attributeTier vizGroup umlClass)
  = match attributeTier vizGroup umlClass with
    | [] => ""
    | _ =>
        vizGroup ++ ":\l"
        ++ String.concat ""
             (map attributeLine (attributeTier vizGroup umlClass))
    end
  /\ (forall a b before between after,
        attributeTier vizGroup umlClass
        = (before ++ a :: between ++ b :: after)%list ->
        exists before' between' after',
          attributes umlClass
          = (before' ++ a :: between' ++ b :: after')%list).
Proof.
  split.
  - destruct (attributeTier vizGroup umlClass) as [|a t] eqn:E;
      [reflexivity|].
    apply dotAttributes_heading. discriminate.
  - intros a b p q r H. unfold attributeTier in H.
    eapply filter_order. exact H.
Qed.

(** X6: a class that is neither a Library nor an Interface gets its node
    under every setting of the options: the text opens with the identifier
    and the title of the class. *)
Theorem other_stereotypes_are_never_hidden (umlClass : UmlClass)
  (options : ClassOptions) :
  stereotype umlClass <> Some CLibrary ->
  stereotype umlClass <> Some CInterface ->
  hidden options umlClass = false
  /\ exists rest,
       dotUmlClass umlClass options
       = nl ++ id umlClass ++ " [label=" ++ dq ++ "{"
         ++ dotClassTitle umlClass ++ rest.
Proof.
  intros Hl Hi.
  assert (Hh : hidden options umlClass = false).
  { unfold hidden.
    destruct (stereotype umlClass) as [[]|]; simpl;
      rewrite ?andb_false_r; try reflexivity; congruence. }
  split; [exact Hh|].
  unfold dotUmlClass. rewrite Hh.
  destruct (hideAttributes options), (hideOperators options),
    (hideStructs options), (hideEnums options); cbn [negb];
    eexists; rewrite ?append_assoc; reflexivity.
Qed.

(** ** Subgraph names *)

(** X7: the name of a subgraph tells the counter value it was made from,
    a cluster name is never a graph name, and each call moves the counter
    on, whichever kind of name is asked for. *)
Theorem subgraph_names_identify_counter_and_kind :
  (forall clusterFolders a b,
     fst (getSubGraphName clusterFolders a)
     = fst (getSubGraphName clusterFolders b) ->
     a = b)
  /\ (forall a b,
        fst (getSubGraphName true a) <> fst (getSubGraphName false b))
  /\ (forall clusterFolders a,
        snd (getSubGraphName clusterFolders a) = JS.incr a).
Proof.
  split; [exact getSubGraphName_inj|]. split.
  - intros a b E. unfold getSubGraphName in E. cbn [fst] in E.
    discriminate E.
  - intros [] a; reflexivity.
Qed.

(** ** The order of the classes *)

Lemma string_leb_refl (s : string) : String.leb s s = true.
Proof.
  unfold String.leb.
  assert (E : String.compare s s = Eq) by now apply String_as_OT.cmp_eq.
  now rewrite E.
Qed.

Lemma ofFile_In (p : string) (l : list UmlClass) (x : UmlClass) :
  In x (ofFile p l) <-> In x l /\ codePath x = p.
Proof.
  unfold ofFile. rewrite filter_In. now rewrite String.eqb_eq.
Qed.

Lemma ofFile_sort (umlClasses : list UmlClass) (p : string) :
  ofFile p (sortUmlClassesByCodePath umlClasses) = ofFile p umlClasses.
Proof.
  apply sort_stable. intros a b Ha Hab.
  apply String.eqb_eq in Ha. apply byCodePath_gt in Hab.
  apply String.eqb_neq. intro Hb. rewrite Ha, Hb in Hab.
  assert (E : String.compare p p = Eq) by now apply String_as_OT.cmp_eq.
  rewrite E in Hab. discriminate.
Qed.

(** X8: the sort by codePath is stable: the classes of one file stay in
    the order in which the array had them, so two classes of one file that
    stand in some order after the sort stood in that order before it. *)
Theorem classes_of_a_file_keep_their_order (umlClasses : list UmlClass) :
  (forall p,
     ofFile p (sortUmlClassesByCodePath umlClasses) = ofFile p umlClasses)
  /\ (forall a b before between after,
        sortUmlClassesByCodePath umlClasses
        = (before ++ a :: between ++ b :: after)%list ->
        codePath a = codePath b ->
        exists before' between' after',
          umlClasses = (before' ++ a :: between' ++ b :: after')%list).
Proof.
  split; [intro p; apply ofFile_sort|].
  intros a b p q r Hs Hab.
  pose proof (ofFile_sort umlClasses (codePath a)) as H.
  rewrite Hs in H. unfold ofFile in H.
  rewrite filter_app in H. cbn [filter] in H.
  rewrite filter_app in H. cbn [filter] in H.
  rewrite <- Hab, String.eqb_refl in H.
  symmetry in H. eapply filter_order. exact H.
Qed.

Lemma sorted_head_least (y : UmlClass) (r : list UmlClass) (x : UmlClass) :
  StronglySorted
    (fun a b => String.leb (codePath a) (codePath b) = true) (y :: r) ->
  In x (y :: r) -> String.leb (codePath y) (codePath x) = true.
Proof.
  intros Hs [<-|Hx]; [apply string_leb_refl|].
  inversion Hs as [|? ? _ Hall]; subst.
  rewrite Forall_forall in Hall. now apply Hall.
Qed.

(** Two sorted arrays that hold the same classes file by file are the same
    array. *)
Lemma sorted_by_files_unique (l1 l2 : list UmlClass) :
  StronglySorted
    (fun a b => String.leb (codePath a) (codePath b) = true) l1 ->
  StronglySorted
    (fun a b => String.leb (codePath a) (codePath b) = true) l2 ->
  (forall p, ofFile p l1 = ofFile p l2) ->
  l1 = l2.
Proof.
  revert l2. induction l1 as [|x r1 IH]; intros l2 H1 H2 H.
  - destruct l2 as [|y r2]; [reflexivity|].
    specialize (H (codePath y)). unfold ofFile in H. cbn [filter] in H.
    rewrite String.eqb_refl in H. discriminate.
  - destruct l2 as [|y r2].
    { specialize (H (codePath x)). unfold ofFile in H. cbn [filter] in H.
      rewrite String.eqb_refl in H. discriminate. }
    assert (Hxy : codePath x = codePath y).
    { apply String.leb_antisym.
      - apply (sorted_head_least x r1 y H1).
        apply (proj1 (ofFile_In (codePath y) _ y)). rewrite H.
        apply ofFile_In. split; [now left|reflexivity].
      - apply (sorted_head_least y r2 x H2).
        apply (proj1 (ofFile_In (codePath x) _ x)). rewrite <- H.
        apply ofFile_In. split; [now left|reflexivity]. }
    pose proof (H (codePath x)) as Hx. unfold ofFile in Hx.
    cbn [filter] in Hx. rewrite <- Hxy, String.eqb_refl in Hx.
    injection Hx as Hhead Htail. subst y. f_equal.
    inversion H1; inversion H2; subst. apply IH; try assumption.
    intro p. specialize (H p). unfold ofFile in *. cbn [filter] in H.
    destruct (codePath x =? p) eqn:E; [|exact H].
    now injection H.
Qed.

(** X9: the render reads the order of the array only in the order of the
    classes of each file: two arrays that hold, for every file, the same
    classes in the same order give the same text, counter and sorted
    array. *)
Theorem render_reads_order_within_files_only (dirname : string -> string)
  (l l' : list UmlClass) (clusterFolders : bool)
  (classOptions : ClassOptions) (c : N) :
  (forall p, ofFile p l = ofFile p l') ->
  sortUmlClassesByCodePath l = sortUmlClassesByCodePath l'
  /\ convertUmlClasses2Dot dirname l clusterFolders classOptions c
     = convertUmlClasses2Dot dirname l' clusterFolders classOptions c.
Proof.
  intro H.
  assert (E : sortUmlClassesByCodePath l = sortUmlClassesByCodePath l').
  { apply sorted_by_files_unique;
      try apply sortUmlClassesByCodePath_sorted.
    intro p. now rewrite !ofFile_sort. }
  split; [exact E|]. unfold convertUmlClasses2Dot. now rewrite E.
Qed.

(** ** Edges of a render *)

Lemma emittedEdges_filter (classOptions : ClassOptions)
  (all l : list UmlClass) :
  flat_map
    (fun s =>
       flat_map
         (fun a =>
            match find (isTarget s a) all with
            | Some t => if hidden classOptions t then [] else [(s, t, a)]
            | None => []
            end)
         (Object_values (associations s)))
    l
  = filter (fun e => negb (hidden classOptions (edgeTarget e)))
      (flat_map
         (fun s =>
            flat_map
              (fun a =>
                 match find (isTarget s a) all with
                 | Some t => if hidden noOptions t then [] else [(s, t, a)]
                 | None => []
                 end)
              (Object_values (associations s)))
         l).
Proof.
  induction l as [|s l IH]; [reflexivity|].
  cbn [flat_map]. rewrite filter_app, IH. f_equal.
  induction (Object_values (associations s)) as [|a m IHm]; [reflexivity|].
  cbn [flat_map]. rewrite filter_app, IHm. f_equal.
  destruct (find (isTarget s a) all) as [t|]; [|reflexivity].
  change (hidden noOptions t) with false. cbn [filter edgeTarget fst snd].
  destruct (hidden classOptions t); reflexivity.
Qed.

Lemma edge_line_in_text (classOptions : ClassOptions)
  (umlClasses : list UmlClass) (s t : UmlClass) (a : Association) :
  In (s, t, a) (emittedEdges classOptions umlClasses) ->
  exists pre post,
    addAssociationsToDot umlClasses classOptions
    = pre ++ nl ++ id s ++ " -> " ++ id t ++ " [" ++ edgeAttrs a t ++ "]"
      ++ post.
Proof.
  intro He. rewrite addAssociationsToDot_lines.
  destruct (concat_map_In edgeLine _ _ He) as (pre & post & E).
  exists pre, post. rewrite E. unfold edgeLine.
  cbn [edgeSource edgeTarget edgeAssociation fst snd].
  rewrite ?append_assoc. reflexivity.
Qed.

(** X10: the edges of a render are resolved over the sorted array: the
    text ends with one line for each edge that the sorted array gives, and
    the line of an association goes to the class that is first in the
    sorted array among those that pass the resolution rule, so its file has
    the least path among the files of all such classes, wherever the caller
    put that class in the array. *)
Theorem render_resolves_to_least_codePath (dirname : string -> string)
  (umlClasses : list UmlClass) (clusterFolders : bool)
  (classOptions : ClassOptions) (c : N) :
  let sorted := sortUmlClassesByCodePath umlClasses in
  let text :=
    dot_text
      (convertUmlClasses2Dot dirname umlClasses clusterFolders classOptions c)
  in
  (exists nodes,
     text
     = nodes
       ++ String.concat ""
            (map
               (fun e =>
                  nl ++ id (edgeSource e) ++ " -> " ++ id (edgeTarget e)
                  ++ " [" ++ edgeAttrs (edgeAssociation e) (edgeTarget e)
                  ++ "]")
               (emittedEdges classOptions sorted))
       ++ nl ++ "}")
  /\ (forall source target association,
        In (source, target, association) (emittedEdges classOptions sorted) ->
        (exists pre post,
           text
           = pre ++ nl ++ id source ++ " -> " ++ id target ++ " ["
             ++ edgeAttrs association target ++ "]" ++ post)
        /\ In target umlClasses
        /\ matches source association target
        /\ forall x,
             In x umlClasses -> matches source association x ->
             String.leb (codePath target) (codePath x) = true).
Proof.
  intros sorted text.
  assert (Htext : text
                  = (if negb
                          (currentCodeFolder
                             (fold_left
                                (subgraphStep dirname clusterFolders
                                   classOptions)
                                sorted (mkLoopState digraphHeader "" c))
                           =? "")
                     then dotString
                            (fold_left
                               (subgraphStep dirname clusterFolders
                                  classOptions)
                               sorted (mkLoopState digraphHeader "" c))
                          ++ (nl ++ "}")
                     else dotString
                            (fold_left
                               (subgraphStep dirname clusterFolders
                                  classOptions)
                               sorted (mkLoopState digraphHeader "" c)))
                    ++ addAssociationsToDot sorted classOptions
                    ++ nl ++ "}").
  { unfold text, convertUmlClasses2Dot. cbn [dot_text]. fold sorted.
    apply append_assoc. }
  split.
  - rewrite Htext, addAssociationsToDot_lines. eexists. reflexivity.
  - intros s t a He. split.
    { destruct (edge_line_in_text _ _ _ _ _ He) as (pre & post & E).
      rewrite Htext, E.
      match goal with
      | |- exists pre' post', ?n ++ (pre ++ ?line) ++ ?close = _ =>
          exists (n ++ pre), (post ++ close)
      end.
      rewrite ?append_assoc. reflexivity. }
    apply emittedEdges_In in He.
    destruct He as (_ & _ & F & _).
    assert (Ht : In t sorted /\ isTarget s a t = true).
    { apply find_some in F. exact F. }
    split.
    { eapply Permutation_in;
        [apply Permutation_sym, sortUmlClassesByCodePath_perm|apply Ht]. }
    split; [apply isTarget_matches, Ht|].
    intros x Hx Hm.
    apply find_first in F. destruct F as (b & r & E & _ & Hb).
    assert (Hxs : In x sorted).
    { eapply Permutation_in; [apply sortUmlClassesByCodePath_perm|exact Hx]. }
    pose proof (sortUmlClassesByCodePath_sorted umlClasses) as Hs.
    fold sorted in Hs. rewrite E in Hs, Hxs.
    apply in_app_or in Hxs. destruct Hxs as [Hin|Hin].
    + apply isTarget_matches in Hm. rewrite (Hb x Hin) in Hm. discriminate.
    + clear E Ht. induction b as [|y b IH]; [now apply (sorted_head_least t r)|].
      inversion Hs; subst. apply IH; [|assumption].
      intros z Hz. apply Hb. now right.
Qed.

(** X11: the options decide on an edge by its target alone: the text of the
    associations is one line for each edge that the classes give without
    options and whose target the options do not hide, in the same order.
    So the options take away the edges to a hidden class, and a class that
    is hidden itself keeps the edges that start from it. *)
Theorem options_filter_edges_by_target (classOptions : ClassOptions)
  (umlClasses : list UmlClass) :
  addAssociationsToDot umlClasses classOptions
  = String.concat ""
      (map
         (fun e =>
            nl ++ id (edgeSource e) ++ " -> " ++ id (edgeTarget e) ++ " ["
            ++ edgeAttrs (edgeAssociation e) (edgeTarget e) ++ "]")
         (filter (fun e => negb (hidden classOptions (edgeTarget e)))
            (emittedEdges noOptions umlClasses)))
  /\ (forall source target association,
        In (source, target, association) (emittedEdges noOptions umlClasses) ->
        (hidden classOptions target = true ->
         addAssociationToDot source target association classOptions = "")
        /\ (hidden classOptions target = false ->
            addAssociationToDot source target association classOptions
            = nl ++ id source ++ " -> " ++ id target ++ " ["
              ++ edgeAttrs association target ++ "]"
            /\ exists pre post,
                 addAssociationsToDot umlClasses classOptions
                 = pre ++ nl ++ id source ++ " -> " ++ id target ++ " ["
                   ++ edgeAttrs association target ++ "]" ++ post)).
Proof.
  split.
  - rewrite addAssociationsToDot_lines. unfold emittedEdges at 1.
    now rewrite emittedEdges_filter.
  - intros s t a He. split.
    + intro Hh. unfold addAssociationToDot. fold (hidden classOptions t).
      now rewrite Hh.
    + intro Hh. split.
      * exact (edgeText_line classOptions (s, t, a) Hh).
      * apply edge_line_in_text. apply emittedEdges_In.
        apply emittedEdges_In in He. tauto.
Qed.

(** ** The counter across renders *)

Lemma string_of_uint_digits (d : Decimal.uint) :
  allDigits (NilEmpty.string_of_uint d) = true.
Proof. induction d; simpl; auto. Qed.

Lemma num_to_string_digits (n : N) : allDigits (JS.num_to_string n) = true.
Proof.
  unfold JS.num_to_string, NilZero.string_of_uint.
  destruct (N.to_uint n) eqn:E; try reflexivity;
    rewrite <- E; apply string_of_uint_digits.
Qed.

(** Two strings of digits that are followed by something else than a digit
    are equal when the texts are. *)
Lemma digits_then_other (s1 s2 r1 r2 : string) (c1 c2 : ascii) :
  allDigits s1 = true -> allDigits s2 = true ->
  isDigit c1 = false -> isDigit c2 = false ->
  s1 ++ String c1 r1 = s2 ++ String c2 r2 -> s1 = s2.
Proof.
  revert s2. induction s1 as [|a s1 IH]; intros s2 H1 H2 Hc1 Hc2 E.
  - destruct s2 as [|b s2]; [reflexivity|].
    simpl in E, H2. injection E as Ec _. subst c1.
    apply andb_true_iff in H2. destruct H2 as [Hb _]. congruence.
  - destruct s2 as [|b s2].
    + simpl in E, H1. injection E as Ec _. subst c2.
      apply andb_true_iff in H1. destruct H1 as [Ha _]. congruence.
    + simpl in E, H1, H2. injection E as Eab Et. subst b.
      apply andb_true_iff in H1, H2. f_equal.
      apply (IH s2); tauto.
Qed.

Lemma groups_nonempty (dirname : string -> string) (l : list UmlClass) :
  l <> [] -> groupByFolder dirname l <> [].
Proof.
  destruct l as [|u t]; [contradiction|]. intros _.
  destruct (groups_head dirname u t) as (us & rest & ->). discriminate.
Qed.

Lemma blocks_counter_inj (clusterFolders : bool)
  (classOptions : ClassOptions) (g : list (string * list UmlClass))
  (a b : N) (ta tb : string) :
  g <> [] ->
  subgraphBlocks clusterFolders classOptions a g ++ ta
  = subgraphBlocks clusterFolders classOptions b g ++ tb ->
  a = b.
Proof.
  destruct g as [|[f us] rest]; [contradiction|]. intros _ E.
  cbn [subgraphBlocks] in E.
  unfold subgraphBlock, subgraphOpening, getSubGraphName in E.
  apply num_to_string_inj.
  destruct clusterFolders; cbn [fst] in E; rewrite ?append_assoc in E.
  - apply (append_inj_l nl), (append_inj_l "subgraph "),
      (append_inj_l " cluster_") in E.
    eapply (digits_then_other _ _ _ _ " "%char " "%char);
      [apply num_to_string_digits|apply num_to_string_digits
      |reflexivity|reflexivity|exact E].
  - apply (append_inj_l nl), (append_inj_l "subgraph "),
      (append_inj_l " graph_") in E.
    eapply (digits_then_other _ _ _ _ " "%char " "%char);
      [apply num_to_string_digits|apply num_to_string_digits
      |reflexivity|reflexivity|exact E].
Qed.

(** X13: the counter is never put back by the renderer: after a render of
    a non-empty array the counter is larger, and a second render of the
    same array that starts from it returns another text than the first,
    because its subgraphs take other names. *)
Theorem render_without_reset_differs (dirname : string -> string)
  (umlClasses : list UmlClass) (clusterFolders : bool)
  (classOptions : ClassOptions) (c : N) :
  (forall p, dirname p <> "") ->
  umlClasses <> [] ->
  (c + N.of_nat (List.length umlClasses) <= JS.max_exact)%N ->
  let first :=
    convertUmlClasses2Dot dirname umlClasses clusterFolders classOptions c in
  let second :=
    convertUmlClasses2Dot dirname (umlClasses_after first) clusterFolders
      classOptions (subGraphCount_after first) in
  (c < subGraphCount_after first)%N
  /\ dot_text second <> dot_text first.
Proof.
  intros Hdir Hne Hc first second.
  set (sorted := sortUmlClassesByCodePath umlClasses).
  set (g := groupByFolder dirname sorted).
  destruct (convertUmlClasses2Dot_text dirname clusterFolders classOptions
              umlClasses c Hdir) as (Ht1 & Hn1 & Ha1).
  fold first sorted g in Ht1, Hn1, Ha1.
  assert (Hg : g <> []).
  { apply groups_nonempty. intro E.
    pose proof (sort_length byCodePath umlClasses) as Hl.
    fold (sortUmlClassesByCodePath umlClasses) in Hl. fold sorted in Hl.
    rewrite E in Hl. destruct umlClasses; [contradiction|discriminate]. }
  assert (Hlen : (List.length g <= List.length umlClasses)%nat).
  { unfold g. eapply Nat.le_trans; [apply groups_length|].
    unfold sorted, sortUmlClassesByCodePath. now rewrite sort_length. }
  assert (Hcount : subGraphCount_after first
                   = (c + N.of_nat (List.length g))%N).
  { rewrite Hn1. apply countAfter_exact. lia. }
  assert (Hpos : (0 < List.length g)%nat).
  { destruct g; [contradiction|simpl; lia]. }
  split; [lia|].
  destruct (convertUmlClasses2Dot_text dirname clusterFolders classOptions
              (umlClasses_after first) (subGraphCount_after first) Hdir)
    as (Ht2 & _ & _).
  fold second in Ht2. rewrite Ha1 in Ht2. unfold sorted in Ht2.
  rewrite sortUmlClassesByCodePath_idempotent in Ht2. fold sorted g in Ht2.
  intro E. rewrite Ht1, Ht2 in E. apply append_inj_l in E.
  apply blocks_counter_inj in E; [lia|exact Hg].
Qed.

(** ** The calls and the outcome of an export *)

Section ExportFacts.

Variable env : Env.
Variable dirname : string -> string.
Variables (umlClasses : list UmlClass) (outputBaseName : string).
Variables (outputFilename : option string) (clusterFolders : bool).
Variables (classOptions : ClassOptions) (c : N).

Local Abbreviation text :=
  (dot_text
     (convertUmlClasses2Dot dirname umlClasses clusterFolders classOptions c)).

Local Abbreviation export fmt :=
  (generateFilesFromUmlClasses env dirname umlClasses outputBaseName fmt
     outputFilename clusterFolders classOptions c).

Local Abbreviation calls fmt :=
  (generateFilesFromUmlClasses_calls env dirname umlClasses outputBaseName fmt
     outputFilename clusterFolders classOptions c).

(** X14: an export in format dot makes one call, the write of the dot text
    to the given file or to [classDiagram.dot], and never asks the layout
    engine.  In every other format the layout engine is asked once, for the
    text of the render; before it come only the write of the dot file, in
    format all, and the question whether the base name is a folder, when no
    file name was given. *)
Theorem calls_up_to_the_layout (fmt : OutputFormats) :
  calls dot
  = [WriteFileCall
       (match outputFilename with
        | None => "classDiagram.dot"
        | Some f => f
        end)
       text]
  /\ (fmt <> dot ->
      exists later,
        calls fmt
        = ((if OutputFormats_eqb fmt all
            then
              [WriteFileCall
                 (match outputFilename with
                  | None => "classDiagram.dot"
                  | Some f => f
                  end)
                 text]
            else [])
           ++ (if filename_falsy outputFilename
               then [LstatCall outputBaseName] else [])
           ++ VizCall text :: later)%list
        /\ forall d, ~ In (VizCall d) later).
Proof.
  split; [reflexivity|].
  intro Hd. unfold generateFilesFromUmlClasses_calls.
  destruct fmt; try contradiction; cbn [OutputFormats_eqb orb];
    destruct (filename_falsy outputFilename);
    destruct (Viz env text) as [image|e];
    try destruct (writeFile env _ image);
    cbn [app]; eexists; (split; [reflexivity|]);
    intros d H; cbn in H; intuition discriminate.
Qed.

(** X15: the raster converter is asked only in formats png and all, and
    only after the layout engine has returned an image and the write of
    that image has succeeded; these three calls are the last three, in this
    order. *)
Theorem raster_follows_layout_and_svg_write (fmt : OutputFormats)
  (svgPath outDir : string) :
  In (SvgToPngCall svgPath outDir) (calls fmt) ->
  (fmt = png \/ fmt = all)
  /\ exists image earlier,
       Viz env text = Done image
       /\ writeFile env
            (writeSVG_path env
               (outputFilenameOf env outputBaseName fmt outputFilename) fmt)
            image
          = None
       /\ (svgPath, outDir)
          = writePng_args env
              (outputFilenameOf env outputBaseName fmt outputFilename)
       /\ calls fmt
          = (earlier
             ++ [VizCall text;
                 WriteFileCall
                   (writeSVG_path env
                      (outputFilenameOf env outputBaseName fmt outputFilename)
                      fmt)
                   image;
                 SvgToPngCall svgPath outDir])%list
       /\ forall call, In call earlier ->
            call = LstatCall outputBaseName
            \/ exists f, call = WriteFileCall f text.
Proof.
  unfold generateFilesFromUmlClasses_calls.
  fold (outputFilenameOf env outputBaseName fmt outputFilename).
  destruct fmt; cbn [OutputFormats_eqb orb].
  - (* svg *)
    destruct (filename_falsy outputFilename);
      destruct (Viz env text) as [image|e];
      try destruct (writeFile env _ image);
      cbn; intro H; intuition discriminate.
  - (* png *)
    intro H. split; [now left|].
    destruct (Viz env text) as [image|e] eqn:EV.
    + destruct (writeFile env _ image) eqn:EW.
      * destruct (filename_falsy outputFilename); cbn in H;
          intuition discriminate.
      * exists image.
        destruct (filename_falsy outputFilename); cbn in H.
        -- exists [LstatCall outputBaseName].
           destruct H as [H|[H|[H|[H|[]]]]]; try discriminate.
           unfold writePng_call in H. injection H as <- <-.
           split; [first [reflexivity|exact EV]|].
           split; [first [reflexivity|exact EW]|].
           split; [reflexivity|]. split; [reflexivity|].
           intros call [<-|[]]. now left.
        -- exists [].
           destruct H as [H|[H|[H|[]]]]; try discriminate.
           unfold writePng_call in H. injection H as <- <-.
           split; [first [reflexivity|exact EV]|].
           split; [first [reflexivity|exact EW]|].
           split; [reflexivity|]. split; [reflexivity|].
           intros call [].
    + destruct (filename_falsy outputFilename); cbn in H;
        intuition discriminate.
  - (* dot *)
    cbn. intros [H|[]]. discriminate.
  - (* all *)
    intro H. split; [now right|].
    destruct (Viz env text) as [image|e] eqn:EV.
    + destruct (writeFile env _ image) eqn:EW.
      * destruct (filename_falsy outputFilename); cbn in H;
          intuition discriminate.
      * exists image.
        destruct (filename_falsy outputFilename); cbn in H.
        -- eexists [WriteFileCall _ text; LstatCall outputBaseName].
           destruct H as [H|[H|[H|[H|[H|[]]]]]]; try discriminate.
           unfold writePng_call in H. injection H as <- <-.
           split; [first [reflexivity|exact EV]|].
           split; [first [reflexivity|exact EW]|].
           split; [reflexivity|]. split; [reflexivity|].
           intros call [<-|[<-|[]]]; [right; eexists; reflexivity|now left].
        -- eexists [WriteFileCall _ text].
           destruct H as [H|[H|[H|[H|[]]]]]; try discriminate.
           unfold writePng_call in H. injection H as <- <-.
           split; [first [reflexivity|exact EV]|].
           split; [first [reflexivity|exact EW]|].
           split; [reflexivity|]. split; [reflexivity|].
           intros call [<-|[]]. right; eexists; reflexivity.
    + destruct (filename_falsy outputFilename); cbn in H;
        intuition discriminate.
Qed.

End ExportFacts.

Section ExportOutcome.

Variable env : Env.
Variable dirname : string -> string.
Variables (umlClasses : list UmlClass) (outputBaseName : string).
Variables (outputFilename : option string) (clusterFolders : bool).
Variables (classOptions : ClassOptions) (c : N).

Local Abbreviation text :=
  (dot_text
     (convertUmlClasses2Dot dirname umlClasses clusterFolders classOptions c)).

Local Abbreviation export fmt :=
  (generateFilesFromUmlClasses env dirname umlClasses outputBaseName fmt
     outputFilename clusterFolders classOptions c).

Local Abbreviation file fmt :=
  (outputFilenameOf env outputBaseName fmt outputFilename).






End ExportOutcome.

(** ** The Etherscan client *)

Module EtherscanFacts.

Import Etherscan.

Lemma includes_In (l : list string) (s : string) :
  JS.includes l s = true <-> In s l.
Proof.
  unfold JS.includes. rewrite existsb_exists. split.
  - intros (x & Hx & E). apply String.eqb_eq in E. now subst.
  - intro H. exists s. split; [exact H|apply String.eqb_refl].
Qed.

(** X17: the constructor accepts the five known networks and no other
    name, keeps the key and the network it was given, and gives two
    different networks two different endpoints; without a network it takes
    mainnet. *)
Theorem constructor_accepts_the_known_networks (apikey_ : option string) :
  (forall n,
     In n networks <->
     exists p, new_EtherscanParser apikey_ (Some n) = Returned p)
  /\ (forall n p,
        new_EtherscanParser apikey_ (Some n) = Returned p ->
        network p = n
        /\ apikey p
           = match apikey_ with
             | Some k => k
             | None => "ZAD4UI2RCXCQTP38EXS3UY2MPHFU5H9KB1"
             end)
  /\ (forall k1 k2 n1 n2 p1 p2,
        new_EtherscanParser k1 (Some n1) = Returned p1 ->
        new_EtherscanParser k2 (Some n2) = Returned p2 ->
        url p1 = url p2 -> n1 = n2)
  /\ new_EtherscanParser apikey_ None
     = new_EtherscanParser apikey_ (Some "mainnet").
Proof.
  assert (Hacc : forall k n p,
             new_EtherscanParser k (Some n) = Returned p ->
             In n networks /\ network p = n
             /\ apikey p
                = match k with
                  | Some x => x
                  | None => "ZAD4UI2RCXCQTP38EXS3UY2MPHFU5H9KB1"
                  end
             /\ url p
                = if n =? "mainnet" then "https://api.etherscan.io/api"
                  else "https://api-" ++ n ++ ".etherscan.io/api").
  { intros k n p H. unfold new_EtherscanParser in H.
    destruct (JS.includes networks n) eqn:Ei; cbn [negb] in H;
      [|discriminate].
    apply includes_In in Ei. split; [exact Ei|].
    destruct (n =? "mainnet"); injection H as <-; auto. }
  split.
  { intro n. split.
    - intro Hn. apply includes_In in Hn. unfold new_EtherscanParser.
      rewrite Hn. cbn [negb]. destruct (n =? "mainnet"); eexists; reflexivity.
    - intros (p & H). now apply (Hacc apikey_ n p). }
  split.
  { intros n p H. destruct (Hacc _ _ _ H) as (_ & Hn & Hk & _). auto. }
  split; [|reflexivity].
  intros k1 k2 n1 n2 p1 p2 H1 H2 E.
  destruct (Hacc _ _ _ H1) as (Hn1 & _ & _ & U1).
  destruct (Hacc _ _ _ H2) as (Hn2 & _ & _ & U2).
  rewrite U1, U2 in E. clear - Hn1 Hn2 E.
  destruct Hn1 as [<-|[<-|[<-|[<-|[<-|[]]]]]];
    destruct Hn2 as [<-|[<-|[<-|[<-|[<-|[]]]]]];
    first [reflexivity | discriminate E].
Qed.

Section GetSourceCodeFacts.

Variable JSON_parse : string -> option JSON.

Local Abbreviation noHttpResponse contractAddress :=
  (Error ("Failed to " ++ description contractAddress ++ ". No HTTP response.")).


Lemma mapOutcome_succeeds {A B : Type} (f : A -> Outcome B)
  (g : A -> B) (l : list A) :
  (forall x, In x l -> f x = Returned (g x)) ->
  mapOutcome f l = Returned (map g l).
Proof.
  intro H. induction l as [|y t IH]; [reflexivity|].
  cbn [mapOutcome map]. rewrite (H y) by now left.
  rewrite IH; [reflexivity|]. intros x Hx. apply H. now right.
Qed.




Lemma concat_singletons {A B : Type} (h : A -> B) (l : list A) :
  List.concat (map (fun x => [h x]) l) = map h l.
Proof. induction l as [|x l IH]; [reflexivity|]. simpl. now rewrite IH. Qed.

(** X19: when no source code of the reply starts with a brace, the reply
    is taken as single files: each result gives one file with that source
    code, and every one of them carries the contract address as its file
    name. *)
Theorem single_file_sources_are_named_after_the_address
  (contractAddress : string) (results : list EtherscanResult)
  (stringified : string) :
  (forall r,
     In r results ->
     exists s, SourceCode r = Some s /\ s <> "" /\ startsWithBrace s = false) ->
  getSourceCode JSON_parse contractAddress
    (Response (Some results) stringified)
  = Returned
      (map
         (fun r =>
            mkSourceFile (option_map JString (SourceCode r)) contractAddress)
         results).
Proof.
  intro H. unfold getSourceCode.
  rewrite (mapOutcome_succeeds (sourceFilesOf JSON_parse contractAddress)
             (fun r =>
                [mkSourceFile (option_map JString (SourceCode r))
                   contractAddress])).
  - now rewrite concat_singletons.
  - intros r Hr. destruct (H r Hr) as (s & Es & Hne & Hb).
    unfold sourceFilesOf. rewrite Es. cbn [option_map].
    apply String.eqb_neq in Hne. now rewrite Hne, Hb.
Qed.

Lemma slice_drops_first_and_last (first last : ascii) (body : string) :
  slice_1_minus1 (String first (body ++ String last "")) = body.
Proof.
  unfold slice_1_minus1. induction body as [|a body IH]; [reflexivity|].
  cbn [append list_ascii_of_string].
  destruct (list_ascii_of_string (body ++ String last "")) as [|b l] eqn:E.
  - destruct body; discriminate E.
  - cbn [removelast string_of_list_ascii]. cbn [removelast] in IH.
    now rewrite IH.
Qed.

Lemma member_content (v : JSON) :
  v <> JNull -> member v "content" = Some (contentOf v).
Proof. destruct v; try reflexivity. contradiction. Qed.

(** X20: a source code that starts with a brace is taken as a bundle: its
    first and its last character are dropped, whatever the last one is, the
    rest is parsed, and each entry of [sources] gives one file, in the order
    of the entries, named by the key of the entry and holding its [content];
    an entry without a [content] gives a file whose code is [undefined]. *)
Theorem bundle_gives_its_files_in_order (contractAddress body : string)
  (last : ascii) (properties files : list (string * JSON))
  (stringified : string) :
  JSON_parse body = Some (JObject properties) ->
  lookup properties "sources" = Some (JObject files) ->
  (forall entry, In entry files -> snd entry <> JNull) ->
  getSourceCode JSON_parse contractAddress
    (Response
       (Some [mkEtherscanResult (Some (String "{" (body ++ String last "")))])
       stringified)
  = Returned
      (map (fun entry => mkSourceFile (contentOf (snd entry)) (fst entry))
         files).
Proof.
  intros Hp Hs Hnn. unfold getSourceCode. cbn [mapOutcome].
  unfold sourceFilesOf. cbn [SourceCode String.eqb startsWithBrace].
  rewrite Ascii.eqb_refl, slice_drops_first_and_last.
  unfold parseSources. rewrite Hp. cbn [member]. rewrite Hs.
  cbn [Object_entries].
  assert (Hfold :
            fold_right
              (fun (entry : string * JSON) (acc : option (list SourceFile)) =>
                 match member (snd entry) "content", acc with
                 | Some content, Some fs =>
                     Some (mkSourceFile content (fst entry) :: fs)
                 | _, _ => None
                 end)
              (Some []) files
            = Some
                (map
                   (fun entry =>
                      mkSourceFile (contentOf (snd entry)) (fst entry))
                   files)).
  { clear Hs. induction files as [|e t IH]; [reflexivity|].
    cbn [fold_right map]. rewrite IH by (intros x Hx; apply Hnn; now right).
    now rewrite member_content by (apply Hnn; now left). }
  rewrite Hfold. cbn [List.concat]. now rewrite app_nil_r.
Qed.

End GetSourceCodeFacts.

End EtherscanFacts.

(** ** The further properties at the examples *)

Lemma dotParameters_joins_with_commas_witness :
  dotParameters MoreExamples.transferParams false
  = "(" ++ String.concat ", " (map paramText MoreExamples.transferParams)
    ++ ")".
Proof.
  apply (proj1 (dotParameters_joins_with_commas MoreExamples.transferParams
                  false)).
  reflexivity.
Defined.

Lemma dotStructs_one_satellite_per_struct_witness :
  dotStructs MoreExamples.wallet
  = String.concat ""
      [structBlock MoreExamples.wallet 0
         ("Info", [mkParam (JS.Val "since") "uint256"])].
Proof.
  apply (proj1 (dotStructs_one_satellite_per_struct MoreExamples.wallet
                  ltac:(vm_compute; discriminate))).
Defined.

Lemma satellite_ids_are_distinct_witness :
  dotStructs MoreExamples.registry
  = nl ++ dq ++ "13struct0" ++ dq ++ " [label=" ++ dq
    ++ "{\<\<struct\>\>\nEntry|since: uint256\l}" ++ dq ++ "]"
    ++ nl ++ dq ++ "13struct0" ++ dq ++ " -> 13 [arrowhead=diamond, weight=3]"
    ++ nl ++ dq ++ "13struct1" ++ dq ++ " [label=" ++ dq
    ++ "{\<\<struct\>\>\nOwner|}" ++ dq ++ "]"
    ++ nl ++ dq ++ "13struct1" ++ dq ++ " -> 13 [arrowhead=diamond, weight=3]"
  /\ NoDup ["13"; "13struct0"; "13struct1"; "13enum0"; "13enum1"].
Proof.
  assert (H := satellite_ids_are_distinct MoreExamples.registry).
  destruct H as (T & _ & _ & _ & D).
  - vm_compute. discriminate.
  - vm_compute. discriminate.
  - split; [exact T|exact D].
Defined.

Lemma dotEnums_one_satellite_per_enum_witness :
  dotEnums MoreExamples.wallet
  = String.concat ""
      [enumBlock MoreExamples.wallet 0 ("State", ["Open"; "Closed"])].
Proof.
  apply (proj1 (dotEnums_one_satellite_per_enum MoreExamples.wallet
                  ltac:(vm_compute; discriminate))).
Defined.

Lemma attributes_keep_declaration_order_witness :
  exists before between after,
    attributes MoreExamples.wallet
    = (before ++ MoreExamples.owner :: between ++ Examples.balance
       :: after)%list.
Proof.
  apply (proj2 (attributes_keep_declaration_order MoreExamples.wallet
                  "Public")
           MoreExamples.owner Examples.balance [] [] []).
  reflexivity.
Defined.

Lemma other_stereotypes_are_never_hidden_witness :
  hidden Examples.hideLibs Examples.token = false.
Proof.
  apply (other_stereotypes_are_never_hidden Examples.token Examples.hideLibs);
    discriminate.
Defined.

Lemma subgraph_names_identify_counter_and_kind_witness : 3%N = 3%N.
Proof.
  apply (proj1 subgraph_names_identify_counter_and_kind true 3%N 3%N).
  reflexivity.
Defined.

Lemma classes_of_a_file_keep_their_order_witness :
  exists before between after,
    MoreExamples.sameFile
    = (before ++ Examples.token :: between ++ Examples.base :: after)%list.
Proof.
  apply (proj2 (classes_of_a_file_keep_their_order MoreExamples.sameFile)
           Examples.token Examples.base [] [] []);
    reflexivity.
Defined.

Lemma render_reads_order_within_files_only_witness :
  convertUmlClasses2Dot posix_dirname Examples.classes false noOptions 0
  = convertUmlClasses2Dot posix_dirname MoreExamples.reordered false
      noOptions 0.
Proof.
  apply (render_reads_order_within_files_only posix_dirname Examples.classes
           MoreExamples.reordered false noOptions 0).
  intro p. unfold ofFile. cbn -[String.eqb].
  destruct (String.eqb_spec "lib/B.sol" p), (String.eqb_spec "app/C.sol" p),
    (String.eqb_spec "src/A.sol" p); try reflexivity; congruence.
Defined.

Lemma render_resolves_to_least_codePath_witness :
  addAssociationsToDot MoreExamples.twoCandidates noOptions
  = nl ++ "11 -> 1 []"
  /\ (exists pre post,
        dot_text
          (convertUmlClasses2Dot posix_dirname MoreExamples.twoCandidates
             false noOptions 0)
        = pre ++ nl ++ "11 -> 2 []" ++ post)
  /\ String.leb (codePath Examples.fooB) (codePath Examples.fooA) = true.
Proof.
  split; [reflexivity|].
  assert (H := proj2 (render_resolves_to_least_codePath posix_dirname
                        MoreExamples.twoCandidates false noOptions 0)
                 MoreExamples.importer Examples.fooB Examples.toFoo).
  destruct H as (T & _ & _ & L).
  - vm_compute. auto.
  - split; [exact T|]. apply (L Examples.fooA).
    + simpl. auto.
    + split; [reflexivity|]. left. simpl. auto.
Defined.

Lemma options_filter_edges_by_target_witness :
  hidden Examples.hideLibs MoreExamples.mathLib = true
  /\ addAssociationToDot MoreExamples.mathLib Examples.fooA Examples.toFoo
       Examples.hideLibs
     = nl ++ "12 -> 1 []"
  /\ exists pre post,
       addAssociationsToDot MoreExamples.libAndFoo Examples.hideLibs
       = pre ++ nl ++ "12 -> 1 []" ++ post.
Proof.
  split; [reflexivity|].
  apply (proj2 (proj2 (options_filter_edges_by_target Examples.hideLibs
                         MoreExamples.libAndFoo)
                  MoreExamples.mathLib Examples.fooA Examples.toFoo
                  ltac:(vm_compute; auto))).
  reflexivity.
Defined.

Lemma render_without_reset_differs_witness :
  dot_text
    (convertUmlClasses2Dot posix_dirname
       (sortUmlClassesByCodePath Examples.classes) false noOptions 3)
  <> dot_text
       (convertUmlClasses2Dot posix_dirname Examples.classes false noOptions
          0).
Proof.
  apply (render_without_reset_differs posix_dirname Examples.classes false
           noOptions 0 posix_dirname_nonempty).
  - discriminate.
  - vm_compute. discriminate.
Defined.

Lemma raster_follows_layout_and_svg_write_witness :
  Viz MoreExamples.writable
    (dot_text
       (convertUmlClasses2Dot posix_dirname Examples.classes false noOptions
          0))
  = Done "<svg/>".
Proof.
  destruct (raster_follows_layout_and_svg_write MoreExamples.writable
              posix_dirname Examples.classes "out" (Some "out.png") false
              noOptions 0 png "./out.png.svg" ".")
    as (_ & image & earlier & HV & _).
  - vm_compute. auto.
  - reflexivity.
Defined.


Lemma constructor_accepts_the_known_networks_witness :
  exists p,
    Etherscan.new_EtherscanParser None (Some "kovan") = Etherscan.Returned p.
Proof.
  apply (proj1 (proj1 (EtherscanFacts.constructor_accepts_the_known_networks
                         None)
                  "kovan")).
  simpl. auto.
Defined.


Lemma single_file_sources_are_named_after_the_address_witness :
  Etherscan.getSourceCode MoreExamples.parseBundle "0xabc"
    (Etherscan.Response
       (Some [Etherscan.mkEtherscanResult (Some "contract A {}")]) "{}")
  = Etherscan.Returned
      [Etherscan.mkSourceFile
         (Some (Etherscan.JString "contract A {}")) "0xabc"].
Proof.
  apply (EtherscanFacts.single_file_sources_are_named_after_the_address
           MoreExamples.parseBundle "0xabc"
           [Etherscan.mkEtherscanResult (Some "contract A {}")] "{}").
  intros r [<-|[]]. exists "contract A {}".
  repeat split. discriminate.
Defined.

Lemma bundle_gives_its_files_in_order_witness :
  Etherscan.getSourceCode MoreExamples.parseBundle "0xabc"
    (Etherscan.Response
       (Some [Etherscan.mkEtherscanResult (Some "{{bundle}}")]) "{}")
  = Etherscan.Returned
      [Etherscan.mkSourceFile
         (Some (Etherscan.JString "contract A {}")) "A.sol";
       Etherscan.mkSourceFile None "B.sol"].
Proof.
  apply (EtherscanFacts.bundle_gives_its_files_in_order
           MoreExamples.parseBundle "0xabc" "{bundle}" "}"%char
           _ _ "{}" eq_refl eq_refl).
  intros entry [<-|[<-|[]]]; discriminate.
Defined.

Lemma calls_up_to_the_layout_witness :
  exists later,
    generateFilesFromUmlClasses_calls MoreExamples.writable posix_dirname
      Examples.classes "out" all None false noOptions 0
    = (WriteFileCall "classDiagram.dot"
         (dot_text
            (convertUmlClasses2Dot posix_dirname Examples.classes false
               noOptions 0))
       :: LstatCall "out"
       :: VizCall
            (dot_text
               (convertUmlClasses2Dot posix_dirname Examples.classes false
                  noOptions 0))
       :: later)%list.
Proof.
  destruct (proj2 (calls_up_to_the_layout MoreExamples.writable posix_dirname
                     Examples.classes "out" None false noOptions 0 all))
    as (later & H & _).
  - discriminate.
  - exists later. exact H.
Defined.
